(** * drk-facility: backend client initialisation and the reports view

    A shallow embedding of [src/supabaseClient.ts], which holds two
    modules of the application:

    - the Supabase client initialiser (lines 1-18), a [try]/[catch] block
      that resolves two configuration strings and assigns the module
      variable [supabaseClient];
    - the [ReportsView] component (lines 19-329), whose [useMemo] bodies
      filter the ticket list and derive the statistics and the bar-chart
      data.

    Conventions of the embedding.

    - A JavaScript string is a [string] of the Standard Library; the
      white space recognised by [trim] and [parseInt] is the ASCII part of
      the language's white-space set.
    - A JavaScript number that is always an integer is a [Z] or a [nat];
      other numbers are rationals ([Q]), and a number that may be [NaN] is
      an [option] whose [None] is [NaN].  The arithmetic is exact: the
      binary rounding of the engine is not modelled.
    - An object used as a dictionary ([Record<string, number>]) is the
      list of its own properties in the order of their creation,
      together with what an object made by [{}] inherits from
      [Object.prototype]: reading a key such as "constructor" that is no
      own property finds the inherited function, and writing the key
      [__proto__] reaches the setter of the prototype.  [Object.entries]
      lists the keys that are array indices first, in ascending order
      (a key such as "7"), then the others in the order of their
      creation.
    - [Array.prototype.sort] is a stable insertion sort driven by the
      comparator. *)

From Stdlib Require Import ZArith QArith Qabs Qround Bool List String Ascii Lia.
From Stdlib Require Import Permutation Sorted DecimalString.
Import ListNotations.

Local Open Scope string_scope.
Local Open Scope Z_scope.

(** ** Strings of the runtime *)

Module JSString.

(** White space and line terminators, ASCII part: TAB, LF, VT, FF, CR,
    SP. *)
Definition isWhiteSpace (c : ascii) : bool :=
  let n := nat_of_ascii c in
  ((9 <=? n) && (n <=? 13))%nat || (n =? 32)%nat.

Fixpoint trimStart (s : string) : string :=
  match s with
  | EmptyString => EmptyString
  | String c s' => if isWhiteSpace c then trimStart s' else s
  end.

(** [trimEnd], by recursion from the right end: a white-space character
    is dropped when everything after it has been dropped. *)
Fixpoint trimEnd (s : string) : string :=
  match s with
  | EmptyString => EmptyString
  | String c s' =>
      match trimEnd s' with
      | EmptyString => if isWhiteSpace c then EmptyString else String c EmptyString
      | r => String c r
      end
  end.

(** [String.prototype.trim] *)
Definition trim (s : string) : string := trimEnd (trimStart s).

(** [String.prototype.startsWith] *)
Definition startsWith (s p : string) : bool := String.prefix p s.

(** Truthiness of a string: the empty string is the only falsy one. *)
Definition truthy (s : string) : bool :=
  match s with EmptyString => false | _ => true end.

(** Truthiness of a value that is a string, [null] or [undefined]. *)
Definition truthyOpt (o : option string) : bool :=
  match o with Some s => truthy s | None => false end.

(** [String.prototype.split] with a one-character separator: the pieces
    between the occurrences of [sep], at least one piece. *)
Fixpoint split (sep : ascii) (s : string) : list string :=
  match s with
  | EmptyString => [EmptyString]
  | String c s' =>
      if Ascii.eqb c sep then EmptyString :: split sep s'
      else match split sep s' with
           | p :: ps => String c p :: ps
           | [] => [String c EmptyString]
           end
  end.

Definition isDigit (c : ascii) : bool :=
  let n := nat_of_ascii c in ((48 <=? n) && (n <=? 57))%nat.

Definition digitValue (c : ascii) : Z := Z.of_nat (nat_of_ascii c) - 48.

(** The longest prefix of decimal digits, read left to right with the
    accumulator [acc]; [seen] tells whether a digit was read. *)
Fixpoint digits (s : string) (seen : bool) (acc : Z) : option Z :=
  match s with
  | String c s' =>
      if isDigit c then digits s' true (10 * acc + digitValue c)
      else if seen then Some acc else None
  | EmptyString => if seen then Some acc else None
  end.

(** [parseInt(s, 10)]: leading white space is skipped, one sign is read,
    then the longest run of digits; [None] is [NaN]. *)
Definition parseInt10 (s : string) : option Z :=
  match trimStart s with
  | String "-" r => option_map Z.opp (digits r false 0)
  | String "+" r => digits r false 0
  | r => digits r false 0
  end.

End JSString.

(** ** The backend client initialiser (lines 1-18) *)

Module Init.

Import JSString.

(** How an evaluation completes: normally with a value, or abruptly
    with a thrown value (described by a string). *)
Inductive Completion (A : Type) : Type :=
| Returns (a : A)
| Throws (e : string).
Arguments Returns {A} a.
Arguments Throws {A} e.

(** Calls of the console. *)
Inductive ConsoleCall : Type :=
| ConsoleWarn (msg : string)
| ConsoleError (msg : string) (err : string).

Section WithClient.

(** The type of client handles of [@supabase/supabase-js]. *)
Variable Client : Type.

(** The module's state: the variable [supabaseClient] ([None] is
    [null]) and what was written to the console, in order. *)
Record State : Type := mkState {
  supabaseClient : option Client;
  console : list ConsoleCall
}.

(** Computations over the state that may throw. *)
Definition M (A : Type) : Type := State -> Completion A * State.

Definition ret {A} (a : A) : M A := fun st => (Returns a, st).

Definition bind {A B} (m : M A) (k : A -> M B) : M B :=
  fun st =>
    match m st with
    | (Returns a, st') => k a st'
    | (Throws e, st') => (Throws e, st')
    end.

Definition lift {A} (c : Completion A) : M A := fun st => (c, st).

Definition tryCatch {A} (body : M A) (handler : string -> M A) : M A :=
  fun st =>
    match body st with
    | (Returns a, st') => (Returns a, st')
    | (Throws e, st') => handler e st'
    end.

Definition console_warn (msg : string) : M unit :=
  fun st => (Returns tt, mkState (supabaseClient st) (console st ++ [ConsoleWarn msg])).

Definition console_error (msg err : string) : M unit :=
  fun st => (Returns tt, mkState (supabaseClient st) (console st ++ [ConsoleError msg err])).

Definition set_supabaseClient (c : Client) : M unit :=
  fun st => (Returns tt, mkState (Some c) (console st)).

Notation "x <- m ;; k" := (bind m (fun x => k))
  (at level 61, m at next level, right associativity).

(** What the module reads from its host: the two look-ups in
    [window.localStorage], the two build-time settings of
    [import.meta.env] (each may throw, or yield a string, or [null] /
    [undefined], which is [None]), and [createClient]. *)
Record Host : Type := mkHost {
  getItem_URL_OVERRIDE : Completion (option string);
  env_VITE_SUPABASE_URL : Completion (option string);
  getItem_ANON_KEY_OVERRIDE : Completion (option string);
  env_VITE_SUPABASE_ANON_KEY : Completion (option string);
  createClient : string -> string -> Completion Client
}.

(** [(override || env || '').trim()]; the right operand of [||] is
    evaluated only when the left one is falsy. *)
Definition resolve (override env : Completion (option string)) : M string :=
  o <- lift override ;;
  v <- (if truthyOpt o then ret o
        else e <- lift env ;; ret (if truthyOpt e then e else Some "")) ;;
  ret (trim (match v with Some s => s | None => "" end)).

(** Lines 6-7. *)
Definition resolveConfig (h : Host) : M (string * string) :=
  supabaseUrl <- resolve (getItem_URL_OVERRIDE h) (env_VITE_SUPABASE_URL h) ;;
  supabaseAnonKey <- resolve (getItem_ANON_KEY_OVERRIDE h) (env_VITE_SUPABASE_ANON_KEY h) ;;
  ret (supabaseUrl, supabaseAnonKey).

(** The condition of line 9. *)
Definition validConfig (supabaseUrl supabaseAnonKey : string) : bool :=
  truthy supabaseUrl && truthy supabaseAnonKey && startsWith supabaseUrl "http".

Definition incompleteWarning : string :=
  "Supabase configuration is incomplete or invalid.".

(** Lines 9-13. *)
Definition configure (h : Host) (supabaseUrl supabaseAnonKey : string) : M unit :=
  if validConfig supabaseUrl supabaseAnonKey then
    c <- lift (createClient h supabaseUrl supabaseAnonKey) ;;
    set_supabaseClient c
  else if truthy supabaseUrl || truthy supabaseAnonKey then
    console_warn incompleteWarning
  else ret tt.

(** Lines 6-13: the [try] block. *)
Definition tryBlock (h : Host) : M unit :=
  cfg <- resolveConfig h ;; configure h (fst cfg) (snd cfg).

Definition failedMessage : string := "Failed to initialize Supabase client:".

(** Lines 5-16: the [try] block with its handler. *)
Definition initialise (h : Host) : M unit :=
  tryCatch (tryBlock h) (fun error => console_error failedMessage error).

(** Line 3. *)
Definition initialState : State := mkState None [].

(** Line 18: the exported handle, read after the block has run. *)
Definition supabase (h : Host) : option Client :=
  supabaseClient (snd (initialise h initialState)).

(** The console after the module has been loaded. *)
Definition consoleAfter (h : Host) : list ConsoleCall :=
  console (snd (initialise h initialState)).

End WithClient.

Arguments mkState {Client}.
Arguments supabaseClient {Client}.
Arguments console {Client}.
Arguments mkHost {Client}.
Arguments createClient {Client}.
Arguments getItem_URL_OVERRIDE {Client}.
Arguments env_VITE_SUPABASE_URL {Client}.
Arguments getItem_ANON_KEY_OVERRIDE {Client}.
Arguments env_VITE_SUPABASE_ANON_KEY {Client}.
Arguments resolveConfig {Client}.
Arguments configure {Client}.
Arguments tryBlock {Client}.
Arguments initialise {Client}.
Arguments initialState {Client}.
Arguments supabase {Client}.
Arguments consoleAfter {Client}.

End Init.

(** ** Dates of the runtime

    The time-value arithmetic of the language standard, on exact
    integers.  A time value is a number of milliseconds since the epoch in
    UTC, or [NaN] ([None]). *)

Module JSDate.

Definition msPerDay : Z := 86400000.

(** The host's time zone: the offset of local time from UTC, in
    milliseconds, at a UTC time value and at a local time value. *)
Record TimeZone : Type := mkTimeZone {
  LocalTZA_utc : Z -> Z;
  LocalTZA_local : Z -> Z
}.

Definition Day (t : Z) : Z := t / msPerDay.
Definition TimeWithinDay (t : Z) : Z := t mod msPerDay.

Definition DayFromYear (y : Z) : Z :=
  365 * (y - 1970) + (y - 1969) / 4 - (y - 1901) / 100 + (y - 1601) / 400.

Definition InLeapYear (y : Z) : bool :=
  ((y mod 4 =? 0) && negb (y mod 100 =? 0)) || (y mod 400 =? 0).

(** The day within the year on which month [m] (0 to 11) starts. *)
Definition monthStart (leap : bool) (m : Z) : Z :=
  let l := if leap then 1 else 0 in
  match m with
  | 0 => 0 | 1 => 31 | 2 => 59 + l | 3 => 90 + l | 4 => 120 + l
  | 5 => 151 + l | 6 => 181 + l | 7 => 212 + l | 8 => 243 + l
  | 9 => 273 + l | 10 => 304 + l | _ => 334 + l
  end.

(** [MakeDay]: months outside 0..11 carry into the year, and the day of
    the month is an offset from the first of the month. *)
Definition MakeDay (year month date : Z) : Z :=
  let ym := year + month / 12 in
  let mn := month mod 12 in
  DayFromYear ym + monthStart (InLeapYear ym) mn + date - 1.

Definition MakeDate (day time : Z) : Z := day * msPerDay + time.

(** Year, month (0 to 11) and day of the month (1 to 31) of a day
    number. *)
Definition civil (d : Z) : Z * Z * Z :=
  let z := d + 719468 in
  let era := z / 146097 in
  let doe := z - era * 146097 in
  let yoe := (doe - doe / 1460 + doe / 36524 - doe / 146096) / 365 in
  let doy := doe - (365 * yoe + yoe / 4 - yoe / 100) in
  let mp := (5 * doy + 2) / 153 in
  let dd := doy - (153 * mp + 2) / 5 + 1 in
  let m := if mp <? 10 then mp + 3 else mp - 9 in
  let y := yoe + era * 400 + (if m <=? 2 then 1 else 0) in
  (y, m - 1, dd).

Definition YearFromTime (t : Z) : Z := fst (fst (civil (Day t))).
Definition MonthFromTime (t : Z) : Z := snd (fst (civil (Day t))).
Definition DateFromTime (t : Z) : Z := snd (civil (Day t)).

(** [TimeClip]: a time value beyond 8.64e15 ms is [NaN]. *)
Definition TimeClip (t : Z) : option Z :=
  if Z.abs t >? 8640000000000000 then None else Some t.

(** A [Date] object: its time value. *)
Record Date : Type := mkDate { getTime : option Z }.

Section WithZone.

Variable zone : TimeZone.

Definition UTC (t : Z) : Z := t - LocalTZA_local zone t.
Definition LocalTime (t : Z) : Z := t + LocalTZA_utc zone t.

(** [new Date(year, monthIndex, day)]: any [NaN] argument gives an
    invalid date; a year from 0 to 99 is a year of the 1900s. *)
Definition newDate (year month date : option Z) : Date :=
  match year, month, date with
  | Some y, Some m, Some dt =>
      let yr := if (0 <=? y) && (y <=? 99) then 1900 + y else y in
      mkDate (TimeClip (UTC (MakeDate (MakeDay yr m dt) 0)))
  | _, _, _ => mkDate None
  end.

(** [d.setHours(0, 0, 0, 0)] *)
Definition setHours0 (d : Date) : Date :=
  match getTime d with
  | Some tv => mkDate (TimeClip (UTC (MakeDate (Day (LocalTime tv)) 0)))
  | None => mkDate None
  end.

(** [d.getDate()] *)
Definition getDate (d : Date) : option Z :=
  option_map (fun tv => DateFromTime (LocalTime tv)) (getTime d).

(** [d.setDate(dt)] *)
Definition setDate (d : Date) (dt : option Z) : Date :=
  match getTime d, dt with
  | Some tv, Some n =>
      let t := LocalTime tv in
      mkDate (TimeClip (UTC (MakeDate (MakeDay (YearFromTime t) (MonthFromTime t) n)
                                      (TimeWithinDay t))))
  | _, _ => mkDate None
  end.

End WithZone.

(** [a < b] and [a - b] on numbers that may be [NaN]. *)
Definition num_lt (a b : option Z) : bool :=
  match a, b with Some x, Some y => x <? y | _, _ => false end.

Definition num_sub (a b : option Z) : option Z :=
  match a, b with Some x, Some y => Some (x - y) | _, _ => None end.

End JSDate.

(** ** Numbers of the runtime *)

Module JSNumber.

Definition decimal (n : Z) : string := NilZero.string_of_uint (N.to_uint (Z.to_N n)).

(** [x.toFixed(1)]: the sign, then the integer [n] for which [n / 10]
    is closest to the magnitude of [x] (the larger one at a tie),
    written with its last digit after the point.  Magnitudes from 1e21
    on, which are printed in exponent form, do not arise from time
    values. *)
Definition toFixed1 (x : option Q) : string :=
  match x with
  | None => "NaN"
  | Some q =>
      let s := if Qle_bool 0%Q q then "" else "-" in
      let n := Qfloor ((Qabs q * inject_Z 10 + (1 # 2))%Q) in
      s ++ decimal (n / 10) ++ "." ++ decimal (n mod 10)
  end.

End JSNumber.

(** ** Objects used as dictionaries, and sorting *)

Module JSObject.

Section Dict.

Context {V : Type}.

(** The own properties of an object, in the order of their creation.
    [getOwn o k] is the own property [k] of [o], if there is one. *)
Fixpoint getOwn (o : list (string * V)) (k : string) : option V :=
  match o with
  | [] => None
  | (k', v) :: o' => if String.eqb k' k then Some v else getOwn o' k
  end.

(** Writing the own property [k]: an existing property keeps its place,
    a new one is added last. *)
Fixpoint setOwn (o : list (string * V)) (k : string) (v : V) : list (string * V) :=
  match o with
  | [] => [(k, v)]
  | (k', v') :: o' =>
      if String.eqb k' k then (k', v) :: o' else (k', v') :: setOwn o' k v
  end.

(** The properties that an object literal inherits from
    [Object.prototype], taken to be the standard one: eleven functions
    and the accessor [__proto__]. *)
Definition prototypeNames : list string :=
  ["constructor"; "hasOwnProperty"; "isPrototypeOf"; "propertyIsEnumerable";
   "toLocaleString"; "toString"; "valueOf"; "__proto__";
   "__defineGetter__"; "__defineSetter__"; "__lookupGetter__"; "__lookupSetter__"].

Definition isInherited (k : string) : bool :=
  existsb (String.eqb k) prototypeNames.

(** What [o[k]] finds in an object made by [{}]: an own property, else
    an inherited one (a function, or the prototype itself for
    [__proto__]; never [undefined] and always truthy), else
    [undefined]. *)
Inductive Lookup : Type :=
| Own (v : V)
| Inherited
| Undefined.

Definition lookup (o : list (string * V)) (k : string) : Lookup :=
  match getOwn o k with
  | Some v => Own v
  | None => if isInherited k then Inherited else Undefined
  end.

(** [o[k] = v] for a value [v] that is a number or a string: the key
    [__proto__] reaches the setter of [Object.prototype], which ignores
    such a value and adds no property; every other key writes an own
    property. *)
Definition assign (o : list (string * V)) (k : string) (v : V) : list (string * V) :=
  if String.eqb k "__proto__" then o else setOwn o k v.

End Dict.

Arguments Lookup : clear implicits.

Section Sort.

Context {A : Type}.

(** [after x y] tells whether the comparator is positive at [(x, y)],
    that is, whether [x] has to come after [y]. *)
Variable after : A -> A -> bool.

Fixpoint insertBy (x : A) (l : list A) : list A :=
  match l with
  | [] => [x]
  | y :: l' => if after x y then y :: insertBy x l' else x :: l
  end.

(** [l.sort(comparator)].  When the comparator gives [NaN] for some
    pair it is not a consistent comparator, and the order that the
    engine produces is its own; no statement below is about the order in
    that case. *)
Definition sortBy (l : list A) : list A := fold_right insertBy [] l.

End Sort.

Section Entries.

Context {V : Type}.

Fixpoint allDigits (s : string) : bool :=
  match s with
  | EmptyString => true
  | String c s' => JSString.isDigit c && allDigits s'
  end.

(** The number that a key denotes as an array index: the key is the
    decimal numeral, without leading zeros, of an integer from 0 to
    2^32 - 2. *)
Definition arrayIndex (k : string) : option Z :=
  match k with
  | EmptyString => None
  | String c rest =>
      if allDigits k && (negb (Ascii.eqb c "0") || String.eqb rest "") then
        match JSString.digits k false 0 with
        | Some n => if n <=? 4294967294 then Some n else None
        | None => None
        end
      else None
  end.

Definition isArrayIndex (kv : string * V) : bool :=
  match arrayIndex (fst kv) with Some _ => true | None => false end.

Definition afterIndex (a b : string * V) : bool :=
  match arrayIndex (fst a), arrayIndex (fst b) with
  | Some x, Some y => y <? x
  | _, _ => false
  end.

(** The own properties in the order of [Object.entries]: the keys that
    are array indices first, in ascending order, then the other keys in
    the order of their creation. *)
Definition ownEntries (o : list (string * V)) : list (string * V) :=
  (sortBy afterIndex (filter isArrayIndex o)
   ++ filter (fun kv => negb (isArrayIndex kv)) o)%list.

End Entries.

End JSObject.

(** ** The reports view (lines 19-329) *)

Module ReportsView.

Import JSString JSNumber JSDate JSObject.

(** The fields of [Ticket] and [User] that the view reads.  A date
    field that is absent is [None]. *)
Record Ticket : Type := mkTicket {
  entryDate : option string;
  completionDate : option string;
  status : string;
  area : string;
  technician : string
}.

Record User : Type := mkUser {
  name : string;
  role : string
}.

(** The enum members of [../types] that the view compares with; the
    file that declares them is not part of the sources, so their
    values are parameters. *)
Record Types : Type := mkTypes {
  Status_Abgeschlossen : string;
  Status_Ueberfaellig : string;
  Role_Technician : string
}.

Inductive TimeRange : Type := R7d | R30d | R90d | Rall.

Record ReportFilters : Type := mkReportFilters {
  timeRange : TimeRange;
  f_area : string;
  f_status : string;
  f_technician : string
}.

(** A bar of a chart. *)
Record Bar (V : Type) : Type := mkBar {
  label : string;
  value : V
}.
Arguments mkBar {V}.
Arguments label {V}.
Arguments value {V}.

(** What a dictionary of counts can hold: a number, or the text that
    [+ 1] makes of an inherited property, which is the text of that
    property followed by [ones] characters "1". *)
Inductive Count : Type :=
| Num (n : nat)
| Text (ones : nat).

Record ColouredBar : Type := mkColouredBar {
  bar : Bar Count;
  color : string
}.

(** Lines 33-40.  [None] is [null]; a [Date] whose time value is [NaN]
    is an object, hence not [null]. *)
Definition parseGermanDate (zone : TimeZone) (dateStr : option string) : option Date :=
  match dateStr with
  | None => None
  | Some s =>
      if negb (truthy s) || String.eqb s "N/A" then None
      else match split "." s with
           | [p0; p1; p2] =>
               Some (newDate zone (parseInt10 p2)
                                  (option_map (fun m => m - 1) (parseInt10 p1))
                                  (parseInt10 p0))
           | _ => None
           end
  end.

(** Line 90: the initial state of [useState]. *)
Definition initialReportFilters : ReportFilters :=
  mkReportFilters R30d "Alle" "Alle" "Alle".

(** Line 217: [resetFilters] replaces the state, whatever it was. *)
Definition resetFilters (prev : ReportFilters) : ReportFilters :=
  mkReportFilters R30d "Alle" "Alle" "Alle".

(** Line 104: the table [days]; it is read only for a bounded range. *)
Definition days (r : TimeRange) : option Z :=
  match r with
  | R7d => Some 7
  | R30d => Some 30
  | R90d => Some 90
  | Rall => None
  end.

(** The keys of [timeRangeOptions] (line 229), the values the time range
    select can send. *)
Definition timeRangeOfString (s : string) : option TimeRange :=
  if String.eqb s "7d" then Some R7d
  else if String.eqb s "30d" then Some R30d
  else if String.eqb s "90d" then Some R90d
  else if String.eqb s "all" then Some Rall
  else None.

(** Line 216: [{...prev, [filterName]: value}].  A name other than the
    four of the state adds a property and leaves the four as they are; a
    time range outside the declared type has no counterpart in
    [ReportFilters] and is [None]. *)
Definition handleFilterChange (prev : ReportFilters) (filterName value : string)
  : option ReportFilters :=
  if String.eqb filterName "timeRange" then
    option_map
      (fun r => mkReportFilters r (f_area prev) (f_status prev) (f_technician prev))
      (timeRangeOfString value)
  else if String.eqb filterName "area" then
    Some (mkReportFilters (timeRange prev) value (f_status prev) (f_technician prev))
  else if String.eqb filterName "status" then
    Some (mkReportFilters (timeRange prev) (f_area prev) value (f_technician prev))
  else if String.eqb filterName "technician" then
    Some (mkReportFilters (timeRange prev) (f_area prev) (f_status prev) value)
  else Some prev.

Section View.

Variable zone : TimeZone.
Variable types : Types.

(** Line 95. *)
Definition technicians (users : list User) : list User :=
  filter (fun u => String.eqb (role u) (Role_Technician types)) users.

(** Line 100. *)
Definition today : Date :=
  setHours0 zone (newDate zone (Some 2026) (Some 1) (Some 7)).

(** Line 105. *)
Definition cutOffDate (r : TimeRange) : Date :=
  setDate zone today
    (match getDate zone today, days r with
     | Some d, Some n => Some (d - n)
     | _, _ => None
     end).

(** Lines 101-108: whether the date block returns [false]. *)
Definition rejectsDate (reportFilters : ReportFilters) (ticket : Ticket) : bool :=
  match timeRange reportFilters with
  | Rall => false
  | r =>
      match parseGermanDate zone (entryDate ticket) with
      | None => true
      | Some entryDate' => num_lt (getTime entryDate') (getTime (cutOffDate r))
      end
  end.

(** Lines 99-113: the predicate of the filter. *)
Definition keeps (reportFilters : ReportFilters) (ticket : Ticket) : bool :=
  if rejectsDate reportFilters ticket then false
  else if negb (String.eqb (f_area reportFilters) "Alle")
          && negb (String.eqb (area ticket) (f_area reportFilters)) then false
  else if negb (String.eqb (f_status reportFilters) "Alle")
          && negb (String.eqb (status ticket) (f_status reportFilters)) then false
  else if negb (String.eqb (f_technician reportFilters) "Alle")
          && negb (String.eqb (technician ticket) (f_technician reportFilters)) then false
  else true.

(** Lines 98-114. *)
Definition filteredTickets (reportFilters : ReportFilters) (tickets : list Ticket)
  : list Ticket :=
  filter (keeps reportFilters) tickets.

(** *** [stats] (lines 116-134) *)

Definition isAbgeschlossen (t : Ticket) : bool :=
  String.eqb (status t) (Status_Abgeschlossen types).

Definition isUeberfaellig (t : Ticket) : bool :=
  String.eqb (status t) (Status_Ueberfaellig types).

(** Line 120: the predicate of [resolvedTickets]. *)
Definition isResolved (t : Ticket) : bool :=
  isAbgeschlossen t && truthyOpt (completionDate t) && truthyOpt (entryDate t).

(** Lines 123-130: the reducer; the accumulator is a number of
    milliseconds, [NaN] once an invalid date was subtracted. *)
Definition addProcessingTime (acc : option Z) (t : Ticket) : option Z :=
  match parseGermanDate zone (entryDate t), parseGermanDate zone (completionDate t) with
  | Some entry, Some completion =>
      match acc, num_sub (getTime completion) (getTime entry) with
      | Some a, Some d => Some (a + d)
      | _, _ => None
      end
  | _, _ => acc
  end.

Definition totalTime (resolvedTickets : list Ticket) : option Z :=
  fold_left addProcessingTime resolvedTickets (Some 0).

(** Lines 121-132. *)
Definition avgProcessingTime (resolvedTickets : list Ticket) : option Q :=
  if (0 <? List.length resolvedTickets)%nat then
    option_map
      (fun tt => (inject_Z tt / inject_Z (Z.of_nat (List.length resolvedTickets))
                  / inject_Z (1000 * 60 * 60 * 24))%Q)
      (totalTime resolvedTickets)
  else Some 0%Q.

(** The field [avgProcessingTime] of the result is the text made by
    [toFixed(1)]; it is named [avgProcessingTimeFixed] here, the
    variable of line 121 being [avgProcessingTime]. *)
Record Stats : Type := mkStats {
  total : nat;
  abgeschlossene : nat;
  ueberfaellige : nat;
  avgProcessingTimeFixed : string
}.

Definition stats (filtered : list Ticket) : Stats :=
  mkStats
    (List.length filtered)
    (List.length (filter isAbgeschlossen filtered))
    (List.length (filter isUeberfaellig filtered))
    (toFixed1 (avgProcessingTime (filter isResolved filtered))).

(** *** [ticketsByArea] (lines 136-142) *)

(** Line 138: [acc[area] = (acc[area] || 0) + 1].  An inherited
    property is truthy, so [+ 1] appends to its text. *)
Definition countArea (acc : list (string * Count)) (ticket : Ticket)
  : list (string * Count) :=
  assign acc (area ticket)
         (match lookup acc (area ticket) with
          | Own (Num n) => Num (n + 1)
          | Own (Text j) => Text (j + 1)
          | Inherited => Text 1
          | Undefined => Num 1
          end).

Definition areaCounts (filtered : list Ticket) : list (string * Count) :=
  fold_left countArea filtered [].

(** The comparator [(a, b) => b.value - a.value] is positive when both
    values are numbers and [a.value < b.value]; a text makes it [NaN],
    which [sort] reads as zero. *)
Definition afterCount (a b : Bar Count) : bool :=
  match value a, value b with
  | Num x, Num y => (x <? y)%nat
  | _, _ => false
  end.

(** [Object.entries(o).map(([label, value]) => ({ label, value }))] *)
Definition entries {V} (o : list (string * V)) : list (Bar V) :=
  map (fun kv => mkBar (fst kv) (snd kv)) (ownEntries o).

Definition ticketsByArea (filtered : list Ticket) : list (Bar Count) :=
  firstn 8 (sortBy afterCount (entries (areaCounts filtered))).

(** *** [ticketsByTechnician] (lines 144-162) *)

(** Lines 148-150 and 170-172. *)
Definition initCounts (techs : list User) : list (string * Count) :=
  fold_left (fun counts tech => assign counts (name tech) (Num 0)) techs [].

(** Lines 153-155 and 175-177: the guard, and [counts[t] += 1]. *)
Definition countTicket (counts : list (string * Count)) (ticket : Ticket)
  : list (string * Count) :=
  if truthy (technician ticket) && negb (String.eqb (technician ticket) "N/A") then
    match lookup counts (technician ticket) with
    | Own (Num n) => assign counts (technician ticket) (Num (n + 1))
    | Own (Text j) => assign counts (technician ticket) (Text (j + 1))
    | Inherited => assign counts (technician ticket) (Text 1)
    | Undefined => counts
    end
  else counts.

Definition technicianCounts (techs : list User) (ts : list Ticket)
  : list (string * Count) :=
  fold_left countTicket ts (initCounts techs).

Definition colors : list string :=
  ["#0d6efd"; "#6f42c1"; "#dc3545"; "#fd7e14"; "#198754"; "#6c757d"; "#343a40"; "#adb5bd"].

(** [l.map((item, index) => f item index)] *)
Definition mapi {A B} (f : A -> nat -> B) (l : list A) : list B :=
  map (fun p => f (snd p) (fst p)) (combine (seq 0 (List.length l)) l).

Definition ticketsByTechnician (filtered : list Ticket) (techs : list User)
  : list ColouredBar :=
  let sorted := sortBy afterCount (entries (technicianCounts techs filtered)) in
  mapi (fun item index =>
          mkColouredBar item (nth (index mod List.length colors) colors ""))
       sorted.

(** *** [technicianWorkload] (lines 164-187) *)

Definition isActive (t : Ticket) : bool := negb (isAbgeschlossen t).

(** Line 183, for a count that is a number. *)
Definition percentage (totalActiveTickets : nat) (v : nat) : Q :=
  if (0 <? totalActiveTickets)%nat then
    (inject_Z (Z.of_nat v) / inject_Z (Z.of_nat totalActiveTickets) * 100)%Q
  else 0%Q.

(** Line 183: a text divided by a number is [NaN]. *)
Definition workloadValue (totalActiveTickets : nat) (v : Count) : option Q :=
  match v with
  | Num n => Some (percentage totalActiveTickets n)
  | Text _ => if (0 <? totalActiveTickets)%nat then None else Some 0%Q
  end.

(** The comparator [b.value - a.value] is positive when both values
    are numbers and [a.value < b.value]; it is [NaN], which [sort]
    reads as zero, when one of them is [NaN]. *)
Definition afterNum (a b : Bar (option Q)) : bool :=
  match value a, value b with
  | Some x, Some y => negb (Qle_bool y x)
  | _, _ => false
  end.

Definition technicianWorkload (filtered : list Ticket) (techs : list User)
  : list (Bar (option Q)) :=
  let activeTickets := filter isActive filtered in
  let totalActiveTickets := List.length activeTickets in
  let counts := technicianCounts techs activeTickets in
  sortBy afterNum
    (map (fun e => mkBar (label e) (workloadValue totalActiveTickets (value e)))
         (entries counts)).

(** *** [avgProcessingTimePerTechnician] (lines 189-214)

    The dictionary [techData] holds objects.  With a key that names a
    property of [Object.prototype] the code leaves what is modelled
    here: line 195 with the name [__proto__] replaces the prototype of
    [techData], and lines 201-204 with an inherited key write to an
    object that the whole program shares, or throw.  The definitions
    give [None] there and follow the code everywhere else. *)

Record TechData : Type := mkTechData {
  td_totalTime : option Q;
  td_count : nat
}.

Definition isResolvedAssigned (t : Ticket) : bool :=
  isAbgeschlossen t && truthyOpt (completionDate t) && truthyOpt (entryDate t)
  && negb (String.eqb (technician t) "N/A").

(** Lines 194-196. *)
Definition initTechData (techs : list User) : option (list (string * TechData)) :=
  fold_left
    (fun techData tech =>
       match techData with
       | Some d =>
           if String.eqb (name tech) "__proto__" then None
           else Some (setOwn d (name tech) (mkTechData (Some 0%Q) 0))
       | None => None
       end)
    techs (Some []).

(** Lines 198-206. *)
Definition addTechTime (techData : list (string * TechData)) (t : Ticket)
  : option (list (string * TechData)) :=
  match parseGermanDate zone (entryDate t), parseGermanDate zone (completionDate t) with
  | Some entry, Some completion =>
      match lookup techData (technician t) with
      | Own d =>
          let time :=
            option_map (fun ms => (inject_Z ms / inject_Z (1000 * 60 * 60 * 24))%Q)
                       (num_sub (getTime completion) (getTime entry)) in
          Some (setOwn techData (technician t)
                  (mkTechData
                     (match td_totalTime d, time with
                      | Some a, Some b => Some (a + b)%Q
                      | _, _ => None
                      end)
                     (td_count d + 1)%nat))
      | Inherited => None
      | Undefined => Some techData
      end
  | _, _ => Some techData
  end.

Definition addTechTimes (ts : list Ticket) (techData : option (list (string * TechData)))
  : option (list (string * TechData)) :=
  fold_left
    (fun acc t => match acc with Some d => addTechTime d t | None => None end)
    ts techData.

(** Line 211. *)
Definition techAverage (d : TechData) : option Q :=
  if (0 <? td_count d)%nat then
    option_map (fun tt => (tt / inject_Z (Z.of_nat (td_count d)))%Q) (td_totalTime d)
  else Some 0%Q.

Definition avgProcessingTimePerTechnician (filtered : list Ticket) (techs : list User)
  : option (list (Bar (option Q))) :=
  let resolvedTickets := filter isResolvedAssigned filtered in
  option_map
    (fun techData =>
       sortBy afterNum
         (map (fun e => mkBar (label e) (techAverage (value e))) (entries techData)))
    (addTechTimes resolvedTickets (initTechData techs)).

(** Line 96: the options of the technician select. *)
Definition allTechnicianNames (users : list User) : list string :=
  "Alle" :: map name (technicians users).

End View.

End ReportsView.

(** ** The bar chart component (lines 66-86) *)

Module BarChart.

Import JSNumber.

(** A count as a number of the runtime. *)
Definition numberOfNat (n : nat) : option Q := Some (inject_Z (Z.of_nat n)).

(** [Math.max(a, b)]: [NaN] when an argument is [NaN]. *)
Definition num_max (a b : option Q) : option Q :=
  match a, b with
  | Some x, Some y => Some (if Qle_bool x y then y else x)
  | _, _ => None
  end.

(** Line 67: [Math.max(...data.map(d => d.value), 1)]. *)
Definition maxValue (values : list (option Q)) : option Q :=
  fold_right num_max (Some 1%Q) values.

(** Line 77: the width of a bar in percent, [(item.value / maxValue) * 100]. *)
Definition barWidth (maxV v : option Q) : option Q :=
  match v, maxV with
  | Some x, Some m => Some (x / m * 100)%Q
  | _, _ => None
  end.

(** [x % 1 === 0]: whether a number has no fractional part. *)
Definition isWhole (q : Q) : bool := Qeq_bool (inject_Z (Qfloor q)) q.

(** [x.toFixed(0)]: the sign and the integer closest to the magnitude
    of [x], the larger one at a tie. *)
Definition toFixed0 (x : option Q) : string :=
  match x with
  | None => "NaN"
  | Some q =>
      let s := if Qle_bool 0%Q q then "" else "-" in
      s ++ decimal (Qfloor ((Qabs q + (1 # 2))%Q))
  end.

(** Line 79: [item.value.toFixed(item.value % 1 === 0 ? 0 : 1)] followed
    by the suffix. *)
Definition barText (v : option Q) (valueSuffix : string) : string :=
  (match v with
   | Some q => if isWhole q then toFixed0 v else toFixed1 v
   | None => toFixed1 v
   end) ++ valueSuffix.

(** A row of the chart: the label, the width of the bar and the text
    beside it. *)
Record Row : Type := mkRow {
  rowLabel : string;
  rowWidth : option Q;
  rowText : string
}.

(** Lines 66-86: the rows of the chart, or [None] for the placeholder
    shown when there is no data. *)
Definition HorizontalBarChart (data : list (string * option Q)) (valueSuffix : string)
  : option (list Row) :=
  let maxV := maxValue (map snd data) in
  if (0 <? List.length data)%nat then
    Some (map (fun item => mkRow (fst item) (barWidth maxV (snd item))
                                 (barText (snd item) valueSuffix))
              data)
  else None.

End BarChart.

(** ** Measures used to state the properties of the charts *)

Module Measures.

Import JSString ReportsView.

(** The sum of the values of a chart. *)
Definition sumQ (l : list Q) : Q := fold_right Qplus 0%Q l.

(** The sum of numbers of the runtime: [NaN] when one of them is. *)
Definition sumNum (l : list (option Q)) : option Q :=
  fold_right
    (fun v acc => match v, acc with
                  | Some x, Some y => Some (x + y)%Q
                  | _, _ => None
                  end)
    (Some 0%Q) l.

(** Two bars of a chart of counts in descending order: both hold
    numbers, and the second is not the larger. *)
Definition descending (a b : Bar Count) : Prop :=
  exists x y, value a = Num x /\ value b = Num y /\ (y <= x)%nat.

Definition descendingQ (a b : Bar (option Q)) : Prop :=
  exists x y, value a = Some x /\ value b = Some y /\ (y <= x)%Q.

(** The number that a count holds; a text holds none. *)
Definition numberOf (c : Count) : nat :=
  match c with Num n => n | Text _ => 0%nat end.

(** Names that reach no property of [Object.prototype]: those of the
    technicians, the technician fields of tickets, and their areas. *)
Definition plainTechnicians (techs : list User) : Prop :=
  Forall (fun u => JSObject.isInherited (name u) = false) techs.

Definition plainTickets (ts : list Ticket) : Prop :=
  Forall (fun t => JSObject.isInherited (technician t) = false) ts.

Definition plainAreas (ts : list Ticket) : Prop :=
  Forall (fun t => JSObject.isInherited (area t) = false) ts.

(** Whether a ticket passes the guard of lines 153 and 175 for the
    technicians [techs]: its technician is non-empty, is not "N/A" and
    is the name of one of them. *)
Definition namesTechnician (techs : list User) (t : Ticket) : bool :=
  truthy (technician t)
  && negb (String.eqb (technician t) "N/A")
  && existsb (fun u => String.eqb (name u) (technician t)) techs.

(** The processing time of a ticket in milliseconds, for a ticket whose
    two dates parse to valid dates; [None] otherwise. *)
Definition processingTime (zone : JSDate.TimeZone) (t : Ticket) : option Z :=
  match parseGermanDate zone (entryDate t), parseGermanDate zone (completionDate t) with
  | Some entry, Some completion => JSDate.num_sub (JSDate.getTime completion) (JSDate.getTime entry)
  | _, _ => None
  end.

Definition sumZ (l : list Z) : Z := fold_right Z.add 0 l.

(** The number of occurrences of a character in a string. *)
Fixpoint countChar (c : ascii) (s : string) : nat :=
  match s with
  | EmptyString => 0
  | String c' s' => ((if Ascii.eqb c' c then 1 else 0) + countChar c s')%nat
  end.

(** A time zone whose offset from UTC is at most a day, at every local
    and at every UTC time. *)
Definition boundedZone (zone : JSDate.TimeZone) : Prop :=
  forall t, Z.abs (JSDate.LocalTZA_local zone t) <= JSDate.msPerDay
            /\ Z.abs (JSDate.LocalTZA_utc zone t) <= JSDate.msPerDay.

(** A zone whose offset from UTC is always [o] milliseconds. *)
Definition fixedZone (o : Z) : JSDate.TimeZone :=
  JSDate.mkTimeZone (fun _ => o) (fun _ => o).

(** The tickets of a list whose technician field is [k], and those whose
    area is [k]. *)
Definition ticketsOf (k : string) (ts : list Ticket) : list Ticket :=
  filter (fun t => String.eqb (technician t) k) ts.

Definition ticketsIn (k : string) (ts : list Ticket) : list Ticket :=
  filter (fun t => String.eqb (area t) k) ts.

End Measures.

(** ** Sample data used by the examples below *)

Module Samples.

Import Init JSDate ReportsView.

(** A host whose local storage is empty and whose build-time settings
    are a URL padded with blanks and a key; [createClient] returns the
    pair it was given. *)
Definition hostOk : Host (string * string) :=
  mkHost (Returns None) (Returns (Some "  https://x.supabase.co ")) (Returns (Some ""))
         (Returns (Some "anon-key")) (fun u k => Returns (u, k)).

(** A host with a key only. *)
Definition hostKeyOnly : Host (string * string) :=
  mkHost (Returns None) (Returns None) (Returns None)
         (Returns (Some "anon-key")) (fun u k => Returns (u, k)).

(** A host whose local storage cannot be read. *)
Definition hostNoStorage : Host (string * string) :=
  mkHost (Throws "SecurityError") (Returns None) (Returns None)
         (Returns None) (fun u k => Returns (u, k)).

(** Central European Time without daylight saving: one hour ahead. *)
Definition cet : TimeZone := mkTimeZone (fun _ => 3600000) (fun _ => 3600000).

Definition sampleTypes : Types := mkTypes "Abgeschlossen" "Ueberfaellig" "Techniker".

Definition allFilters : ReportFilters := mkReportFilters Rall "Alle" "Alle" "Alle".

Definition lastWeek : ReportFilters := mkReportFilters R7d "Alle" "Alle" "Alle".

(** A ticket of New Year's Day 2026, completed ten days later. *)
Definition tenDays : Ticket :=
  mkTicket (Some "01.01.2026") (Some "11.01.2026") "Abgeschlossen" "Haus A" "Bob".

(** A completed ticket whose entry date is the placeholder. *)
Definition noEntryDate : Ticket :=
  mkTicket (Some "N/A") (Some "11.01.2026") "Abgeschlossen" "Haus A" "Bob".

(** An open ticket that nobody is assigned to. *)
Definition unassigned : Ticket :=
  mkTicket (Some "05.02.2026") None "Offen" "Haus A" "N/A".

(** An open ticket of the technician Bob. *)
Definition bobsOpen : Ticket :=
  mkTicket (Some "05.02.2026") None "Offen" "Haus B" "Bob".

Definition bob : User := mkUser "Bob" "Techniker".
Definition eve : User := mkUser "Eve" "Techniker".
Definition admin : User := mkUser "Al" "Admin".

(** A technician whose name is empty, and a completed ticket whose
    technician field is empty. *)
Definition nameless : User := mkUser "" "Techniker".

Definition emptyTechnician : Ticket :=
  mkTicket (Some "01.01.2026") (Some "11.01.2026") "Abgeschlossen" "Haus A" "".

(** A host with both overrides in local storage and build-time
    settings that cannot be read. *)
Definition hostOverrides : Host (string * string) :=
  mkHost (Returns (Some " https://o.supabase.co")) (Throws "env")
         (Returns (Some "override-key ")) (Throws "env") (fun u k => Returns (u, k)).

(** A host whose URL override is blank, with complete build-time
    settings. *)
Definition hostBlank : Host (string * string) :=
  mkHost (Returns (Some "   ")) (Returns (Some "https://x.supabase.co"))
         (Returns None) (Returns (Some "anon-key")) (fun u k => Returns (u, k)).

(** An open ticket dated with a two-digit year, one entered on the
    first day that the last seven days show, and a completed ticket
    whose entry date lacks the year. *)
Definition twoDigitYear : Ticket :=
  mkTicket (Some "05.02.26") None "Offen" "Haus A" "Bob".

Definition onCutOff : Ticket :=
  mkTicket (Some "31.01.2026") None "Offen" "Haus A" "Bob".

Definition completedNoYear : Ticket :=
  mkTicket (Some "05.02.") (Some "11.01.2026") "Abgeschlossen" "Haus A" "Bob".

(** A technician whose name is the accessor of the prototype, and an
    open ticket whose technician field names an inherited function. *)
Definition protoTechnician : User := mkUser "__proto__" "Techniker".

Definition constructorTicket : Ticket :=
  mkTicket (Some "05.02.2026") None "Offen" "Haus A" "constructor".

(** An open ticket whose entry date lacks the year. *)
Definition noYear : Ticket :=
  mkTicket (Some "05.02.") None "Offen" "Haus B" "Eve".

End Samples.

(** ** Facts about the initialiser *)

Section InitFacts.

Import Init JSString.

Variable Client : Type.
Variable h : Host Client.

Lemma truthy_nonempty (s : string) : truthy s = true <-> s <> "".
Proof. destruct s; simpl; split; congruence. Qed.

Lemma startsWith_http (s : string) :
  startsWith s "http" = true <-> exists rest, s = "http" ++ rest.
Proof.
  unfold startsWith. split.
  - intros H.
    destruct s as [|a [|b [|c [|d r]]]]; simpl in H; try discriminate;
      repeat match type of H with
             | (if ?d then _ else _) = true => destruct d; [subst | discriminate]
             end; try discriminate.
    exists r. reflexivity.
  - intros [rest ->]. simpl. destruct rest; reflexivity.
Qed.

(** The condition of line 9, in words. *)
Lemma validConfig_spec (url key : string) :
  validConfig url key = true <->
  url <> "" /\ key <> "" /\ exists rest, url = "http" ++ rest.
Proof.
  unfold validConfig. rewrite !andb_true_iff, !truthy_nonempty, startsWith_http.
  tauto.
Qed.

(** Resolving the configuration neither assigns the handle nor writes
    to the console. *)
Lemma resolveConfig_state (st : State Client) :
  snd (resolveConfig h st) = st.
Proof.
  unfold resolveConfig, resolve, bind, lift, ret.
  destruct (getItem_URL_OVERRIDE h) as [o1|]; [|reflexivity].
  destruct (truthyOpt o1); simpl;
    [|destruct (env_VITE_SUPABASE_URL h); [|reflexivity]];
    (destruct (getItem_ANON_KEY_OVERRIDE h) as [o2|]; [|reflexivity]);
    (destruct (truthyOpt o2); simpl; [reflexivity|]);
    destruct (env_VITE_SUPABASE_ANON_KEY h); reflexivity.
Qed.

(** A run of [configure] that throws leaves the state as it was. *)
Lemma configure_throws (url key e : string) (st st' : State Client) :
  configure h url key st = (Throws e, st') -> st' = st.
Proof.
  unfold configure, bind, lift, set_supabaseClient, console_warn, ret.
  destruct (validConfig url key).
  - destruct (createClient h url key); intros H; inversion H; reflexivity.
  - destruct (truthy url || truthy key); intros H; inversion H.
Qed.

Lemma tryBlock_throws (e : string) (st st' : State Client) :
  tryBlock h st = (Throws e, st') -> st' = st.
Proof.
  unfold tryBlock, bind. intros H.
  pose proof (resolveConfig_state st) as Hs.
  destruct (resolveConfig h st) as [[cfg|e0] st0]; simpl in Hs; subst st0.
  - eapply configure_throws; eassumption.
  - inversion H; reflexivity.
Qed.

(** C5. When the look-ups resolve to the strings [url] and [key], the
    exported handle is the client made by [createClient url key]
    exactly when both strings are non-empty and [url] starts with
    "http" (and the construction returns); when that condition fails
    and one of the strings is non-empty, the warning is the only
    console output and the handle is [null]; when both are empty
    nothing is written and the handle is [null]. *)
Theorem supabase_configured_iff (url key : string) :
  resolveConfig h initialState = (Returns (url, key), initialState) ->
  (forall c, supabase h = Some c <->
             (url <> "" /\ key <> "" /\ exists rest, url = "http" ++ rest)
             /\ createClient h url key = Returns c)
  /\ (~ (url <> "" /\ key <> "" /\ exists rest, url = "http" ++ rest) ->
      (url <> "" \/ key <> "") ->
      supabase h = None /\ consoleAfter h = [ConsoleWarn incompleteWarning])
  /\ (url = "" -> key = "" -> supabase h = None /\ consoleAfter h = []).
Proof.
  intros Hr.
  unfold supabase, consoleAfter, initialise, tryCatch, tryBlock, bind.
  rewrite Hr. cbn [fst snd]. unfold configure.
  pose proof (validConfig_spec url key) as Hspec.
  destruct (validConfig url key) eqn:Hv.
  - assert (Hvalid := proj1 Hspec eq_refl).
    unfold bind, lift, set_supabaseClient, console_error.
    split; [|split].
    + intros c. split.
      * destruct (createClient h url key); simpl; intros H; inversion H;
          subst; split; [exact Hvalid | reflexivity].
      * intros [_ ->]. reflexivity.
    + intros Hn. exfalso; auto.
    + intros -> _. destruct Hvalid as [Hn _]. congruence.
  - split; [|split].
    + intros c. split.
      * destruct (truthy url || truthy key); simpl; discriminate.
      * intros [Habs _]. apply Hspec in Habs. discriminate.
    + intros _ Hne.
      assert (Ht : truthy url || truthy key = true).
      { apply orb_true_iff. rewrite !truthy_nonempty. exact Hne. }
      rewrite Ht. split; reflexivity.
    + intros -> ->. split; reflexivity.
Qed.

(** C6. Loading the module always completes normally, and when the
    [try] block throws, the handle is [null] and the error was logged
    with [console.error]. *)
Theorem initialise_never_throws :
  (exists st', initialise h initialState = (Returns tt, st'))
  /\ (forall e st1,
        tryBlock h initialState = (Throws e, st1) ->
        supabase h = None /\ consoleAfter h = [ConsoleError failedMessage e]).
Proof.
  split.
  - unfold initialise, tryCatch.
    destruct (tryBlock h initialState) as [[[]|e] st1]; eexists; reflexivity.
  - intros e st1 H.
    pose proof (tryBlock_throws _ _ _ H) as ->.
    unfold supabase, consoleAfter, initialise, tryCatch. rewrite H.
    split; reflexivity.
Qed.

End InitFacts.

(** ** Facts about the filter state *)

Section FilterFacts.

Import JSString JSDate ReportsView.

(** C9. Whatever the filter state was, after [resetFilters] the time
    range is "30d" and the three categorical filters are "Alle". *)
Theorem resetFilters_restores (prev : ReportFilters) :
  timeRange (resetFilters prev) = R30d
  /\ f_area (resetFilters prev) = "Alle"
  /\ f_status (resetFilters prev) = "Alle"
  /\ f_technician (resetFilters prev) = "Alle".
Proof. repeat split. Qed.

(** With the three categorical filters at "Alle", only the date block
    can reject a ticket. *)
Lemma keeps_Alle (zone : TimeZone) (r : TimeRange) (t : Ticket) :
  keeps zone (mkReportFilters r "Alle" "Alle" "Alle") t
  = negb (rejectsDate zone (mkReportFilters r "Alle" "Alle" "Alle") t).
Proof.
  unfold keeps. cbn [f_area f_status f_technician].
  destruct (rejectsDate zone _ t); reflexivity.
Qed.

(** C4, as the code has it. The initial state selects the last 30
    days, not the whole period; its area, status and technician
    filters are "Alle" and reject no ticket. *)
Theorem initialReportFilters_defaults :
  timeRange initialReportFilters = R30d
  /\ f_area initialReportFilters = "Alle"
  /\ f_status initialReportFilters = "Alle"
  /\ f_technician initialReportFilters = "Alle"
  /\ (forall zone t,
        keeps zone initialReportFilters t
        = negb (rejectsDate zone initialReportFilters t)).
Proof.
  do 4 (split; [reflexivity|]). intros zone t. apply keeps_Alle.
Qed.

(** C4, refuted. The initial time range is not "all": a ticket of
    1 January 2026 is rejected by the initial state and kept by the
    state whose four fields are "show all". *)
Lemma initialReportFilters_not_all :
  timeRange initialReportFilters <> Rall
  /\ keeps Samples.cet initialReportFilters Samples.tenDays = false
  /\ keeps Samples.cet Samples.allFilters Samples.tenDays = true.
Proof.
  split; [discriminate|]. split; vm_compute; reflexivity.
Qed.

(** *** The date block of the filter *)

(** With the range "all" the date block rejects nothing: a ticket is
    kept exactly when the categorical filters match. *)
Lemma rejectsDate_all (zone : TimeZone) (fs : ReportFilters) (t : Ticket) :
  timeRange fs = Rall -> rejectsDate zone fs t = false.
Proof. unfold rejectsDate. intros ->. reflexivity. Qed.

(** An absent or empty entry date and the placeholder "N/A" parse to
    [null]. *)
Lemma parseGermanDate_null (zone : TimeZone) (d : option string) :
  d = None \/ d = Some "" \/ d = Some "N/A" -> parseGermanDate zone d = None.
Proof. intros [-> | [-> | ->]]; reflexivity. Qed.

(** With a bounded range, a ticket whose entry date parses to [null]
    is rejected. *)
Lemma rejectsDate_null (zone : TimeZone) (fs : ReportFilters) (t : Ticket) :
  timeRange fs <> Rall ->
  parseGermanDate zone (entryDate t) = None ->
  keeps zone fs t = false.
Proof.
  intros Hr Hp. unfold keeps, rejectsDate. rewrite Hp.
  destruct (timeRange fs); [reflexivity ..|congruence].
Qed.

(** C2, at the failing input. The entry date "05.02." has three parts,
    so [parseGermanDate] returns a [Date]; its year is [NaN], so the
    date is invalid; the object is truthy and its time value compares
    false with the cut-off, so the ticket passes the filter under
    every range, the bounded ones included. *)
Theorem invalid_entryDate_kept (zone : TimeZone) (r : TimeRange) :
  parseGermanDate zone (entryDate Samples.noYear) = Some (mkDate None)
  /\ filteredTickets zone (mkReportFilters r "Alle" "Alle" "Alle") [Samples.noYear]
     = [Samples.noYear].
Proof.
  split; [reflexivity|].
  unfold filteredTickets. cbn [filter]. rewrite keeps_Alle.
  unfold rejectsDate. cbn [timeRange].
  change (parseGermanDate zone (entryDate Samples.noYear)) with (Some (mkDate None)).
  destruct r; reflexivity.
Qed.

End FilterFacts.

(** ** Facts about the processing time *)

Section ProcessingTimeFacts.

Import JSString JSNumber JSDate ReportsView.

Variable zone : TimeZone.
Variable types : Types.

(** [TimeClip] keeps a time value within the range of dates. *)
Lemma TimeClip_in_range (t : Z) :
  Z.abs t <= 8640000000000000 -> TimeClip t = Some t.
Proof.
  intros H. unfold TimeClip.
  destruct (Z.gtb_spec (Z.abs t) 8640000000000000); [lia | reflexivity].
Qed.

(** The time value of a date made from a year, a month and a day that
    are numbers, when the zone's offset there is below a day and the day
    is within 10^8 days of the epoch. *)
Lemma newDate_getTime (y m d : Z) :
  let yr := if (0 <=? y) && (y <=? 99) then 1900 + y else y in
  let local := MakeDate (MakeDay yr m d) 0 in
  Z.abs (LocalTZA_local zone local) <= msPerDay ->
  Z.abs (MakeDay yr m d) < 100000000 ->
  getTime (newDate zone (Some y) (Some m) (Some d))
  = Some (local - LocalTZA_local zone local).
Proof.
  intros yr local Ho Hd. unfold newDate. cbn [getTime]. fold yr. fold local.
  unfold UTC. apply TimeClip_in_range.
  unfold local, MakeDate, msPerDay in *. lia.
Qed.

(** C8. For a completed ticket entered on "01.01.2026" and completed
    on "11.01.2026", in a zone whose offset from UTC is the same at the
    two local midnights (and below a day), both dates parse, their
    difference is exactly ten days of milliseconds, and the ticket
    alone gives the average "10.0". *)
Theorem ten_days_contribution (t : Ticket) :
  let jan1 := MakeDate (MakeDay 2026 0 1) 0 in
  let jan11 := MakeDate (MakeDay 2026 0 11) 0 in
  entryDate t = Some "01.01.2026" ->
  completionDate t = Some "11.01.2026" ->
  status t = Status_Abgeschlossen types ->
  LocalTZA_local zone jan1 = LocalTZA_local zone jan11 ->
  Z.abs (LocalTZA_local zone jan1) <= msPerDay ->
  (exists entry completion,
      parseGermanDate zone (entryDate t) = Some entry
      /\ parseGermanDate zone (completionDate t) = Some completion
      /\ num_sub (getTime completion) (getTime entry) = Some (10 * msPerDay))
  /\ addProcessingTime zone (Some 0) t = Some (10 * msPerDay)
  /\ (exists q, avgProcessingTime zone (filter (isResolved types) [t]) = Some q
                /\ (q == 10)%Q)
  /\ avgProcessingTimeFixed (stats zone types [t]) = "10.0".
Proof.
  intros jan1 jan11 He Hc Hs Hz Ho.
  assert (Hp1 : parseGermanDate zone (entryDate t)
                = Some (newDate zone (Some 2026) (Some 0) (Some 1))).
  { rewrite He. reflexivity. }
  assert (Hp2 : parseGermanDate zone (completionDate t)
                = Some (newDate zone (Some 2026) (Some 0) (Some 11))).
  { rewrite Hc. reflexivity. }
  assert (Hg1 : getTime (newDate zone (Some 2026) (Some 0) (Some 1))
                = Some (jan1 - LocalTZA_local zone jan1)).
  { apply newDate_getTime; [exact Ho | vm_compute; reflexivity]. }
  assert (Hg2 : getTime (newDate zone (Some 2026) (Some 0) (Some 11))
                = Some (jan11 - LocalTZA_local zone jan11)).
  { apply newDate_getTime; [|vm_compute; reflexivity].
    change (Z.abs (LocalTZA_local zone jan11) <= msPerDay).
    rewrite <- Hz. exact Ho. }
  assert (Hd : num_sub (getTime (newDate zone (Some 2026) (Some 0) (Some 11)))
                       (getTime (newDate zone (Some 2026) (Some 0) (Some 1)))
               = Some (10 * msPerDay)).
  { rewrite Hg1, Hg2, <- Hz. unfold num_sub. f_equal.
    replace jan11 with (jan1 + 10 * msPerDay) by (vm_compute; reflexivity). lia. }
  assert (Ha : addProcessingTime zone (Some 0) t = Some (10 * msPerDay)).
  { unfold addProcessingTime. rewrite Hp1, Hp2, Hd. reflexivity. }
  assert (Hr : filter (isResolved types) [t] = [t]).
  { cbn [filter]. unfold isResolved, isAbgeschlossen.
    rewrite Hs, String.eqb_refl, He, Hc. reflexivity. }
  assert (Hav : avgProcessingTime zone [t]
                = Some (inject_Z (10 * msPerDay) / inject_Z 1 / inject_Z (1000 * 60 * 60 * 24))%Q).
  { unfold avgProcessingTime, totalTime. cbn [fold_left List.length Nat.ltb Nat.leb].
    rewrite Ha. reflexivity. }
  split; [|split; [|split]].
  - eexists _, _. split; [exact Hp1 | split; [exact Hp2 | exact Hd]].
  - exact Ha.
  - rewrite Hr, Hav. eexists. split; [reflexivity | vm_compute; reflexivity].
  - unfold stats. cbn [avgProcessingTimeFixed]. rewrite Hr, Hav.
    vm_compute. reflexivity.
Qed.

(** When every ticket of [resolvedTickets] has a processing time, the
    reducer adds them all up. *)
Lemma fold_addProcessingTime_valid (l : list Ticket) (ds : list Z) (a : Z) :
  map (Measures.processingTime zone) l = map Some ds ->
  fold_left (addProcessingTime zone) l (Some a) = Some (a + Measures.sumZ ds).
Proof.
  revert ds a. induction l as [|t l IH]; intros [|d ds] a H; simpl in H; try discriminate.
  - simpl. f_equal. lia.
  - inversion H as [[Hd Hl]]. cbn [fold_left].
    assert (Hstep : addProcessingTime zone (Some a) t = Some (a + d)).
    { unfold addProcessingTime. unfold Measures.processingTime in Hd.
      destruct (parseGermanDate zone (entryDate t)); [|discriminate].
      destruct (parseGermanDate zone (completionDate t)); [|discriminate].
      rewrite Hd. reflexivity. }
    rewrite Hstep, (IH ds (a + d) Hl). simpl. f_equal. lia.
Qed.

(** In that case, and only then in general, the statistic is the mean
    of the processing times in days. *)
Lemma avgProcessingTime_mean (l : list Ticket) (ds : list Z) :
  l <> [] ->
  map (Measures.processingTime zone) l = map Some ds ->
  avgProcessingTime zone l
  = Some (inject_Z (Measures.sumZ ds) / inject_Z (Z.of_nat (List.length l))
          / inject_Z (1000 * 60 * 60 * 24))%Q.
Proof.
  intros Hne H. unfold avgProcessingTime, totalTime.
  rewrite (fold_addProcessingTime_valid l ds 0 H).
  destruct l; [congruence|]. reflexivity.
Qed.

End ProcessingTimeFacts.

Section StatsCases.

Import JSString JSNumber JSDate ReportsView Samples.

(** C3, at the failing input. Of two completed tickets with both date
    fields present, one took ten days and the other has the placeholder
    "N/A" as its entry date.  The reducer skips the second ticket, the
    division still counts it: the card shows "5.0", while the sibling
    computation per technician divides by the number of tickets it
    added up and shows ten days for the same two tickets. *)
Theorem stats_counts_skipped_ticket :
  filteredTickets cet allFilters [tenDays; noEntryDate] = [tenDays; noEntryDate]
  /\ filter (isResolved sampleTypes) [tenDays; noEntryDate] = [tenDays; noEntryDate]
  /\ totalTime cet [tenDays; noEntryDate] = Some (10 * msPerDay)
  /\ avgProcessingTimeFixed (stats cet sampleTypes [tenDays; noEntryDate]) = "5.0"
  /\ avgProcessingTimeFixed (stats cet sampleTypes [tenDays]) = "10.0"
  /\ option_map (map (fun b => (label b, option_map Qred (value b))))
                (avgProcessingTimePerTechnician cet sampleTypes [tenDays; noEntryDate] [bob])
     = Some [("Bob", Some 10%Q)].
Proof. repeat split; vm_compute; reflexivity. Qed.

(** The filter of the last seven days on four tickets: the one of
    January and the one without an entry date are rejected, the one
    whose entry date is an invalid date stays. *)
Example filteredTickets_lastWeek :
  filteredTickets cet lastWeek [tenDays; noEntryDate; noYear; bobsOpen]
  = [noYear; bobsOpen].
Proof. vm_compute. reflexivity. Qed.

(** The cut-off of the last seven days is the local midnight of
    31 January 2026. *)
Example cutOffDate_lastWeek :
  cutOffDate cet R7d = newDate cet (Some 2026) (Some 0) (Some 31)
  /\ parseGermanDate cet (Some "31.01.2026") = Some (cutOffDate cet R7d)
  /\ parseGermanDate cet (Some "07.02.2026") = Some (today cet).
Proof. repeat split; vm_compute; reflexivity. Qed.

(** A key without a URL: the warning, and no handle. *)
Example supabase_key_only :
  Init.supabase hostKeyOnly = None
  /\ Init.consoleAfter hostKeyOnly = [Init.ConsoleWarn Init.incompleteWarning].
Proof. split; reflexivity. Qed.

End StatsCases.

(** ** Facts about dictionaries and sorting *)

Section DictFacts.

Import JSObject.

Context {V : Type}.
Implicit Types (o : list (string * V)) (k : string) (v : V).

Lemma get_Some_In o k v : getOwn o k = Some v -> In k (map fst o).
Proof.
  induction o as [|[k' v'] o IH]; simpl; [discriminate|].
  destruct (String.eqb_spec k' k); auto.
Qed.

Lemma get_None_notIn o k : getOwn o k = None -> ~ In k (map fst o).
Proof.
  induction o as [|[k' v'] o IH]; simpl; [tauto|].
  destruct (String.eqb_spec k' k); [discriminate|].
  intros H [E|Hin]; [contradiction | exact (IH H Hin)].
Qed.

Lemma In_get o k : In k (map fst o) -> exists v, getOwn o k = Some v.
Proof.
  intros Hin. destruct (getOwn o k) eqn:E; [eauto|].
  exfalso. exact (get_None_notIn _ _ E Hin).
Qed.

(** Assigning to an existing property leaves the list of keys as it
    is. *)
Lemma keys_set_Some o k v v' :
  getOwn o k = Some v' -> map fst (setOwn o k v) = map fst o.
Proof.
  induction o as [|[k' w] o IH]; simpl; [discriminate|].
  destruct (String.eqb_spec k' k); simpl; [reflexivity|].
  intros H. rewrite (IH H). reflexivity.
Qed.

(** Assigning to a new property adds its key last. *)
Lemma keys_set_None o k v :
  getOwn o k = None -> map fst (setOwn o k v) = (map fst o ++ [k])%list.
Proof.
  induction o as [|[k' w] o IH]; simpl; [reflexivity|].
  destruct (String.eqb_spec k' k); simpl; [discriminate|].
  intros H. rewrite (IH H). reflexivity.
Qed.

Lemma In_keys_set o k v x :
  In x (map fst (setOwn o k v)) <-> x = k \/ In x (map fst o).
Proof.
  destruct (getOwn o k) as [v'|] eqn:E.
  - rewrite (keys_set_Some _ _ v _ E). apply get_Some_In in E.
    split; [auto | intros [->|H]; assumption].
  - rewrite (keys_set_None _ _ v E), in_app_iff. simpl.
    split; [intros [H|[H|[]]]; auto | intros [->|H]; auto].
Qed.

Lemma NoDup_keys_set o k v :
  NoDup (map fst o) -> NoDup (map fst (setOwn o k v)).
Proof.
  intros Hnd. destruct (getOwn o k) as [v'|] eqn:E.
  - rewrite (keys_set_Some _ _ v _ E). exact Hnd.
  - rewrite (keys_set_None _ _ v E).
    apply NoDup_app; [exact Hnd | repeat constructor; simpl; tauto |].
    intros x Hin [<-|[]]. exact (get_None_notIn _ _ E Hin).
Qed.

(** The keys after [forEach(tech => o[tech.name] = v0)]. *)
Lemma keys_init {U : Type} (nm : U -> string) (v0 : V) (us : list U) o :
  NoDup (map fst o) ->
  let o' := fold_left (fun acc u => setOwn acc (nm u) v0) us o in
  NoDup (map fst o')
  /\ forall x, In x (map fst o') <-> In x (map fst o) \/ In x (map nm us).
Proof.
  revert o. induction us as [|u us IH]; intros o Hnd; simpl.
  - split; [exact Hnd | intros x; tauto].
  - destruct (IH (setOwn o (nm u) v0) (NoDup_keys_set _ _ _ Hnd)) as [H1 H2].
    split; [exact H1|]. intros x. rewrite H2, In_keys_set.
    split; [intros [[->|H]|H] | intros [H|[<-|H]]]; auto.
Qed.

End DictFacts.

Section SortFacts.

Import JSObject.

Context {A : Type}.
Variable after : A -> A -> bool.

Lemma insertBy_perm (x : A) (l : list A) :
  Permutation (insertBy after x l) (x :: l).
Proof.
  induction l as [|y l IH]; simpl; [reflexivity|].
  destruct (after x y); [|reflexivity].
  rewrite IH. apply perm_swap.
Qed.

(** Sorting rearranges the list. *)
Lemma sortBy_perm (l : list A) : Permutation (sortBy after l) l.
Proof.
  induction l as [|x l IH]; simpl; [reflexivity|].
  rewrite insertBy_perm. constructor. exact IH.
Qed.

(** The order [R] that a comparator sorts by: [x] may precede [y]
    when the comparator is not positive at [(x, y)]. *)
Variable R : A -> A -> Prop.
Hypothesis after_false : forall x y, after x y = false -> R x y.
Hypothesis after_true : forall x y, after x y = true -> R y x.
Hypothesis R_trans : forall x y z, R x y -> R y z -> R x z.

Lemma insertBy_sorted (x : A) (l : list A) :
  StronglySorted R l -> StronglySorted R (insertBy after x l).
Proof.
  induction l as [|y l IH]; intros Hs; simpl.
  - repeat constructor.
  - inversion Hs as [|? ? Hs' Hall]; subst.
    destruct (after x y) eqn:E.
    + constructor; [exact (IH Hs')|].
      apply (Permutation_Forall (x := x :: l)).
      * symmetry. apply insertBy_perm.
      * constructor; [exact (after_true _ _ E) | exact Hall].
    + constructor; [exact Hs|].
      constructor; [exact (after_false _ _ E)|].
      eapply Forall_impl; [|exact Hall].
      intros z Hz. exact (R_trans _ _ _ (after_false _ _ E) Hz).
Qed.

Lemma sortBy_sorted (l : list A) : StronglySorted R (sortBy after l).
Proof.
  induction l as [|x l IH]; simpl; [constructor|].
  apply insertBy_sorted. exact IH.
Qed.

End SortFacts.

(** ** Reading a dictionary after writing it *)

Section DictReadWrite.

Import JSObject.

Context {V : Type}.
Implicit Types (o : list (string * V)) (k : string) (v : V).

Lemma get_set_same o k v : getOwn (setOwn o k v) k = Some v.
Proof.
  induction o as [|[k' w] o IH]; simpl.
  - rewrite String.eqb_refl. reflexivity.
  - destruct (String.eqb_spec k' k) as [E|E]; simpl.
    + rewrite E, String.eqb_refl. reflexivity.
    + destruct (String.eqb_spec k' k); [contradiction | exact IH].
Qed.

Lemma get_set_other o k k' v : k' <> k -> getOwn (setOwn o k v) k' = getOwn o k'.
Proof.
  intros Hne. induction o as [|[k0 w] o IH]; simpl.
  - destruct (String.eqb_spec k k'); [congruence | reflexivity].
  - destruct (String.eqb_spec k0 k) as [E|E]; simpl.
    + subst k0. destruct (String.eqb_spec k k'); [congruence | reflexivity].
    + destruct (String.eqb_spec k0 k'); [reflexivity | exact IH].
Qed.

Lemma get_In o k v : getOwn o k = Some v -> In (k, v) o.
Proof.
  induction o as [|[k' w] o IH]; simpl; [discriminate|].
  destruct (String.eqb_spec k' k) as [E|E].
  - intros H. inversion H; subst. left. reflexivity.
  - intros H. right. exact (IH H).
Qed.

(** With distinct keys, an entry is what [getOwn] finds at its key. *)
Lemma In_get_NoDup o k v : NoDup (map fst o) -> In (k, v) o -> getOwn o k = Some v.
Proof.
  induction o as [|[k' w] o IH]; simpl; [tauto|].
  intros Hnd [E|Hin]; inversion Hnd as [|? ? Hnot Hnd']; subst.
  - inversion E; subst. rewrite String.eqb_refl. reflexivity.
  - destruct (String.eqb_spec k' k) as [E|E]; [|exact (IH Hnd' Hin)].
    exfalso. apply Hnot. subst k'. apply (in_map fst) in Hin. exact Hin.
Qed.

(** After [forEach(u => o[nm(u)] = v0)] on the empty object, every key
    holds [v0]. *)
Lemma get_init {U : Type} (nm : U -> string) (v0 : V) (us : list U) k :
  In k (map nm us) ->
  getOwn (fold_left (fun acc u => setOwn acc (nm u) v0) us []) k = Some v0.
Proof.
  assert (Hgen : forall o, (forall x w, getOwn o x = Some w -> w = v0) ->
            forall x w, getOwn (fold_left (fun acc u => setOwn acc (nm u) v0) us o) x = Some w ->
                        w = v0).
  { induction us as [|u us IH]; intros o Ho x w; simpl; [apply Ho|].
    apply IH. intros y z Hy.
    destruct (String.eqb_spec y (nm u)) as [E|E].
    - subst y. rewrite get_set_same in Hy. congruence.
    - rewrite get_set_other in Hy by exact E. exact (Ho _ _ Hy). }
  intros Hin.
  destruct (keys_init nm v0 us [] (NoDup_nil _)) as [_ Hk].
  assert (Hin' : In k (map fst (fold_left (fun acc u => setOwn acc (nm u) v0) us []))).
  { apply Hk. right. exact Hin. }
  destruct (In_get _ _ Hin') as [w Hw]. rewrite Hw. f_equal.
  eapply Hgen; [|exact Hw].
  intros x w' Hx. discriminate Hx.
Qed.

End DictReadWrite.

(** ** Facts about the dictionaries of counts *)

Section CountFacts.

Import JSString JSNumber JSDate JSObject ReportsView Measures.

Variable zone : TimeZone.
Variable types : Types.

Lemma In_technicians (users : list User) (u : User) :
  In u (technicians types users) <-> In u users /\ role u = Role_Technician types.
Proof.
  unfold technicians. rewrite filter_In, String.eqb_eq. tauto.
Qed.

Lemma filter_split_perm {A : Type} (p : A -> bool) (l : list A) :
  Permutation (filter p l ++ filter (fun x => negb (p x)) l) l.
Proof.
  induction l as [|x l IH]; simpl; [reflexivity|].
  destruct (p x); simpl.
  - constructor. exact IH.
  - rewrite <- Permutation_middle. constructor. exact IH.
Qed.

(** [Object.entries] lists the own properties, each once. *)
Lemma ownEntries_perm {V : Type} (o : list (string * V)) :
  Permutation (ownEntries o) o.
Proof.
  unfold ownEntries.
  rewrite (sortBy_perm afterIndex (filter isArrayIndex o)).
  apply filter_split_perm.
Qed.

Lemma labels_entries {V : Type} (o : list (string * V)) :
  Permutation (map label (entries o)) (map fst o).
Proof.
  unfold entries. rewrite map_map. cbn [label].
  apply Permutation_map. apply ownEntries_perm.
Qed.

Lemma In_entries {V : Type} (o : list (string * V)) (b : Bar V) :
  In b (entries o) <-> In (label b, value b) o.
Proof.
  unfold entries. rewrite in_map_iff. split.
  - intros [[k v] [<- Hin]]. cbn [label value fst snd].
    exact (Permutation_in _ (ownEntries_perm o) Hin).
  - intros Hin. exists (label b, value b). split; [destruct b; reflexivity|].
    exact (Permutation_in _ (Permutation_sym (ownEntries_perm o)) Hin).
Qed.

(** *** Reading and writing through the prototype *)

Lemma plain_not_proto (k : string) : isInherited k = false -> k <> "__proto__".
Proof. intros H ->. discriminate H. Qed.

Lemma getOwn_assign_other {V : Type} (o : list (string * V)) (k k' : string) (v : V) :
  k' <> k -> getOwn (assign o k v) k' = getOwn o k'.
Proof.
  intros Hne. unfold assign. destruct (String.eqb k "__proto__"); [reflexivity|].
  apply get_set_other. exact Hne.
Qed.

Lemma getOwn_assign_same {V : Type} (o : list (string * V)) (k : string) (v : V) :
  k <> "__proto__" -> getOwn (assign o k v) k = Some v.
Proof.
  intros Hne. unfold assign. apply String.eqb_neq in Hne. rewrite Hne.
  apply get_set_same.
Qed.

Lemma In_keys_assign {V : Type} (o : list (string * V)) (k x : string) (v : V) :
  In x (map fst (assign o k v)) <-> In x (map fst o) \/ (x = k /\ k <> "__proto__").
Proof.
  unfold assign. destruct (String.eqb_spec k "__proto__") as [E|E].
  - split; [auto | intros [H|[_ H]]; [exact H | contradiction]].
  - rewrite In_keys_set. split; [intros [H|H]; auto | intros [H|[H _]]; auto].
Qed.

Lemma NoDup_keys_assign {V : Type} (o : list (string * V)) (k : string) (v : V) :
  NoDup (map fst o) -> NoDup (map fst (assign o k v)).
Proof.
  intros H. unfold assign. destruct (String.eqb k "__proto__"); [exact H|].
  apply NoDup_keys_set. exact H.
Qed.

(** Writing a key that is an own property keeps the list of keys. *)
Lemma keys_assign_own {V : Type} (o : list (string * V)) (k : string) (v w : V) :
  getOwn o k = Some w -> map fst (assign o k v) = map fst o.
Proof.
  intros H. unfold assign. destruct (String.eqb k "__proto__"); [reflexivity|].
  exact (keys_set_Some _ _ _ _ H).
Qed.

(** *** The counts per technician *)

(** After lines 148-150 the counts hold 0 for the name of every
    technician except [__proto__], which gets no property. *)
Lemma initCounts_spec (techs : list User) :
  NoDup (map fst (initCounts techs))
  /\ (forall x, In x (map fst (initCounts techs)) <->
                In x (map name techs) /\ x <> "__proto__")
  /\ (forall k v, getOwn (initCounts techs) k = Some v -> v = Num 0).
Proof.
  unfold initCounts.
  assert (Hgen : forall o,
            NoDup (map fst o) ->
            (forall k v, getOwn o k = Some v -> v = Num 0) ->
            let c := fold_left (fun counts tech => assign counts (name tech) (Num 0))
                               techs o in
            NoDup (map fst c)
            /\ (forall x, In x (map fst c) <->
                          In x (map fst o) \/ (In x (map name techs) /\ x <> "__proto__"))
            /\ (forall k v, getOwn c k = Some v -> v = Num 0)).
  { induction techs as [|u us IH]; intros o Hnd Hval; simpl.
    - split; [exact Hnd|]. split; [intros x; tauto | exact Hval].
    - destruct (IH (assign o (name u) (Num 0))) as [H1 [H2 H3]].
      + apply NoDup_keys_assign. exact Hnd.
      + intros k v Hk. destruct (String.eqb_spec k (name u)) as [E|E].
        * subst k. unfold assign in Hk.
          destruct (String.eqb (name u) "__proto__"); [exact (Hval _ _ Hk)|].
          rewrite get_set_same in Hk. congruence.
        * rewrite getOwn_assign_other in Hk by exact E. exact (Hval _ _ Hk).
      + split; [exact H1|]. split; [|exact H3].
        intros x. rewrite H2, In_keys_assign.
        split.
        * intros [[H|[-> H]]|[H Hp]]; auto.
        * intros [H|[[<-|H] Hp]]; auto. }
  destruct (Hgen [] (NoDup_nil _)) as [H1 [H2 H3]]; [discriminate|].
  split; [exact H1|]. split; [|exact H3].
  intros x. rewrite H2. simpl. tauto.
Qed.

Lemma getOwn_countTicket_other (counts : list (string * Count)) (t : Ticket) (k : string) :
  technician t <> k -> getOwn (countTicket counts t) k = getOwn counts k.
Proof.
  intros Hne. unfold countTicket.
  destruct (_ && _); [|reflexivity].
  destruct (lookup counts (technician t)) as [[n|j]| |];
    try reflexivity; apply getOwn_assign_other; congruence.
Qed.

(** Counting on a key that holds a number. *)
Lemma getOwn_countTicket_Num (counts : list (string * Count)) (t : Ticket)
      (k : string) (n : nat) :
  k <> "__proto__" -> getOwn counts k = Some (Num n) ->
  getOwn (countTicket counts t) k
  = Some (Num (n + if String.eqb (technician t) k && truthy k
                      && negb (String.eqb k "N/A") then 1 else 0)).
Proof.
  intros Hp Hg.
  destruct (String.eqb_spec (technician t) k) as [E|E].
  - unfold countTicket, lookup. rewrite E, Hg. cbn [andb].
    destruct (truthy k && negb (String.eqb k "N/A")).
    + apply getOwn_assign_same. exact Hp.
    + rewrite Hg, Nat.add_0_r. reflexivity.
  - rewrite getOwn_countTicket_other by exact E. cbn [andb].
    rewrite Hg, Nat.add_0_r. reflexivity.
Qed.

Lemma getOwn_fold_countTicket_Num (ts : list Ticket) (counts : list (string * Count))
      (k : string) (n : nat) :
  k <> "__proto__" -> getOwn counts k = Some (Num n) ->
  getOwn (fold_left countTicket ts counts) k
  = Some (Num (n + List.length
                     (filter (fun t => String.eqb (technician t) k && truthy k
                                       && negb (String.eqb k "N/A")) ts))).
Proof.
  intros Hp. revert counts n. induction ts as [|t ts IH]; intros counts n Hg; simpl.
  - rewrite Hg, Nat.add_0_r. reflexivity.
  - rewrite (IH _ _ (getOwn_countTicket_Num counts t k n Hp Hg)).
    destruct (_ && _); simpl; do 2 f_equal; lia.
Qed.

Lemma guard_length (k : string) (ts : list Ticket) :
  List.length (filter (fun t => String.eqb (technician t) k && truthy k
                                && negb (String.eqb k "N/A")) ts)
  = if truthy k && negb (String.eqb k "N/A")
    then List.length (ticketsOf k ts) else 0%nat.
Proof.
  unfold ticketsOf. destruct (truthy k && negb (String.eqb k "N/A")) eqn:E.
  - f_equal. apply filter_ext. intros t. rewrite <- andb_assoc, E.
    apply andb_true_r.
  - assert (H : filter (fun t => String.eqb (technician t) k && truthy k
                                 && negb (String.eqb k "N/A")) ts = []).
    { induction ts as [|t ts IH]; simpl; [reflexivity|].
      rewrite <- andb_assoc, E, andb_false_r. exact IH. }
    rewrite H. reflexivity.
Qed.

(** What the counts hold for the name of a technician: the number of
    tickets with that technician field, whatever else the tickets
    name. *)
Lemma getOwn_technicianCounts (techs : list User) (ts : list Ticket) (k : string) :
  In k (map name techs) -> k <> "__proto__" ->
  getOwn (technicianCounts techs ts) k
  = Some (Num (if truthy k && negb (String.eqb k "N/A")
               then List.length (ticketsOf k ts) else 0%nat)).
Proof.
  intros Hin Hp. unfold technicianCounts.
  destruct (initCounts_spec techs) as [_ [Hk Hv]].
  assert (Hin' : In k (map fst (initCounts techs))) by (apply Hk; auto).
  destruct (In_get _ _ Hin') as [v Hg].
  rewrite (Hv _ _ Hg) in Hg.
  rewrite (getOwn_fold_countTicket_Num ts _ k 0 Hp Hg), guard_length. reflexivity.
Qed.

Lemma NoDup_keys_countTicket (counts : list (string * Count)) (t : Ticket) :
  NoDup (map fst counts) -> NoDup (map fst (countTicket counts t)).
Proof.
  intros H. unfold countTicket. destruct (_ && _); [|exact H].
  destruct (lookup counts (technician t)) as [[n|j]| |];
    try exact H; apply NoDup_keys_assign; exact H.
Qed.

Lemma NoDup_keys_technicianCounts (techs : list User) (ts : list Ticket) :
  NoDup (map fst (technicianCounts techs ts)).
Proof.
  unfold technicianCounts.
  generalize (proj1 (initCounts_spec techs)). generalize (initCounts techs).
  induction ts as [|t ts IH]; intros c Hc; simpl; [exact Hc|].
  apply IH. apply NoDup_keys_countTicket. exact Hc.
Qed.

(** A ticket whose technician field names no inherited property adds
    no key. *)
Lemma keys_countTicket_plain (counts : list (string * Count)) (t : Ticket) :
  isInherited (technician t) = false ->
  map fst (countTicket counts t) = map fst counts.
Proof.
  intros Hp. unfold countTicket, lookup. destruct (_ && _); [|reflexivity].
  destruct (getOwn counts (technician t)) as [[n|j]|] eqn:E.
  - exact (keys_assign_own _ _ _ _ E).
  - exact (keys_assign_own _ _ _ _ E).
  - rewrite Hp. reflexivity.
Qed.

Lemma keys_technicianCounts_plain (techs : list User) (ts : list Ticket) :
  plainTickets ts ->
  map fst (technicianCounts techs ts) = map fst (initCounts techs).
Proof.
  unfold technicianCounts. generalize (initCounts techs).
  induction ts as [|t ts IH]; intros c Hp; simpl; [reflexivity|].
  inversion Hp as [|? ? Ht Hts]; subst.
  rewrite (IH _ Hts). apply keys_countTicket_plain. exact Ht.
Qed.

(** With plain names, the entries of the counts are the technicians'
    names, each with the number of its tickets. *)
Lemma entry_technicianCounts_plain (techs : list User) (ts : list Ticket) (b : Bar Count) :
  plainTickets ts ->
  In b (entries (technicianCounts techs ts)) ->
  In (label b) (map name techs)
  /\ label b <> "__proto__"
  /\ value b = Num (if truthy (label b) && negb (String.eqb (label b) "N/A")
                    then List.length (ticketsOf (label b) ts) else 0%nat).
Proof.
  intros Hp Hb. apply In_entries in Hb.
  assert (Hk : In (label b) (map fst (initCounts techs))).
  { rewrite <- (keys_technicianCounts_plain techs ts Hp).
    apply (in_map fst) in Hb. exact Hb. }
  apply (proj1 (proj2 (initCounts_spec techs))) in Hk. destruct Hk as [Hin Hne].
  split; [exact Hin|]. split; [exact Hne|].
  pose proof (In_get_NoDup _ _ _ (NoDup_keys_technicianCounts techs ts) Hb) as Hg.
  rewrite (getOwn_technicianCounts techs ts _ Hin Hne) in Hg. congruence.
Qed.

Lemma combine_seq_snd {A B : Type} (g : A -> B) (l : list A) (s : nat) :
  map (fun p => g (snd p)) (combine (seq s (List.length l)) l) = map g l.
Proof.
  revert s. induction l as [|x l IH]; intros s; simpl; [reflexivity|].
  rewrite IH. reflexivity.
Qed.

(** Colouring keeps the bars and their order. *)
Lemma bars_ticketsByTechnician (filtered : list Ticket) (techs : list User) :
  map bar (ticketsByTechnician filtered techs)
  = sortBy afterCount (entries (technicianCounts techs filtered)).
Proof.
  unfold ticketsByTechnician, mapi. rewrite map_map. cbn [bar].
  rewrite (combine_seq_snd (fun x => x)). apply map_id.
Qed.

Lemma NoDup_map_In_inj {A B : Type} (f : A -> B) (l : list A) (x y : A) :
  NoDup (map f l) -> In x l -> In y l -> f x = f y -> x = y.
Proof.
  induction l as [|a l IH]; simpl; [tauto|].
  intros Hnd Hx Hy E. inversion Hnd as [|? ? Hnot Hnd']; subst.
  destruct Hx as [->|Hx], Hy as [->|Hy]; auto.
  - exfalso. apply Hnot. rewrite E. apply in_map. exact Hy.
  - exfalso. apply Hnot. rewrite <- E. apply in_map. exact Hx.
Qed.

Lemma StronglySorted_map {A B : Type} (f : A -> B) (R : B -> B -> Prop) (l : list A) :
  StronglySorted R (map f l) -> StronglySorted (fun a b => R (f a) (f b)) l.
Proof.
  induction l as [|a l IH]; simpl; intros H; [constructor|].
  inversion H as [|? ? Hs Hall]; subst.
  constructor; [exact (IH Hs)|].
  rewrite Forall_map in Hall. exact Hall.
Qed.

(** Sorting a list of numbers by the comparator puts them in
    descending order. *)
Lemma afterCount_sorted (l : list (Bar Count)) :
  Forall (fun b => exists n, value b = Num n) l ->
  StronglySorted descending (sortBy afterCount l).
Proof.
  induction l as [|x l IH]; intros Hall; [constructor|].
  inversion Hall as [|? ? [n Hx] Hl]; subst. cbn [sortBy fold_right].
  specialize (IH Hl). fold (sortBy afterCount l).
  assert (HP : Forall (fun b => exists n, value b = Num n) (sortBy afterCount l)).
  { apply (Permutation_Forall (Permutation_sym (sortBy_perm afterCount l))). exact Hl. }
  revert IH HP. generalize (sortBy afterCount l). intros s.
  induction s as [|y s IHs]; intros Hs HP; simpl; [repeat constructor|].
  inversion Hs as [|? ? Hs' Hy]; subst.
  inversion HP as [|? ? [m Hm] HP']; subst.
  unfold afterCount at 1. rewrite Hx, Hm.
  destruct (Nat.ltb_spec n m) as [Hlt|Hge].
  - constructor; [exact (IHs Hs' HP')|].
    apply (Permutation_Forall (Permutation_sym (insertBy_perm afterCount x s))).
    constructor; [|exact Hy].
    exists m, n. repeat split; [exact Hm | exact Hx | lia].
  - constructor; [exact Hs|].
    constructor; [exists n, m; repeat split; [exact Hx | exact Hm | lia]|].
    eapply Forall_impl; [|exact Hy].
    intros z [a [c [Ha [Hc Hle]]]]. rewrite Hm in Ha. inversion Ha; subst a.
    exists n, c. repeat split; [exact Hx | exact Hc | lia].
Qed.

End CountFacts.

(** ** Facts about the charts per technician *)

Section ChartFacts.

Import JSString JSNumber JSDate JSObject ReportsView Measures Samples.

Variable zone : TimeZone.
Variable types : Types.

(** A key of the counts is the name of a technician or of an inherited
    property, and never [__proto__]. *)
Lemma keys_technicianCounts (techs : list User) (ts : list Ticket) (x : string) :
  In x (map fst (technicianCounts techs ts)) ->
  x <> "__proto__" /\ (In x (map name techs) \/ isInherited x = true).
Proof.
  unfold technicianCounts.
  assert (H0 : forall y, In y (map fst (initCounts techs)) ->
                 y <> "__proto__" /\ (In y (map name techs) \/ isInherited y = true)).
  { intros y Hy. apply (proj1 (proj2 (initCounts_spec techs))) in Hy. tauto. }
  revert H0. generalize (initCounts techs).
  induction ts as [|t ts IH]; intros c Hc; simpl; [apply Hc|].
  apply IH. intros y Hy. unfold countTicket, lookup in Hy.
  destruct (_ && _); [|exact (Hc y Hy)].
  destruct (getOwn c (technician t)) as [[n|j]|] eqn:E.
  - rewrite (keys_assign_own _ _ _ _ E) in Hy. exact (Hc y Hy).
  - rewrite (keys_assign_own _ _ _ _ E) in Hy. exact (Hc y Hy).
  - destruct (isInherited (technician t)) eqn:Ei; [|exact (Hc y Hy)].
    apply In_keys_assign in Hy. destruct Hy as [Hy|[-> Hp]]; [exact (Hc y Hy)|].
    split; [exact Hp | right; exact Ei].
Qed.

(** C7, at the failing inputs. A technician whose name is [__proto__]
    gets no bar: the assignment of line 149 reaches the setter of the
    prototype and adds no property.  A ticket whose technician field
    is "constructor", the name of no technician, passes the guard of
    line 153, which finds the inherited function, and line 154 adds a
    bar that holds a text. *)
Theorem ticketsByTechnician_prototype_names :
  technicians sampleTypes [protoTechnician; bob] = [protoTechnician; bob]
  /\ map bar (ticketsByTechnician (filteredTickets cet allFilters [])
                                  (technicians sampleTypes [protoTechnician; bob]))
     = [mkBar "Bob" (Num 0)]
  /\ filteredTickets cet allFilters [constructorTicket] = [constructorTicket]
  /\ List.length (ticketsByTechnician (filteredTickets cet allFilters [constructorTicket])
                                      (technicians sampleTypes [bob])) = 2%nat
  /\ In (mkBar "constructor" (Text 1))
        (map bar (ticketsByTechnician (filteredTickets cet allFilters [constructorTicket])
                                      (technicians sampleTypes [bob]))).
Proof.
  split; [reflexivity|]. split; [vm_compute; reflexivity|].
  split; [vm_compute; reflexivity|]. split; [vm_compute; reflexivity|].
  vm_compute. right. left. reflexivity.
Qed.

(** With names that reach no property of the prototype, the chart of
    ticket counts has exactly one bar for every user whose role is
    Technician and no other bar; every bar holds the number of filtered
    tickets whose technician field is its label (0 for an empty name or
    "N/A"); and the bars are in descending order of these numbers. *)
Theorem ticketsByTechnician_plain
    (reportFilters : ReportFilters) (tickets : list Ticket) (users : list User) :
  let filtered := filteredTickets zone reportFilters tickets in
  let result := ticketsByTechnician filtered (technicians types users) in
  plainTechnicians (technicians types users) ->
  plainTickets filtered ->
  (forall u, In u users -> role u = Role_Technician types ->
             exists! b, In b result /\ label (bar b) = name u)
  /\ (forall b, In b result ->
                exists u, In u users /\ role u = Role_Technician types
                          /\ name u = label (bar b))
  /\ (forall b, In b result ->
        value (bar b)
        = Num (if truthy (label (bar b)) && negb (String.eqb (label (bar b)) "N/A")
               then List.length (ticketsOf (label (bar b)) filtered) else 0%nat))
  /\ StronglySorted (fun a b => descending (bar a) (bar b)) result.
Proof.
  intros filtered result Hpt Hpf.
  set (techs := technicians types users) in *.
  pose proof (bars_ticketsByTechnician filtered techs) as Hbars. fold result in Hbars.
  set (counts := technicianCounts techs filtered) in *.
  assert (Hperm : Permutation (map bar result) (entries counts)).
  { rewrite Hbars. apply sortBy_perm. }
  assert (Hlab : Permutation (map (fun b => label (bar b)) result) (map fst counts)).
  { rewrite <- (map_map bar label), (Permutation_map label Hperm). apply labels_entries. }
  assert (Hnd : NoDup (map (fun b => label (bar b)) result)).
  { apply (Permutation_NoDup (Permutation_sym Hlab)).
    apply NoDup_keys_technicianCounts. }
  assert (Hentry : forall b, In b result ->
            In (label (bar b)) (map name techs)
            /\ label (bar b) <> "__proto__"
            /\ value (bar b)
               = Num (if truthy (label (bar b))
                         && negb (String.eqb (label (bar b)) "N/A")
                      then List.length (ticketsOf (label (bar b)) filtered) else 0%nat)).
  { intros b Hb. apply (entry_technicianCounts_plain techs filtered (bar b) Hpf).
    apply (Permutation_in _ Hperm). apply in_map. exact Hb. }
  split; [|split; [|split]].
  - intros u Hu Hrole.
    assert (Hut : In u techs) by (apply In_technicians; auto).
    assert (Hin : In (name u) (map (fun b => label (bar b)) result)).
    { apply (Permutation_in _ (Permutation_sym Hlab)).
      unfold counts. rewrite (keys_technicianCounts_plain techs filtered Hpf).
      apply (proj1 (proj2 (initCounts_spec techs))). split; [apply in_map; exact Hut|].
      apply plain_not_proto. unfold plainTechnicians in Hpt.
      rewrite Forall_forall in Hpt. exact (Hpt u Hut). }
    apply in_map_iff in Hin. destruct Hin as [b [Hb Hinb]].
    exists b. split; [auto|]. intros b' [Hinb' Hb'].
    apply (NoDup_map_In_inj (fun b => label (bar b)) result); auto. congruence.
  - intros b Hb. destruct (Hentry b Hb) as [Hin _].
    apply in_map_iff in Hin. destruct Hin as [u [Hn Hu]].
    apply In_technicians in Hu. exists u. tauto.
  - intros b Hb. exact (proj2 (proj2 (Hentry b Hb))).
  - apply (StronglySorted_map bar descending). rewrite Hbars.
    apply afterCount_sorted. apply Forall_forall. intros e He.
    destruct (entry_technicianCounts_plain techs filtered e Hpf He) as [_ [_ Hv]].
    eexists. exact Hv.
Qed.

(** For every input, a bar whose label is the name of a technician
    holds the number of filtered tickets whose technician field is that
    name, and 0 for a technician whose name is empty or "N/A". *)
Theorem ticketsByTechnician_values
    (reportFilters : ReportFilters) (tickets : list Ticket) (users : list User)
    (b : ColouredBar) :
  let filtered := filteredTickets zone reportFilters tickets in
  In b (ticketsByTechnician filtered (technicians types users)) ->
  In (label (bar b)) (map name (technicians types users)) ->
  value (bar b)
  = Num (if truthy (label (bar b)) && negb (String.eqb (label (bar b)) "N/A")
         then List.length (ticketsOf (label (bar b)) filtered) else 0%nat).
Proof.
  intros filtered Hb Hname.
  apply (in_map bar) in Hb. rewrite bars_ticketsByTechnician in Hb.
  apply (Permutation_in _ (sortBy_perm afterCount _)), In_entries in Hb.
  assert (Hp : label (bar b) <> "__proto__").
  { apply (in_map fst) in Hb. exact (proj1 (keys_technicianCounts _ _ _ Hb)). }
  pose proof (In_get_NoDup _ _ _ (NoDup_keys_technicianCounts _ _) Hb) as Hg.
  rewrite (getOwn_technicianCounts _ filtered _ Hname Hp) in Hg. congruence.
Qed.

Lemma filter_none {A : Type} (p : A -> bool) (l : list A) :
  (forall x, In x l -> p x = false) -> filter p l = [].
Proof.
  induction l as [|x l IH]; intros H; simpl; [reflexivity|].
  rewrite (H x (or_introl eq_refl)). apply IH. intros y Hy. apply H. right. exact Hy.
Qed.

Lemma getOwn_fold_countTicket_other (ts : list Ticket) (counts : list (string * Count))
      (k : string) :
  (forall t, In t ts -> technician t <> k) ->
  getOwn (fold_left countTicket ts counts) k = getOwn counts k.
Proof.
  revert counts. induction ts as [|t ts IH]; intros counts H; simpl; [reflexivity|].
  rewrite IH by (intros t' Ht'; apply H; right; exact Ht').
  apply getOwn_countTicket_other. apply H. left. reflexivity.
Qed.

(** Choosing a technician in the filter leaves every other technician
    with a count of 0. *)
Theorem technician_filter_isolates
    (prev : ReportFilters) (v : string) (tickets : list Ticket) (users : list User) :
  v <> "Alle" ->
  exists next,
    handleFilterChange prev "technician" v = Some next
    /\ (forall t, In t (filteredTickets zone next tickets) -> technician t = v)
    /\ (forall b, In b (ticketsByTechnician (filteredTickets zone next tickets)
                                            (technicians types users)) ->
                  label (bar b) <> v -> value (bar b) = Num 0).
Proof.
  intros Hv. eexists. split; [reflexivity|].
  set (next := mkReportFilters (timeRange prev) (f_area prev) (f_status prev) v).
  assert (Hsel : forall t, In t (filteredTickets zone next tickets) -> technician t = v).
  { intros t Ht. unfold filteredTickets in Ht. apply filter_In in Ht.
    destruct Ht as [_ Hk]. unfold keeps in Hk. cbn [f_technician next] in Hk.
    apply String.eqb_neq in Hv. rewrite Hv in Hk. cbn [negb andb] in Hk.
    destruct (rejectsDate zone next t); [discriminate|].
    destruct (_ && _); [discriminate|]. destruct (_ && _); [discriminate|].
    destruct (String.eqb_spec (technician t) v); [assumption | discriminate]. }
  split; [exact Hsel|].
  intros b Hb Hne.
  apply (in_map bar) in Hb. rewrite bars_ticketsByTechnician in Hb.
  apply (Permutation_in _ (sortBy_perm afterCount _)), In_entries in Hb.
  pose proof (In_get_NoDup _ _ _ (NoDup_keys_technicianCounts _ _) Hb) as Hg.
  unfold technicianCounts in Hg.
  rewrite getOwn_fold_countTicket_other in Hg.
  - exact (proj2 (proj2 (initCounts_spec _)) _ _ Hg).
  - intros t Ht. rewrite (Hsel t Ht). congruence.
Qed.

End ChartFacts.

(** ** Facts about the workload chart *)

Section WorkloadFacts.

Import JSString JSNumber JSDate JSObject ReportsView Measures Samples.

Variable zone : TimeZone.
Variable types : Types.

Lemma sum_setOwn (o : list (string * Count)) (k : string) (v w : Count) :
  getOwn o k = Some w ->
  (list_sum (map (fun kv => numberOf (snd kv)) (setOwn o k v)) + numberOf w
   = list_sum (map (fun kv => numberOf (snd kv)) o) + numberOf v)%nat.
Proof.
  induction o as [|[k' x] o IH]; simpl; [discriminate|].
  destruct (String.eqb_spec k' k); simpl.
  - intros H. inversion H; subst. lia.
  - intros H. specialize (IH H). lia.
Qed.

(** One step of lines 174-178 on counts that hold numbers under the
    technicians' names, for a ticket with a plain technician field. *)
Lemma countTicket_plain (techs : list User) (counts : list (string * Count)) (t : Ticket) :
  isInherited (technician t) = false ->
  (forall x, In x (map fst counts) <-> In x (map name techs) /\ x <> "__proto__") ->
  (forall k v, getOwn counts k = Some v -> exists n, v = Num n) ->
  (forall k v, getOwn (countTicket counts t) k = Some v -> exists n, v = Num n)
  /\ list_sum (map (fun kv => numberOf (snd kv)) (countTicket counts t))
     = (list_sum (map (fun kv => numberOf (snd kv)) counts)
        + if namesTechnician techs t then 1 else 0)%nat.
Proof.
  intros Hp Hkeys Hnum. split.
  - intros k v Hk.
    assert (Hin : In k (map fst counts)).
    { rewrite <- (keys_countTicket_plain counts t Hp). exact (get_Some_In _ _ _ Hk). }
    destruct (In_get _ _ Hin) as [w Hw]. destruct (Hnum _ _ Hw) as [n ->].
    rewrite (getOwn_countTicket_Num counts t k n (proj2 (proj1 (Hkeys k) Hin)) Hw) in Hk.
    inversion Hk. eauto.
  - unfold countTicket, lookup, namesTechnician.
    destruct (truthy (technician t) && negb (String.eqb (technician t) "N/A"));
      [|simpl; lia].
    cbn [andb].
    destruct (getOwn counts (technician t)) as [w|] eqn:E.
    + destruct (Hnum _ _ E) as [n ->].
      assert (Hex : existsb (fun u => String.eqb (name u) (technician t)) techs = true).
      { apply get_Some_In, Hkeys in E. destruct E as [E _].
        apply in_map_iff in E. destruct E as [u [Hn Hu]].
        apply existsb_exists. exists u. split; [exact Hu | apply String.eqb_eq; exact Hn]. }
      rewrite Hex. unfold assign.
      destruct (String.eqb_spec (technician t) "__proto__") as [Ep|Ep];
        [rewrite Ep in Hp; discriminate Hp|].
      pose proof (sum_setOwn _ _ (Num (n + 1)) _ E) as Hs. simpl in Hs. lia.
    + rewrite Hp.
      destruct (existsb _ techs) eqn:Ex; [|lia].
      exfalso. apply (get_None_notIn _ _ E).
      apply existsb_exists in Ex. destruct Ex as [u [Hu Hn]].
      apply String.eqb_eq in Hn. apply Hkeys. split.
      * rewrite <- Hn. apply in_map. exact Hu.
      * apply plain_not_proto. exact Hp.
Qed.

(** With plain technician fields, the counts hold numbers, which add up
    to the number of tickets that name a technician. *)
Lemma sum_technicianCounts (techs : list User) (ts : list Ticket) :
  plainTickets ts ->
  (forall k v, getOwn (technicianCounts techs ts) k = Some v -> exists n, v = Num n)
  /\ list_sum (map (fun kv => numberOf (snd kv)) (technicianCounts techs ts))
     = List.length (filter (namesTechnician techs) ts).
Proof.
  intros Hp. unfold technicianCounts.
  destruct (initCounts_spec techs) as [_ [Hk Hv]].
  assert (H0 : list_sum (map (fun kv => numberOf (snd kv)) (initCounts techs)) = 0%nat).
  { pose proof (proj1 (initCounts_spec techs)) as Hnd.
    assert (Hall : Forall (fun kv => snd kv = Num 0) (initCounts techs)).
    { apply Forall_forall. intros [k v] Hin. simpl.
      exact (Hv _ _ (In_get_NoDup _ _ _ Hnd Hin)). }
    clear Hnd Hk Hv. revert Hall. generalize (initCounts techs). intros o Hall.
    induction Hall as [|[k v] o Hz _ IH]; simpl in *; [reflexivity|].
    rewrite Hz, IH. reflexivity. }
  assert (Hn0 : forall k v, getOwn (initCounts techs) k = Some v -> exists n, v = Num n).
  { intros k v H. exists 0%nat. exact (Hv _ _ H). }
  assert (Hgen : forall c,
            (forall x, In x (map fst c) <-> In x (map name techs) /\ x <> "__proto__") ->
            (forall k v, getOwn c k = Some v -> exists n, v = Num n) ->
            (forall k v, getOwn (fold_left countTicket ts c) k = Some v -> exists n, v = Num n)
            /\ list_sum (map (fun kv => numberOf (snd kv)) (fold_left countTicket ts c))
               = (list_sum (map (fun kv => numberOf (snd kv)) c)
                  + List.length (filter (namesTechnician techs) ts))%nat).
  { induction Hp as [|t ts Ht Hts IH]; intros c Hkeys Hnum; simpl.
    - split; [exact Hnum | lia].
    - destruct (countTicket_plain techs c t Ht Hkeys Hnum) as [Hnum' Hsum].
      destruct (IH (countTicket c t)) as [H1 H2].
      + intros x. rewrite (keys_countTicket_plain c t Ht). apply Hkeys.
      + exact Hnum'.
      + split; [exact H1|]. rewrite H2, Hsum.
        destruct (namesTechnician techs t); simpl; lia. }
  destruct (Hgen (initCounts techs) Hk Hn0) as [H1 H2].
  split; [exact H1|]. rewrite H2, H0. reflexivity.
Qed.

Lemma sumQ_perm (l l' : list Q) : Permutation l l' -> (sumQ l == sumQ l')%Q.
Proof.
  induction 1; simpl.
  - reflexivity.
  - rewrite IHPermutation. reflexivity.
  - ring.
  - rewrite IHPermutation1. exact IHPermutation2.
Qed.

Lemma sumQ_percentage (n : nat) (ns : list nat) :
  (0 < n)%nat ->
  (sumQ (map (percentage n) ns)
   == inject_Z (Z.of_nat (list_sum ns)) / inject_Z (Z.of_nat n) * 100)%Q.
Proof.
  intros Hn.
  assert (Hz : ~ (inject_Z (Z.of_nat n) == 0)%Q).
  { intros H. apply (eq_sym) in H.
    assert (Z.of_nat n = 0) by (unfold Qeq in H; simpl in H; lia). lia. }
  induction ns as [|m ns IH]; simpl.
  - field. exact Hz.
  - rewrite IH. unfold percentage.
    destruct (Nat.ltb_spec 0 n); [|lia].
    rewrite Nat2Z.inj_add, inject_Z_plus. field. exact Hz.
Qed.

(** A sum of numbers none of which is [NaN]. *)
Lemma sumNum_Some (qs : list Q) : sumNum (map Some qs) = Some (sumQ qs).
Proof.
  induction qs as [|q qs IH]; [reflexivity|].
  change (sumNum (map Some (q :: qs)))
    with (match sumNum (map Some qs) with
          | Some y => Some (q + y)%Q
          | None => None
          end).
  rewrite IH. reflexivity.
Qed.

(** The values of the workload chart, up to their order. *)
Lemma values_technicianWorkload (filtered : list Ticket) (techs : list User) :
  let activeTickets := filter (isActive types) filtered in
  Permutation (map value (technicianWorkload types filtered techs))
              (map (fun kv => workloadValue (List.length activeTickets) (snd kv))
                   (technicianCounts techs activeTickets)).
Proof.
  intros activeTickets. unfold technicianWorkload. fold activeTickets.
  rewrite (Permutation_map value (sortBy_perm afterNum _)).
  unfold entries. rewrite !map_map. cbn [value snd].
  apply Permutation_map. apply ownEntries_perm.
Qed.

(** With plain technician fields all of them are numbers: the
    percentages of the counts. *)
Lemma values_technicianWorkload_plain (filtered : list Ticket) (techs : list User) :
  let activeTickets := filter (isActive types) filtered in
  plainTickets activeTickets ->
  exists qs,
    map value (technicianWorkload types filtered techs) = map Some qs
    /\ Permutation (map (percentage (List.length activeTickets))
                        (map (fun kv => numberOf (snd kv))
                             (technicianCounts techs activeTickets)))
                   qs.
Proof.
  intros activeTickets Hp.
  pose proof (values_technicianWorkload filtered techs) as Hperm.
  cbv zeta in Hperm. fold activeTickets in Hperm.
  destruct (sum_technicianCounts techs activeTickets Hp) as [Hnum _].
  assert (E : map (fun kv => workloadValue (List.length activeTickets) (snd kv))
                  (technicianCounts techs activeTickets)
              = map Some (map (percentage (List.length activeTickets))
                              (map (fun kv => numberOf (snd kv))
                                   (technicianCounts techs activeTickets)))).
  { rewrite !map_map. apply map_ext_in. intros [k v] Hin. cbn [snd].
    pose proof (In_get_NoDup _ _ _ (NoDup_keys_technicianCounts techs activeTickets) Hin)
      as Hg.
    destruct (Hnum _ _ Hg) as [n ->]. reflexivity. }
  rewrite E in Hperm.
  exact (Permutation_map_inv _ _ Hperm).
Qed.

(** C1, as the code has it, for technician fields that name no
    property of the prototype. Without an active ticket among the
    filtered ones every percentage is 0.  With active tickets the
    percentages are numbers that add up to 100 times the share of the
    active tickets that name a technician, hence to 100 when every
    active ticket names one. *)
Theorem technicianWorkload_sum
    (reportFilters : ReportFilters) (tickets : list Ticket) (users : list User) :
  let filtered := filteredTickets zone reportFilters tickets in
  let techs := technicians types users in
  let activeTickets := filter (isActive types) filtered in
  let workload := technicianWorkload types filtered techs in
  plainTickets activeTickets ->
  (activeTickets = [] -> Forall (fun b => value b = Some 0%Q) workload)
  /\ (activeTickets <> [] ->
      exists q, sumNum (map value workload) = Some q
                /\ (q == inject_Z (Z.of_nat (List.length
                                               (filter (namesTechnician techs) activeTickets)))
                         / inject_Z (Z.of_nat (List.length activeTickets)) * 100)%Q)
  /\ (activeTickets <> [] ->
      Forall (fun t => namesTechnician techs t = true) activeTickets ->
      exists q, sumNum (map value workload) = Some q /\ (q == 100)%Q).
Proof.
  intros filtered techs activeTickets workload Hp.
  destruct (values_technicianWorkload_plain filtered techs Hp) as [qs [Hvals Hperm]].
  fold activeTickets workload in Hvals, Hperm.
  assert (Hsum : activeTickets <> [] ->
                 exists q, sumNum (map value workload) = Some q
                   /\ (q == inject_Z (Z.of_nat (List.length
                                           (filter (namesTechnician techs) activeTickets)))
                            / inject_Z (Z.of_nat (List.length activeTickets)) * 100)%Q).
  { intros Hne. exists (sumQ qs). split; [rewrite Hvals; apply sumNum_Some|].
    rewrite <- (sumQ_perm _ _ Hperm).
    rewrite sumQ_percentage.
    - rewrite (proj2 (sum_technicianCounts techs activeTickets Hp)). reflexivity.
    - destruct activeTickets; [congruence | simpl; lia]. }
  split; [|split].
  - intros Hnil.
    apply Forall_forall. intros b Hb.
    apply (in_map value) in Hb. rewrite Hvals in Hb.
    apply in_map_iff in Hb. destruct Hb as [q [<- Hq]].
    apply (Permutation_in _ (Permutation_sym Hperm)) in Hq.
    rewrite Hnil in Hq. simpl in Hq.
    apply in_map_iff in Hq. destruct Hq as [n [Hn _]]. rewrite <- Hn. reflexivity.
  - exact Hsum.
  - intros Hne Hall. destruct (Hsum Hne) as [q [Hq Heq]].
    exists q. split; [exact Hq|]. rewrite Heq.
    assert (Hf : filter (namesTechnician techs) activeTickets = activeTickets).
    { apply forallb_filter_id. apply forallb_forall.
      rewrite Forall_forall in Hall. exact Hall. }
    rewrite Hf.
    assert (Hz : ~ (inject_Z (Z.of_nat (List.length activeTickets)) == 0)%Q).
    { intros H. assert (Z.of_nat (List.length activeTickets) = 0)
        by (unfold Qeq in H; simpl in H; lia).
      destruct activeTickets; [congruence | simpl in *; lia]. }
    field. exact Hz.
Qed.

End WorkloadFacts.

(** *** The bars of the workload chart *)

Section WorkloadBars.

Import JSString JSNumber JSDate JSObject ReportsView Measures Samples.

Variable zone : TimeZone.
Variable types : Types.

(** Sorting a list of numbers none of which is [NaN] by the comparator
    puts them in descending order. *)
Lemma afterNum_sorted (l : list (Bar (option Q))) :
  Forall (fun b => exists q, value b = Some q) l ->
  StronglySorted descendingQ (sortBy afterNum l).
Proof.
  induction l as [|x l IH]; intros Hall; [constructor|].
  inversion Hall as [|? ? [n Hx] Hl]; subst. cbn [sortBy fold_right].
  specialize (IH Hl). fold (sortBy afterNum l).
  assert (HP : Forall (fun b => exists q, value b = Some q) (sortBy afterNum l)).
  { apply (Permutation_Forall (Permutation_sym (sortBy_perm afterNum l))). exact Hl. }
  revert IH HP. generalize (sortBy afterNum l). intros s.
  induction s as [|y s IHs]; intros Hs HP; simpl; [repeat constructor|].
  inversion Hs as [|? ? Hs' Hy]; subst.
  inversion HP as [|? ? [m Hm] HP']; subst.
  unfold afterNum at 1. rewrite Hx, Hm.
  destruct (Qle_bool m n) eqn:E; cbn [negb].
  - apply Qle_bool_iff in E.
    constructor; [exact Hs|].
    constructor; [exists n, m; repeat split; [exact Hx | exact Hm | exact E]|].
    eapply Forall_impl; [|exact Hy].
    intros z [a [c [Ha [Hc Hle]]]]. rewrite Hm in Ha. inversion Ha; subst a.
    exists n, c. repeat split; [exact Hx | exact Hc | exact (Qle_trans _ _ _ Hle E)].
  - constructor; [exact (IHs Hs' HP')|].
    apply (Permutation_Forall (Permutation_sym (insertBy_perm afterNum x s))).
    constructor; [|exact Hy].
    exists m, n. repeat split; [exact Hm | exact Hx |].
    apply Qlt_le_weak, Qnot_le_lt. intros Hle.
    apply Qle_bool_iff in Hle. congruence.
Qed.

(** A share of the active tickets is between 0 and 100 percent. *)
Lemma percentage_bounds (n v : nat) :
  (v <= n)%nat -> (0 <= percentage n v <= 100)%Q.
Proof.
  intros Hle. unfold percentage.
  destruct (Nat.ltb_spec 0 n) as [Hn|Hn]; [|split; [apply Qle_refl | discriminate]].
  assert (Hpos : (0 < inject_Z (Z.of_nat n))%Q).
  { rewrite <- (Zlt_Qlt 0). lia. }
  assert (H0 : (0 <= inject_Z (Z.of_nat v))%Q).
  { rewrite <- (Zle_Qle 0). lia. }
  assert (Hvn : (inject_Z (Z.of_nat v) <= inject_Z (Z.of_nat n))%Q).
  { rewrite <- Zle_Qle. lia. }
  split.
  - apply Qmult_le_0_compat; [|discriminate].
    apply Qle_shift_div_l; [exact Hpos|]. rewrite Qmult_0_l. exact H0.
  - setoid_replace 100%Q with (1 * 100)%Q at 2 by reflexivity.
    apply Qmult_le_compat_r; [|discriminate].
    apply Qle_shift_div_r; [exact Hpos|]. rewrite Qmult_1_l. exact Hvn.
Qed.

(** With names that reach no property of the prototype, the workload
    chart has one bar for every technician and no other; every bar holds
    a number between 0 and 100, the share, among the active filtered
    tickets, of those whose technician field is the bar's label, as an
    exact fraction; and the bars are in descending order. *)
Theorem technicianWorkload_bars
    (reportFilters : ReportFilters) (tickets : list Ticket) (users : list User) :
  let filtered := filteredTickets zone reportFilters tickets in
  let activeTickets := filter (isActive types) filtered in
  let workload := technicianWorkload types filtered (technicians types users) in
  plainTechnicians (technicians types users) ->
  plainTickets activeTickets ->
  StronglySorted descendingQ workload
  /\ NoDup (map label workload)
  /\ (forall k, In k (map label workload) <->
                exists u, In u users /\ role u = Role_Technician types /\ name u = k)
  /\ (forall b, In b workload ->
        exists q,
          value b = Some q
          /\ (0 <= q <= 100)%Q
          /\ q = percentage (List.length activeTickets)
                   (if truthy (label b) && negb (String.eqb (label b) "N/A")
                    then List.length (ticketsOf (label b) activeTickets) else 0%nat)).
Proof.
  intros filtered activeTickets workload Hpt Hpa.
  set (techs := technicians types users) in *.
  set (counts := technicianCounts techs activeTickets).
  assert (Hw : workload
               = sortBy afterNum
                   (map (fun e => mkBar (label e)
                                        (workloadValue (List.length activeTickets) (value e)))
                        (entries counts))) by reflexivity.
  assert (Hlab : Permutation (map label workload) (map fst counts)).
  { rewrite Hw, (Permutation_map label (sortBy_perm afterNum _)).
    rewrite map_map. cbn [label]. apply labels_entries. }
  assert (Hkeys : forall x, In x (map fst counts) <-> In x (map name techs)).
  { intros x. unfold counts. rewrite (keys_technicianCounts_plain techs activeTickets Hpa).
    rewrite (proj1 (proj2 (initCounts_spec techs)) x). split; [tauto|].
    intros Hin. split; [exact Hin|]. apply plain_not_proto.
    apply in_map_iff in Hin. destruct Hin as [u [<- Hu]].
    unfold plainTechnicians in Hpt. rewrite Forall_forall in Hpt. exact (Hpt u Hu). }
  assert (Hentry : forall e, In e (entries counts) ->
            workloadValue (List.length activeTickets) (value e)
            = Some (percentage (List.length activeTickets)
                      (if truthy (label e) && negb (String.eqb (label e) "N/A")
                       then List.length (ticketsOf (label e) activeTickets) else 0%nat))).
  { intros e He.
    destruct (entry_technicianCounts_plain techs activeTickets e Hpa He) as [_ [_ Hv]].
    rewrite Hv. reflexivity. }
  split; [|split; [|split]].
  - rewrite Hw. apply afterNum_sorted. apply Forall_forall. intros b Hb.
    apply in_map_iff in Hb. destruct Hb as [e [<- He]]. cbn [value].
    rewrite (Hentry e He). eauto.
  - apply (Permutation_NoDup (Permutation_sym Hlab)).
    apply NoDup_keys_technicianCounts.
  - intros k. split.
    + intros Hk. apply (Permutation_in _ Hlab), Hkeys, in_map_iff in Hk.
      destruct Hk as [u [Hn Hu]]. apply In_technicians in Hu. exists u. tauto.
    + intros [u [Hu [Hr Hn]]].
      apply (Permutation_in _ (Permutation_sym Hlab)), Hkeys.
      rewrite <- Hn. apply in_map. apply In_technicians. auto.
  - intros b Hb. rewrite Hw in Hb.
    apply (Permutation_in _ (sortBy_perm afterNum _)), in_map_iff in Hb.
    destruct Hb as [e [He Hin]]. subst b. cbn [label value].
    rewrite (Hentry e Hin). eexists. split; [reflexivity|]. split; [|reflexivity].
    apply percentage_bounds.
    destruct (_ && _); [apply filter_length_le | lia].
Qed.

(** The technician select offers "Alle" first and then the names of
    the technicians; with names that reach no property of the
    prototype, its options apart from "Alle" are the labels of the bars
    of the count chart. *)
Theorem allTechnicianNames_bars
    (reportFilters : ReportFilters) (tickets : list Ticket) (users : list User) :
  plainTechnicians (technicians types users) ->
  plainTickets (filteredTickets zone reportFilters tickets) ->
  hd_error (allTechnicianNames types users) = Some "Alle"
  /\ forall k, In k (allTechnicianNames types users) <->
               k = "Alle"
               \/ In k (map (fun b => label (bar b))
                            (ticketsByTechnician (filteredTickets zone reportFilters tickets)
                                                 (technicians types users))).
Proof.
  intros Hpt Hpf. split; [reflexivity|]. intros k.
  set (techs := technicians types users) in *.
  set (filtered := filteredTickets zone reportFilters tickets) in *.
  assert (Hlab : Permutation
                   (map (fun b => label (bar b)) (ticketsByTechnician filtered techs))
                   (map fst (technicianCounts techs filtered))).
  { rewrite <- (map_map bar label), bars_ticketsByTechnician, <- labels_entries.
    apply Permutation_map. apply sortBy_perm. }
  assert (Hkeys : forall x, In x (map fst (technicianCounts techs filtered))
                            <-> In x (map name techs)).
  { intros x. rewrite (keys_technicianCounts_plain techs filtered Hpf).
    rewrite (proj1 (proj2 (initCounts_spec techs)) x). split; [tauto|].
    intros Hin. split; [exact Hin|]. apply plain_not_proto.
    apply in_map_iff in Hin. destruct Hin as [u [<- Hu]].
    unfold plainTechnicians in Hpt. rewrite Forall_forall in Hpt. exact (Hpt u Hu). }
  unfold allTechnicianNames. fold techs. simpl. split.
  - intros [H|H]; [left; congruence|]. right.
    apply (Permutation_in _ (Permutation_sym Hlab)), Hkeys. exact H.
  - intros [H|H]; [left; congruence|]. right.
    apply Hkeys, (Permutation_in _ Hlab). exact H.
Qed.

End WorkloadBars.

(** ** Tickets that name no technician *)

Section UnknownTechnician.

Import JSString JSNumber JSDate JSObject ReportsView Measures Samples.

Variable zone : TimeZone.
Variable types : Types.

(** A ticket whose technician is empty, is "N/A", or is neither a key of
    the counts nor the name of an inherited property, leaves the counts
    as they are. *)
Lemma countTicket_unknown (counts : list (string * Count)) (t : Ticket) :
  technician t = "" \/ technician t = "N/A"
  \/ (~ In (technician t) (map fst counts) /\ isInherited (technician t) = false) ->
  countTicket counts t = counts.
Proof.
  unfold countTicket, lookup. intros [E | [E | [Hn Hp]]].
  - rewrite E. reflexivity.
  - rewrite E. reflexivity.
  - destruct (_ && _); [|reflexivity].
    destruct (getOwn counts (technician t)) eqn:E.
    + exfalso. apply Hn. exact (get_Some_In _ _ _ E).
    + rewrite Hp. reflexivity.
Qed.

(** Such a ticket can be removed from the list without changing the
    counts of [ticketsByTechnician] and [technicianWorkload]. *)
Lemma technicianCounts_unknown (techs : list User) (t : Ticket) (l1 l2 : list Ticket) :
  technician t = "" \/ technician t = "N/A"
  \/ (~ In (technician t) (map name techs) /\ isInherited (technician t) = false) ->
  technicianCounts techs (l1 ++ t :: l2) = technicianCounts techs (l1 ++ l2).
Proof.
  intros H. unfold technicianCounts. rewrite !fold_left_app. cbn [fold_left].
  rewrite countTicket_unknown; [reflexivity|].
  destruct H as [H|[H|[H Hp]]]; auto. right. right. split; [|exact Hp].
  intros Hin. apply (keys_technicianCounts techs l1) in Hin.
  destruct Hin as [_ [Hin|Hin]]; [exact (H Hin) | congruence].
Qed.

(** C1, refuted. One open ticket that nobody is assigned to, and one
    technician: there is an active ticket, the only percentage is 0,
    and the sum is a number other than 100.  With a second open ticket,
    Bob's, his percentage is 50. *)
Lemma technicianWorkload_sum_not_100 :
  filter (isActive sampleTypes) (filteredTickets cet allFilters [unassigned]) = [unassigned]
  /\ map value (technicianWorkload sampleTypes (filteredTickets cet allFilters [unassigned])
                                   (technicians sampleTypes [bob; admin]))
     = [Some 0%Q]
  /\ (exists q,
        sumNum (map value (technicianWorkload sampleTypes
                             (filteredTickets cet allFilters [unassigned])
                             (technicians sampleTypes [bob; admin])))
        = Some q
        /\ ~ (q == 100)%Q)
  /\ map (fun b => (label b, option_map Qred (value b)))
         (technicianWorkload sampleTypes
            (filteredTickets cet allFilters [unassigned; bobsOpen])
            (technicians sampleTypes [bob; admin]))
     = [("Bob", Some 50%Q)].
Proof.
  split; [vm_compute; reflexivity|].
  split; [vm_compute; reflexivity|].
  split; [|vm_compute; reflexivity].
  eexists. split; [vm_compute; reflexivity|]. vm_compute. discriminate.
Qed.

End UnknownTechnician.

(** ** Facts about the chart of average processing times *)

Section AverageFacts.

Import JSString JSNumber JSDate JSObject ReportsView Measures Samples.

Variable zone : TimeZone.
Variable types : Types.

(** Lines 194-196 stay within the model unless a technician is named
    [__proto__], and then hold the initial data under every name. *)
Lemma initTechData_spec (techs : list User) :
  match initTechData techs with
  | Some d =>
      d = fold_left (fun acc u => setOwn acc (name u) (mkTechData (Some 0%Q) 0)) techs []
      /\ forall u, In u techs -> name u <> "__proto__"
  | None => exists u, In u techs /\ name u = "__proto__"
  end.
Proof.
  unfold initTechData.
  set (F := fun (techData : option (list (string * TechData))) (tech : User) =>
              match techData with
              | Some d =>
                  if String.eqb (name tech) "__proto__" then None
                  else Some (setOwn d (name tech) (mkTechData (Some 0%Q) 0))
              | None => None
              end).
  assert (HNone : forall us, fold_left F us None = None).
  { induction us as [|u us IH]; simpl; [reflexivity | exact IH]. }
  generalize (@nil (string * TechData)).
  induction techs as [|u us IH]; intros o; simpl.
  - split; [reflexivity | intros u []].
  - destruct (String.eqb_spec (name u) "__proto__") as [E|E].
    + rewrite HNone. exists u. auto.
    + specialize (IH (setOwn o (name u) (mkTechData (Some 0%Q) 0))).
      destruct (fold_left F us _) as [d|].
      * destruct IH as [Hd Hall]. split; [exact Hd|].
        intros v [<-|Hv]; [exact E | exact (Hall v Hv)].
      * destruct IH as [v [Hv Hn]]. exists v. auto.
Qed.

Lemma addTechTimes_None (ts : list Ticket) : addTechTimes zone ts None = None.
Proof. induction ts as [|t ts IH]; simpl; [reflexivity | exact IH]. Qed.

Lemma addTechTimes_cons (t : Ticket) (ts : list Ticket) (d : list (string * TechData)) :
  addTechTimes zone (t :: ts) (Some d) = addTechTimes zone ts (addTechTime zone d t).
Proof. reflexivity. Qed.

Lemma keys_addTechTime (d d' : list (string * TechData)) (t : Ticket) :
  addTechTime zone d t = Some d' -> map fst d' = map fst d.
Proof.
  unfold addTechTime, lookup.
  destruct (parseGermanDate zone (entryDate t)); [|intros H; inversion H; reflexivity].
  destruct (parseGermanDate zone (completionDate t)); [|intros H; inversion H; reflexivity].
  destruct (getOwn d (technician t)) eqn:E.
  - intros H. inversion H. exact (keys_set_Some _ _ _ _ E).
  - destruct (isInherited (technician t)); intros H; inversion H. reflexivity.
Qed.

Lemma keys_addTechTimes (ts : list Ticket) (d d' : list (string * TechData)) :
  addTechTimes zone ts (Some d) = Some d' -> map fst d' = map fst d.
Proof.
  revert d. induction ts as [|t ts IH]; intros d H.
  - inversion H. reflexivity.
  - rewrite addTechTimes_cons in H.
    destruct (addTechTime zone d t) as [d1|] eqn:E.
    + rewrite (IH _ H). exact (keys_addTechTime _ _ _ E).
    + rewrite addTechTimes_None in H. discriminate H.
Qed.

(** A ticket whose technician is neither a key of the data nor the
    name of an inherited property leaves the data as they are. *)
Lemma addTechTime_unknown (d : list (string * TechData)) (t : Ticket) :
  ~ In (technician t) (map fst d) -> isInherited (technician t) = false ->
  addTechTime zone d t = Some d.
Proof.
  intros Hn Hp. unfold addTechTime, lookup.
  destruct (parseGermanDate zone (entryDate t)); [|reflexivity].
  destruct (parseGermanDate zone (completionDate t)); [|reflexivity].
  destruct (getOwn d (technician t)) eqn:E.
  - exfalso. apply Hn. exact (get_Some_In _ _ _ E).
  - rewrite Hp. reflexivity.
Qed.

(** With plain technician fields the loop of lines 198-206 stays
    within the model. *)
Lemma addTechTimes_plain (ts : list Ticket) :
  plainTickets ts ->
  forall d, exists d', addTechTimes zone ts (Some d) = Some d'.
Proof.
  induction 1 as [|t ts Ht _ IH]; intros d; [exists d; reflexivity|].
  rewrite addTechTimes_cons.
  assert (Hs : exists d1, addTechTime zone d t = Some d1).
  { unfold addTechTime, lookup.
    destruct (parseGermanDate zone (entryDate t)); [|eauto].
    destruct (parseGermanDate zone (completionDate t)); [|eauto].
    destruct (getOwn d (technician t)); [eauto|].
    rewrite Ht. eauto. }
  destruct Hs as [d1 ->]. apply IH.
Qed.

Lemma get_addTechTime_other (d d' : list (string * TechData)) (t : Ticket) (k : string) :
  addTechTime zone d t = Some d' -> technician t <> k -> getOwn d' k = getOwn d k.
Proof.
  intros H Hne. unfold addTechTime in H.
  destruct (parseGermanDate zone (entryDate t)); [|inversion H; reflexivity].
  destruct (parseGermanDate zone (completionDate t)); [|inversion H; reflexivity].
  destruct (lookup d (technician t)); inversion H; [|reflexivity].
  apply get_set_other. congruence.
Qed.

Lemma ticketsOf_cons (k : string) (t : Ticket) (ts : list Ticket) :
  ticketsOf k (t :: ts)
  = if String.eqb (technician t) k then t :: ticketsOf k ts else ticketsOf k ts.
Proof. reflexivity. Qed.

(** The data of a technician after the loop of lines 198-206, when
    each of the technician's tickets has a processing time: the sum of
    the times in days and the number of tickets. *)
Lemma get_addTechTimes (k : string) (ts : list Ticket) :
  forall (d d' : list (string * TechData)) (q0 : Q) (c0 : nat) (ds : list Z),
    getOwn d k = Some (mkTechData (Some q0) c0) ->
    map (processingTime zone) (ticketsOf k ts) = map Some ds ->
    addTechTimes zone ts (Some d) = Some d' ->
    exists q,
      getOwn d' k = Some (mkTechData (Some q) (c0 + List.length ds))
      /\ (q == q0 + inject_Z (sumZ ds) / inject_Z (1000 * 60 * 60 * 24))%Q.
Proof.
  induction ts as [|t ts IH]; intros d d' q0 c0 ds Hg Hm Hd.
  - destruct ds; [|discriminate]. inversion Hd; subst d'. simpl. rewrite Nat.add_0_r.
    exists q0. split; [exact Hg|]. simpl. field.
  - rewrite ticketsOf_cons in Hm. rewrite addTechTimes_cons in Hd.
    destruct (String.eqb_spec (technician t) k) as [E|E].
    + destruct ds as [|z ds]; [discriminate|]. simpl in Hm.
      inversion Hm as [[Hz Hm']].
      assert (Hstep : addTechTime zone d t
                      = Some (setOwn d k
                                (mkTechData
                                   (Some (q0 + inject_Z z / inject_Z (1000 * 60 * 60 * 24))%Q)
                                   (c0 + 1)))).
      { unfold addTechTime, lookup. unfold processingTime in Hz.
        destruct (parseGermanDate zone (entryDate t)); [|discriminate].
        destruct (parseGermanDate zone (completionDate t)); [|discriminate].
        rewrite E, Hg, Hz. reflexivity. }
      rewrite Hstep in Hd.
      destruct (IH _ _ _ _ ds (get_set_same _ _ _) Hm' Hd) as [q [Hq1 Hq2]].
      exists q. split.
      * rewrite Hq1. do 2 f_equal. simpl. lia.
      * rewrite Hq2. simpl. rewrite inject_Z_plus. field.
    + destruct (addTechTime zone d t) as [d1|] eqn:E1;
        [|rewrite addTechTimes_None in Hd; discriminate Hd].
      rewrite <- (get_addTechTime_other _ _ _ _ E1 E) in Hg.
      exact (IH _ _ _ _ ds Hg Hm Hd).
Qed.

(** With names that reach no property of the prototype, the chart of
    average processing times has one bar for every technician and no
    other.  A technician without a resolved ticket has the value 0; a
    technician whose resolved tickets all have a processing time has
    their mean, in days. *)
Theorem avgProcessingTimePerTechnician_bars
    (reportFilters : ReportFilters) (tickets : list Ticket) (users : list User) :
  let filtered := filteredTickets zone reportFilters tickets in
  let resolvedTickets := filter (isResolvedAssigned types) filtered in
  plainTechnicians (technicians types users) ->
  plainTickets resolvedTickets ->
  exists result,
    avgProcessingTimePerTechnician zone types filtered (technicians types users)
    = Some result
    /\ NoDup (map label result)
    /\ (forall k, In k (map label result) <->
                  exists u, In u users /\ role u = Role_Technician types /\ name u = k)
    /\ (forall b, In b result ->
          ticketsOf (label b) resolvedTickets = [] -> value b = Some 0%Q)
    /\ (forall b ds, In b result -> ds <> [] ->
          map (processingTime zone) (ticketsOf (label b) resolvedTickets) = map Some ds ->
          exists q, value b = Some q
                    /\ (q == inject_Z (sumZ ds) / inject_Z (1000 * 60 * 60 * 24)
                             / inject_Z (Z.of_nat (List.length ds)))%Q).
Proof.
  intros filtered resolvedTickets Hpt Hpr.
  set (techs := technicians types users) in *.
  pose proof (initTechData_spec techs) as Hinit.
  destruct (initTechData techs) as [d0|] eqn:E0.
  2:{ exfalso. destruct Hinit as [u [Hu Hn]].
      unfold plainTechnicians in Hpt. rewrite Forall_forall in Hpt.
      specialize (Hpt u Hu). rewrite Hn in Hpt. discriminate Hpt. }
  destruct Hinit as [Hd0 _].
  destruct (addTechTimes_plain resolvedTickets Hpr d0) as [techData Hdata].
  exists (sortBy afterNum
            (map (fun e => mkBar (label e) (techAverage (value e))) (entries techData))).
  set (result := sortBy afterNum _).
  split.
  { unfold avgProcessingTimePerTechnician. fold filtered resolvedTickets.
    rewrite E0, Hdata. reflexivity. }
  assert (Hkeys : map fst techData = map fst d0)
    by exact (keys_addTechTimes _ _ _ Hdata).
  destruct (keys_init name (mkTechData (Some 0%Q) 0) techs [] (NoDup_nil _)) as [Hnd Hk].
  rewrite <- Hd0 in Hnd, Hk.
  assert (Hlab : Permutation (map label result) (map fst techData)).
  { unfold result. rewrite (Permutation_map label (sortBy_perm afterNum _)).
    rewrite map_map. cbn [label]. apply labels_entries. }
  assert (Hentry : forall b, In b result ->
            In (label b) (map name techs)
            /\ exists d, getOwn techData (label b) = Some d /\ value b = techAverage d).
  { intros b Hb. unfold result in Hb.
    apply (Permutation_in _ (sortBy_perm afterNum _)), in_map_iff in Hb.
    destruct Hb as [e [<- He]]. cbn [label value]. apply In_entries in He.
    split.
    - apply (in_map fst) in He. cbn [fst] in He. rewrite Hkeys in He.
      apply Hk in He. simpl in He. tauto.
    - exists (value e). split; [|reflexivity].
      apply In_get_NoDup; [rewrite Hkeys; exact Hnd | exact He]. }
  assert (Hget0 : forall k, In k (map name techs) ->
            getOwn d0 k = Some (mkTechData (Some 0%Q) 0)).
  { intros k Hin. rewrite Hd0. apply get_init. exact Hin. }
  split; [apply (Permutation_NoDup (Permutation_sym Hlab)); rewrite Hkeys; exact Hnd|].
  split; [|split].
  - intros k. split.
    + intros Hin. apply (Permutation_in _ Hlab) in Hin. rewrite Hkeys in Hin.
      apply Hk in Hin. simpl in Hin. destruct Hin as [[]|Hin].
      apply in_map_iff in Hin. destruct Hin as [u [Hn Hu]].
      apply In_technicians in Hu. exists u. tauto.
    + intros [u [Hu [Hro Hn]]].
      apply (Permutation_in _ (Permutation_sym Hlab)). rewrite Hkeys.
      apply Hk. right. rewrite <- Hn. apply in_map. apply In_technicians. auto.
  - intros b Hb Hnone.
    destruct (Hentry b Hb) as [Hin [d [Hd Hv]]].
    assert (Hm : map (processingTime zone) (ticketsOf (label b) resolvedTickets)
                 = map Some []) by (rewrite Hnone; reflexivity).
    destruct (get_addTechTimes (label b) resolvedTickets _ _ _ _ [] (Hget0 _ Hin) Hm Hdata)
      as [q [Hq _]].
    rewrite Hd in Hq. inversion Hq; subst d.
    rewrite Hv. reflexivity.
  - intros b ds Hb Hne Hm.
    destruct (Hentry b Hb) as [Hin [d [Hd Hv]]].
    destruct (get_addTechTimes (label b) resolvedTickets _ _ _ _ ds (Hget0 _ Hin) Hm Hdata)
      as [q [Hq1 Hq2]].
    rewrite Hd in Hq1. inversion Hq1; subst d.
    rewrite Hv. unfold techAverage. cbn [td_count td_totalTime].
    destruct ds as [|z0 ds']; [congruence|].
    cbn [List.length Nat.add Nat.ltb Nat.leb option_map].
    eexists. split; [reflexivity|].
    rewrite Hq2. field.
    split; intros H; [|discriminate H].
    assert (Z.of_nat (S (List.length ds')) = 0)
      by (unfold Qeq in H; simpl in H; lia).
    lia.
Qed.

(** A ticket whose technician is "N/A", or is neither the name of a
    technician nor that of an inherited property, can be removed
    without changing the chart of average processing times.  The empty
    technician is not in this list: that chart does not test the field
    for truthiness. *)
Lemma avgProcessingTimePerTechnician_unknown
      (techs : list User) (t : Ticket) (l1 l2 : list Ticket) :
  technician t = "N/A"
  \/ (~ In (technician t) (map name techs) /\ isInherited (technician t) = false) ->
  avgProcessingTimePerTechnician zone types (l1 ++ t :: l2) techs
  = avgProcessingTimePerTechnician zone types (l1 ++ l2) techs.
Proof.
  intros H. unfold avgProcessingTimePerTechnician.
  f_equal. rewrite !filter_app. cbn [filter].
  destruct (isResolvedAssigned types t) eqn:Er; [|reflexivity].
  destruct H as [H|[H Hp]].
  { unfold isResolvedAssigned in Er. rewrite H in Er. simpl in Er.
    rewrite andb_false_r in Er. discriminate. }
  unfold addTechTimes. rewrite !fold_left_app. cbn [fold_left]. f_equal.
  fold (addTechTimes zone (filter (isResolvedAssigned types) l1) (initTechData techs)).
  pose proof (initTechData_spec techs) as Hinit.
  destruct (initTechData techs) as [d0|]; [|rewrite addTechTimes_None; reflexivity].
  destruct Hinit as [Hd0 _].
  destruct (addTechTimes zone _ (Some d0)) as [d1|] eqn:E1; [|reflexivity].
  apply addTechTime_unknown; [|exact Hp].
  rewrite (keys_addTechTimes _ _ _ E1), Hd0. intros Hin.
  destruct (keys_init name (mkTechData (Some 0%Q) 0) techs [] (NoDup_nil _)) as [_ H2].
  apply H2 in Hin. simpl in Hin. tauto.
Qed.

(** C10, at the failing input. One technician has the empty name and
    one completed ticket has the empty technician field.  The counts
    and the workload skip the ticket, as their guard tests the field
    for truthiness; [avgProcessingTimePerTechnician] has no such test
    and adds the ticket's ten days to the bar of the nameless
    technician, which is 0 without the ticket. *)
Theorem empty_technician_counted :
  filteredTickets cet allFilters [emptyTechnician] = [emptyTechnician]
  /\ technicians sampleTypes [nameless] = [nameless]
  /\ map bar (ticketsByTechnician [emptyTechnician] [nameless]) = [mkBar "" (Num 0)]
  /\ technicianWorkload sampleTypes [emptyTechnician] [nameless] = [mkBar "" (Some 0%Q)]
  /\ option_map (map (fun b => (label b, option_map Qred (value b))))
                (avgProcessingTimePerTechnician cet sampleTypes [emptyTechnician] [nameless])
     = Some [("", Some 10%Q)]
  /\ option_map (map (fun b => (label b, option_map Qred (value b))))
                (avgProcessingTimePerTechnician cet sampleTypes [] [nameless])
     = Some [("", Some 0%Q)].
Proof. repeat split; vm_compute; reflexivity. Qed.

End AverageFacts.

(** ** Facts about the chart of areas *)

Section AreaChart.

Import JSString JSNumber JSDate JSObject ReportsView Measures.

Variable zone : TimeZone.
Variable types : Types.

(** The count of an area with a plain name after lines 137-139, from
    counts that hold [n0] for it, or no entry when [n0] is 0. *)
Lemma getOwn_fold_area (k : string) (ts : list Ticket) :
  plainAreas ts ->
  forall (acc : list (string * Count)) (n0 : nat),
    getOwn acc k = match n0 with O => None | S c => Some (Num (S c)) end ->
    getOwn (fold_left countArea ts acc) k
    = match (n0 + List.length (ticketsIn k ts))%nat with
      | O => None
      | S c => Some (Num (S c))
      end.
Proof.
  induction 1 as [|t ts Ht _ IH]; intros acc n0 Hg.
  - simpl. rewrite Nat.add_0_r. exact Hg.
  - cbn [fold_left]. unfold ticketsIn. cbn [filter]. fold (ticketsIn k ts).
    destruct (String.eqb_spec (area t) k) as [E|E].
    + rewrite (IH _ (S n0)).
      * cbn [List.length]. rewrite Nat.add_succ_r. reflexivity.
      * unfold countArea, lookup. rewrite E, Hg.
        rewrite getOwn_assign_same
          by (apply plain_not_proto; rewrite <- E; exact Ht).
        rewrite <- E, Ht.
        destruct n0 as [|c]; [reflexivity|]. rewrite Nat.add_1_r. reflexivity.
    + apply IH. unfold countArea. rewrite getOwn_assign_other by congruence. exact Hg.
Qed.

(** The count of an area: the number of tickets of that area, and no
    entry for an area without a ticket. *)
Lemma getOwn_areaCounts (k : string) (ts : list Ticket) :
  plainAreas ts ->
  getOwn (areaCounts ts) k
  = match List.length (ticketsIn k ts) with O => None | S c => Some (Num (S c)) end.
Proof.
  intros Hp. unfold areaCounts.
  exact (getOwn_fold_area k ts Hp [] 0 eq_refl).
Qed.

Lemma NoDup_areaCounts (ts : list Ticket) : NoDup (map fst (areaCounts ts)).
Proof.
  unfold areaCounts. generalize (NoDup_nil string).
  change (@nil string) with (map fst (@nil (string * Count))).
  generalize (@nil (string * Count)).
  induction ts as [|t ts IH]; intros acc Hnd; [exact Hnd|].
  cbn [fold_left]. apply IH. apply NoDup_keys_assign. exact Hnd.
Qed.

(** An entry of the counts of areas with plain names. *)
Lemma entry_areaCounts (ts : list Ticket) (b : Bar Count) :
  plainAreas ts ->
  In b (entries (areaCounts ts)) ->
  value b = Num (List.length (ticketsIn (label b) ts))
  /\ (1 <= List.length (ticketsIn (label b) ts))%nat.
Proof.
  intros Hp Hb. apply In_entries in Hb.
  pose proof (In_get_NoDup _ _ _ (NoDup_areaCounts ts) Hb) as Hg.
  rewrite (getOwn_areaCounts _ _ Hp) in Hg.
  destruct (List.length (ticketsIn (label b) ts)); inversion Hg.
  split; [reflexivity | lia].
Qed.

Lemma list_sum_perm (l l' : list nat) :
  Permutation l l' -> list_sum l = list_sum l'.
Proof. induction 1; simpl; lia. Qed.

Lemma list_sum_firstn (n : nat) (l : list nat) :
  (list_sum (firstn n l) <= list_sum l)%nat.
Proof.
  revert n. induction l as [|x l IH]; intros [|n]; simpl; try lia.
  specialize (IH n). lia.
Qed.

Lemma sum_setOwn_new (o : list (string * Count)) (k : string) (v : Count) :
  getOwn o k = None ->
  list_sum (map (fun kv => numberOf (snd kv)) (setOwn o k v))
  = (list_sum (map (fun kv => numberOf (snd kv)) o) + numberOf v)%nat.
Proof.
  induction o as [|[k' w] o IH]; simpl; [lia|].
  destruct (String.eqb_spec k' k); [discriminate|].
  intros H. simpl. rewrite (IH H). lia.
Qed.

(** With plain names every ticket is counted in exactly one area. *)
Lemma sum_areaCounts (ts : list Ticket) :
  plainAreas ts ->
  list_sum (map (fun kv => numberOf (snd kv)) (areaCounts ts)) = List.length ts.
Proof.
  intros Hp. unfold areaCounts.
  assert (H : forall acc,
             (forall k v, getOwn acc k = Some v -> exists n, v = Num n) ->
             list_sum (map (fun kv => numberOf (snd kv)) (fold_left countArea ts acc))
             = (list_sum (map (fun kv => numberOf (snd kv)) acc) + List.length ts)%nat).
  { induction Hp as [|t ts Ht _ IH]; intros acc Hnum; simpl; [lia|].
    assert (Hne : String.eqb (area t) "__proto__" = false).
    { apply String.eqb_neq, plain_not_proto. exact Ht. }
    rewrite IH.
    - unfold countArea, lookup, assign. rewrite Hne.
      destruct (getOwn acc (area t)) as [w|] eqn:E.
      + destruct (Hnum _ _ E) as [n ->].
        pose proof (sum_setOwn acc (area t) (Num (n + 1)) _ E) as Hs.
        simpl in Hs. lia.
      + rewrite Ht, (sum_setOwn_new acc (area t) _ E). simpl. lia.
    - intros k v Hk. unfold countArea, lookup in Hk.
      destruct (String.eqb_spec k (area t)) as [Ek|Ek].
      + subst k. rewrite getOwn_assign_same in Hk by (apply plain_not_proto; exact Ht).
        inversion Hk; subst v.
        destruct (getOwn acc (area t)) as [w|] eqn:E.
        * destruct (Hnum _ _ E) as [n ->]. eauto.
        * rewrite Ht. eauto.
      + rewrite getOwn_assign_other in Hk by exact Ek. exact (Hnum _ _ Hk). }
  rewrite H; [reflexivity|]. intros k v Hk. discriminate Hk.
Qed.

Lemma StronglySorted_app_inv {A : Type} (R : A -> A -> Prop) (l1 l2 : list A) :
  StronglySorted R (l1 ++ l2) ->
  StronglySorted R l1 /\ forall x y, In x l1 -> In y l2 -> R x y.
Proof.
  induction l1 as [|a l1 IH]; simpl; intros H.
  - split; [constructor | intros x y []].
  - inversion H as [|? ? Hs Hall]; subst. destruct (IH Hs) as [H1 H2].
    rewrite Forall_app in Hall. destruct Hall as [Ha1 Ha2].
    split; [constructor; assumption|].
    intros x y [<-|Hx] Hy; [|exact (H2 x y Hx Hy)].
    rewrite Forall_forall in Ha2. exact (Ha2 y Hy).
Qed.

(** With areas whose names reach no property of the prototype, the
    chart of areas shows at most eight bars in descending order, each
    for a different area and with the number of filtered tickets of that
    area, which is at least one.  An area of a filtered ticket that is
    not shown has no more tickets than any area shown, and then eight
    bars are shown.  The bars count no ticket twice, and count them all
    when there are at most eight areas. *)
Theorem ticketsByArea_top8 (reportFilters : ReportFilters) (tickets : list Ticket) :
  let filtered := filteredTickets zone reportFilters tickets in
  let bars := ticketsByArea filtered in
  plainAreas filtered ->
  (List.length bars <= 8)%nat
  /\ StronglySorted descending bars
  /\ NoDup (map label bars)
  /\ (forall b, In b bars ->
        value b = Num (List.length (ticketsIn (label b) filtered))
        /\ (1 <= List.length (ticketsIn (label b) filtered))%nat)
  /\ (forall t, In t filtered ->
        In (area t) (map label bars)
        \/ (List.length bars = 8%nat
            /\ forall b, In b bars ->
                 exists n, value b = Num n
                           /\ (List.length (ticketsIn (area t) filtered) <= n)%nat))
  /\ (list_sum (map (fun b => numberOf (value b)) bars) <= List.length filtered)%nat
  /\ ((List.length (areaCounts filtered) <= 8)%nat ->
      list_sum (map (fun b => numberOf (value b)) bars) = List.length filtered).
Proof.
  intros filtered bars Hp.
  set (sorted := sortBy afterCount (entries (areaCounts filtered))).
  assert (Hbars : bars = firstn 8 sorted) by reflexivity.
  assert (Hsplit : sorted = (bars ++ skipn 8 sorted)%list).
  { rewrite Hbars. symmetry. apply firstn_skipn. }
  assert (Hperm : Permutation sorted (entries (areaCounts filtered)))
    by apply sortBy_perm.
  assert (Hentry : forall b, In b sorted ->
            value b = Num (List.length (ticketsIn (label b) filtered))
            /\ (1 <= List.length (ticketsIn (label b) filtered))%nat).
  { intros b Hb. apply (Permutation_in _ Hperm) in Hb.
    exact (entry_areaCounts filtered b Hp Hb). }
  assert (Hsorted : StronglySorted descending sorted).
  { apply afterCount_sorted. apply Forall_forall. intros e He.
    destruct (entry_areaCounts filtered e Hp He) as [Hv _]. eauto. }
  rewrite Hsplit in Hsorted. apply StronglySorted_app_inv in Hsorted.
  destruct Hsorted as [Hs1 Hs2].
  assert (Hvals : map (fun b => numberOf (value b)) sorted
                  = (map (fun b => numberOf (value b)) bars
                     ++ map (fun b => numberOf (value b)) (skipn 8 sorted))%list).
  { rewrite Hsplit at 1. apply map_app. }
  assert (Hsum : list_sum (map (fun b => numberOf (value b)) sorted)
                 = List.length filtered).
  { rewrite <- (sum_areaCounts filtered Hp).
    apply list_sum_perm.
    rewrite (Permutation_map (fun b => numberOf (value b)) Hperm).
    unfold entries. rewrite map_map. cbn [value].
    apply Permutation_map. apply ownEntries_perm. }
  split; [rewrite Hbars; apply firstn_le_length|].
  split; [exact Hs1|].
  split.
  - assert (Hnd : NoDup (map label sorted)).
    { apply (Permutation_NoDup (l := map fst (areaCounts filtered)));
        [|apply NoDup_areaCounts].
      rewrite (Permutation_map label Hperm), labels_entries. reflexivity. }
    rewrite Hsplit, map_app in Hnd. exact (NoDup_app_remove_r _ _ Hnd).
  - split.
    { intros b Hb. apply Hentry. rewrite Hsplit. apply in_or_app. left. exact Hb. }
    split.
    { intros t Ht.
      assert (Hlen : exists c, List.length (ticketsIn (area t) filtered) = S c).
      { assert (Hin : In t (ticketsIn (area t) filtered)).
        { apply filter_In. split; [exact Ht | apply String.eqb_refl]. }
        destruct (ticketsIn (area t) filtered); [destruct Hin | eexists; reflexivity]. }
      destruct Hlen as [c Hc].
      assert (Hb : In (mkBar (area t) (Num (S c))) sorted).
      { apply (Permutation_in _ (Permutation_sym Hperm)).
        apply In_entries. cbn [label value].
        apply get_In. rewrite (getOwn_areaCounts _ _ Hp), Hc. reflexivity. }
      rewrite Hsplit in Hb. apply in_app_or in Hb. destruct Hb as [Hb|Hb].
      - left. apply (in_map label) in Hb. exact Hb.
      - right. split.
        + rewrite Hbars. apply firstn_length_le.
          destruct (Nat.le_gt_cases 8 (List.length sorted)) as [H|H]; [exact H|].
          rewrite skipn_all2 in Hb by lia. destruct Hb.
        + intros b Hin. rewrite Hc.
          destruct (Hs2 b _ Hin Hb) as [x [y [Hx [Hy Hle]]]].
          cbn [value] in Hy. inversion Hy; subst y. eauto. }
    split.
    { rewrite <- Hsum, Hvals, list_sum_app. lia. }
    intros Hfew. rewrite <- Hsum. f_equal. f_equal.
    rewrite Hbars. apply firstn_all2.
    rewrite (Permutation_length Hperm). unfold entries. rewrite length_map.
    rewrite (Permutation_length (ownEntries_perm _)). exact Hfew.
Qed.

End AreaChart.




(** ** The theorems at sample inputs *)

Section Instances.

Import Init JSString JSNumber JSDate JSObject ReportsView Measures Samples.

(** C5 at a host whose settings resolve to a URL and a key. *)
Lemma supabase_configured_iff_witness :
  resolveConfig hostOk initialState
  = (Returns ("https://x.supabase.co", "anon-key"), initialState)
  /\ supabase hostOk = Some ("https://x.supabase.co", "anon-key").
Proof.
  split; [reflexivity|].
  apply (proj1 (supabase_configured_iff _ hostOk "https://x.supabase.co" "anon-key"
                  eq_refl)).
  split; [|reflexivity].
  split; [discriminate|]. split; [discriminate|].
  exists "s://x.supabase.co". reflexivity.
Defined.

(** C6 at a host whose local storage throws. *)
Lemma initialise_never_throws_witness :
  tryBlock hostNoStorage initialState = (Throws "SecurityError", initialState)
  /\ supabase hostNoStorage = None
  /\ consoleAfter hostNoStorage = [ConsoleError failedMessage "SecurityError"].
Proof.
  split; [reflexivity|].
  apply (proj2 (initialise_never_throws _ hostNoStorage) "SecurityError" initialState).
  reflexivity.
Defined.

(** C8 in the sample zone. *)
Lemma ten_days_contribution_witness :
  entryDate tenDays = Some "01.01.2026"
  /\ completionDate tenDays = Some "11.01.2026"
  /\ status tenDays = Status_Abgeschlossen sampleTypes
  /\ avgProcessingTimeFixed (stats cet sampleTypes [tenDays]) = "10.0".
Proof.
  do 3 (split; [reflexivity|]).
  apply (ten_days_contribution cet sampleTypes tenDays); try reflexivity.
  vm_compute. discriminate.
Defined.

(** C1, as amended, where every active ticket names a technician. *)
Lemma technicianWorkload_sum_witness :
  plainTickets (filter (isActive sampleTypes)
                       (filteredTickets cet allFilters [bobsOpen; tenDays]))
  /\ filter (isActive sampleTypes) (filteredTickets cet allFilters [bobsOpen; tenDays]) <> []
  /\ Forall (fun t => namesTechnician (technicians sampleTypes [bob; eve]) t = true)
            (filter (isActive sampleTypes)
                    (filteredTickets cet allFilters [bobsOpen; tenDays]))
  /\ exists q,
       sumNum (map value (technicianWorkload sampleTypes
                            (filteredTickets cet allFilters [bobsOpen; tenDays])
                            (technicians sampleTypes [bob; eve])))
       = Some q
       /\ (q == 100)%Q.
Proof.
  assert (Hp : plainTickets (filter (isActive sampleTypes)
                               (filteredTickets cet allFilters [bobsOpen; tenDays])))
    by (repeat constructor).
  assert (Hne : filter (isActive sampleTypes)
                       (filteredTickets cet allFilters [bobsOpen; tenDays]) <> [])
    by (vm_compute; discriminate).
  assert (Hall : Forall (fun t => namesTechnician (technicians sampleTypes [bob; eve]) t
                                  = true)
                        (filter (isActive sampleTypes)
                                (filteredTickets cet allFilters [bobsOpen; tenDays])))
    by (repeat constructor).
  split; [exact Hp|]. split; [exact Hne|]. split; [exact Hall|].
  exact (proj2 (proj2 (technicianWorkload_sum cet sampleTypes allFilters
                         [bobsOpen; tenDays] [bob; eve] Hp)) Hne Hall).
Defined.

End Instances.

(** ** More facts about the initialiser *)

Section ResolveFacts.

Import Init JSString.

Variable Client : Type.
Variable h : Host Client.

Lemma trimStart_head (s : string) :
  match trimStart s with
  | EmptyString => True
  | String c _ => isWhiteSpace c = false
  end.
Proof.
  induction s as [|c s IH]; simpl; [exact I|].
  destruct (isWhiteSpace c) eqn:E; [exact IH | simpl; exact E].
Qed.

Lemma trimEnd_idem (s : string) : trimEnd (trimEnd s) = trimEnd s.
Proof.
  induction s as [|c s IH]; simpl; [reflexivity|].
  destruct (trimEnd s) as [|c' r] eqn:E.
  - destruct (isWhiteSpace c) eqn:Ec; simpl; [reflexivity|].
    rewrite Ec. reflexivity.
  - cbn [trimEnd] in *. rewrite IH. reflexivity.
Qed.

(** [trimEnd] keeps a first character that is not white space. *)
Lemma trimEnd_head (c : ascii) (s : string) :
  isWhiteSpace c = false -> exists r, trimEnd (String c s) = String c r.
Proof.
  intros Hc. simpl. destruct (trimEnd s); [rewrite Hc|]; eexists; reflexivity.
Qed.

Lemma trim_idem (s : string) : trim (trim s) = trim s.
Proof.
  unfold trim. pose proof (trimStart_head s) as Hh.
  destruct (trimStart s) as [|c u]; [reflexivity|].
  destruct (trimEnd_head c u Hh) as [r Hr].
  rewrite Hr. cbn [trimStart]. rewrite Hh, <- Hr. apply trimEnd_idem.
Qed.

Lemma resolve_result (override env : Completion (option string)) (st st' : State Client)
      (s : string) :
  resolve Client override env st = (Returns s, st') -> exists s0, s = trim s0.
Proof.
  unfold resolve, bind, lift, ret.
  destruct override as [o|]; [|discriminate].
  destruct (truthyOpt o).
  - intros H. inversion H. eexists; reflexivity.
  - destruct env as [e|]; [|discriminate].
    intros H. inversion H. eexists; reflexivity.
Qed.

(** The strings that the look-ups resolve to carry no white space at
    either end: trimming them again changes nothing. *)
Theorem resolveConfig_trimmed (st st' : State Client) (url key : string) :
  resolveConfig h st = (Returns (url, key), st') ->
  trim url = url /\ trim key = key.
Proof.
  unfold resolveConfig, bind. intros H.
  destruct (resolve Client (getItem_URL_OVERRIDE h) (env_VITE_SUPABASE_URL h) st)
    as [[u|] st1] eqn:E1; [|discriminate].
  destruct (resolve Client (getItem_ANON_KEY_OVERRIDE h) (env_VITE_SUPABASE_ANON_KEY h) st1)
    as [[k|] st2] eqn:E2; [|discriminate].
  unfold ret in H. inversion H; subst.
  destruct (resolve_result _ _ _ _ _ E1) as [u0 ->].
  destruct (resolve_result _ _ _ _ _ E2) as [k0 ->].
  split; apply trim_idem.
Qed.

(** Two non-empty overrides in local storage decide the configuration:
    the build-time settings are not read, so it does not matter what
    they hold or whether reading them throws. *)
Theorem overrides_win (st : State Client) (u k : string) :
  getItem_URL_OVERRIDE h = Returns (Some u) -> u <> "" ->
  getItem_ANON_KEY_OVERRIDE h = Returns (Some k) -> k <> "" ->
  resolveConfig h st = (Returns (trim u, trim k), st).
Proof.
  intros Hu Hnu Hk Hnk. apply truthy_nonempty in Hnu, Hnk.
  unfold resolveConfig, resolve, bind, lift, ret.
  rewrite Hu, Hk. cbn [truthyOpt]. rewrite Hnu, Hnk. reflexivity.
Qed.

(** An override of the URL that is not empty but holds white space only
    hides the build-time URL: it is chosen, trimmed to the empty string,
    and the handle stays [null], whatever else the host does. *)
Theorem blank_override_hides_env (u : string) :
  getItem_URL_OVERRIDE h = Returns (Some u) -> u <> "" -> trim u = "" ->
  supabase h = None.
Proof.
  intros Hu Hnu Ht. apply truthy_nonempty in Hnu.
  unfold supabase, initialise, tryCatch, tryBlock, resolveConfig, resolve, bind, lift, ret.
  rewrite Hu. cbn [truthyOpt]. rewrite Hnu, Ht.
  destruct (getItem_ANON_KEY_OVERRIDE h) as [o|]; [|reflexivity].
  destruct (truthyOpt o).
  - cbn [fst snd]. unfold configure, validConfig. cbn [truthy andb].
    destruct (_ || _); reflexivity.
  - destruct (env_VITE_SUPABASE_ANON_KEY h) as [e|]; [|reflexivity].
    cbn [fst snd]. unfold configure, validConfig. cbn [truthy andb].
    destruct (_ || _); reflexivity.
Qed.

(** Loading the module writes at most one entry to the console, and
    none at all when it yields a handle; a handle is always the client
    that [createClient] returned for the resolved strings, which pass the
    test of line 9. *)
Theorem handle_or_one_entry :
  (List.length (consoleAfter h) <= 1)%nat
  /\ forall c, supabase h = Some c ->
       consoleAfter h = []
       /\ exists url key,
            resolveConfig h initialState = (Returns (url, key), initialState)
            /\ validConfig url key = true
            /\ createClient h url key = Returns c.
Proof.
  unfold supabase, consoleAfter, initialise, tryCatch, tryBlock, bind.
  pose proof (resolveConfig_state _ h initialState) as Hs.
  destruct (resolveConfig h initialState) as [[[url key]|e] st0]; simpl in Hs; subst st0.
  - cbn [fst snd]. unfold configure.
    destruct (validConfig url key) eqn:Hv.
    + unfold bind, lift, set_supabaseClient.
      destruct (createClient h url key) as [c0|e] eqn:Hc; simpl.
      * split; [lia|]. intros c H. inversion H; subst.
        split; [reflexivity|]. exists url, key. auto.
      * split; [lia|]. discriminate.
    + destruct (truthy url || truthy key); simpl; (split; [lia | discriminate]).
  - simpl. split; [lia | discriminate].
Qed.

End ResolveFacts.

(** ** Facts about the date parser *)

Section ParserFacts.

Import JSString JSDate ReportsView Measures.

Variable zone : TimeZone.

Lemma length_split (sep : ascii) (s : string) :
  List.length (split sep s) = S (countChar sep s).
Proof.
  induction s as [|c s IH]; simpl; [reflexivity|].
  destruct (Ascii.eqb c sep); simpl; [rewrite IH; reflexivity|].
  destruct (split sep s) as [|p ps]; simpl in *; [discriminate | exact IH].
Qed.

Lemma countChar_app (c : ascii) (a b : string) :
  countChar c (a ++ b) = (countChar c a + countChar c b)%nat.
Proof.
  induction a as [|x a IH]; simpl; [reflexivity|]. rewrite IH. lia.
Qed.

(** Splitting after a piece that holds no separator. *)
Lemma split_app (sep : ascii) (p s : string) :
  countChar sep p = 0%nat ->
  split sep (p ++ String sep s) = p :: split sep s.
Proof.
  induction p as [|c p IH]; simpl; intros H.
  - rewrite Ascii.eqb_refl. reflexivity.
  - destruct (Ascii.eqb c sep); [discriminate|].
    rewrite (IH H). reflexivity.
Qed.

Lemma split_last (sep : ascii) (p : string) :
  countChar sep p = 0%nat -> split sep p = [p].
Proof.
  induction p as [|c p IH]; simpl; intros H; [reflexivity|].
  destruct (Ascii.eqb c sep); [discriminate|].
  rewrite (IH H). reflexivity.
Qed.

(** [parseGermanDate] returns [null] exactly for an absent or empty
    string, for "N/A", and for a string that does not hold exactly two
    dots; every other string gives a [Date] object, valid or not. *)
Theorem parseGermanDate_null_iff (dateStr : option string) :
  parseGermanDate zone dateStr = None <->
  dateStr = None
  \/ exists s, dateStr = Some s /\ (s = "" \/ s = "N/A" \/ countChar "." s <> 2%nat).
Proof.
  destruct dateStr as [s|]; simpl; [|tauto].
  pose proof (length_split "." s) as Hlen.
  destruct s as [|c s'] eqn:Es; [simpl; split; eauto 6|].
  rewrite <- Es in *. assert (Ht : truthy s = true) by (rewrite Es; reflexivity).
  rewrite Ht. cbn [negb orb].
  destruct (String.eqb_spec s "N/A") as [En|En].
  - split; eauto 6.
  - split.
    + intros H. right. exists s. split; [reflexivity|]. right. right.
      destruct (split "." s) as [|p0 [|p1 [|p2 [|p3 l]]]]; simpl in Hlen;
        try discriminate; lia.
    + intros [H|[s0 [H0 [H1|[H1|H1]]]]]; try discriminate;
        inversion H0; subst s0; try congruence.
      destruct (split "." s) as [|p0 [|p1 [|p2 [|p3 l]]]]; simpl in Hlen;
        try reflexivity. exfalso. apply H1. lia.
Qed.

(** Three fields without a dot, joined by dots, are read as the day,
    the month counted from 1, and the year, each by [parseInt]. *)
Theorem parseGermanDate_fields (p0 p1 p2 : string) :
  countChar "." p0 = 0%nat -> countChar "." p1 = 0%nat -> countChar "." p2 = 0%nat ->
  parseGermanDate zone (Some (p0 ++ "." ++ p1 ++ "." ++ p2))
  = Some (newDate zone (parseInt10 p2)
                       (option_map (fun m => m - 1) (parseInt10 p1))
                       (parseInt10 p0)).
Proof.
  intros H0 H1 H2. unfold parseGermanDate.
  set (s := p0 ++ "." ++ p1 ++ "." ++ p2).
  assert (Hc : countChar "." s = 2%nat).
  { unfold s. rewrite !countChar_app, H0, H1, H2. reflexivity. }
  assert (Ht : truthy s = true).
  { destruct s; [discriminate Hc | reflexivity]. }
  assert (En : String.eqb s "N/A" = false).
  { destruct (String.eqb_spec s "N/A") as [E|E]; [|reflexivity].
    rewrite E in Hc. discriminate Hc. }
  rewrite Ht, En. cbn [negb orb].
  unfold s. change ("." ++ p1 ++ "." ++ p2) with (String "." (p1 ++ "." ++ p2)).
  rewrite (split_app "." p0 _ H0).
  change ("." ++ p2) with (String "." p2).
  rewrite (split_app "." p1 _ H1), (split_last "." p2 H2).
  reflexivity.
Qed.

End ParserFacts.

(** ** Facts about the time range *)

Section RangeFacts.

Import JSString JSDate ReportsView Measures.

Variable zone : TimeZone.
Hypothesis zone_bounded : boundedZone zone.

(** Around the frozen day of the view, a day number is recovered from
    its year, month and day of the month. *)
Lemma MakeDay_civil_near (d : Z) :
  20480 <= d <= 20500 ->
  MakeDay (fst (fst (civil d))) (snd (fst (civil d))) (snd (civil d)) = d.
Proof.
  intros H.
  replace d with (20480 + Z.of_nat (Z.to_nat (d - 20480))) by lia.
  assert (Hn : (Z.to_nat (d - 20480) <= 20)%nat) by lia.
  revert Hn. generalize (Z.to_nat (d - 20480)). intros n Hn.
  do 21 (destruct n as [|n]; [vm_compute; reflexivity|]). lia.
Qed.

Lemma MakeDay_shift (y m d n : Z) : MakeDay y m (d - n) = MakeDay y m d - n.
Proof. unfold MakeDay. lia. Qed.

(** The time value of [today]: local midnight of a day at most two days
    from 7 February 2026. *)
Lemma today_value :
  exists d1, 20489 <= d1 <= 20493
             /\ getTime (today zone)
                = Some (d1 * msPerDay - LocalTZA_local zone (d1 * msPerDay)).
Proof.
  unfold today, setHours0.
  assert (H0 : getTime (newDate zone (Some 2026) (Some 1) (Some 7))
               = Some (1770422400000 - LocalTZA_local zone 1770422400000)).
  { unfold newDate. cbn [getTime]. apply TimeClip_in_range.
    unfold UTC. change (MakeDate (MakeDay _ 1 7) 0) with 1770422400000.
    destruct (zone_bounded 1770422400000) as [H _]. unfold msPerDay in H. lia. }
  rewrite H0. cbn [getTime].
  set (tv0 := 1770422400000 - LocalTZA_local zone 1770422400000).
  exists (Day (LocalTime zone tv0)).
  destruct (zone_bounded 1770422400000) as [Ha _].
  destruct (zone_bounded tv0) as [_ Hb].
  assert (Hd : 20489 <= Day (LocalTime zone tv0) <= 20493).
  { unfold Day, LocalTime, tv0, msPerDay in *.
    split; [apply Z.div_le_lower_bound | apply Z.div_le_upper_bound]; lia. }
  split; [exact Hd|].
  unfold UTC, MakeDate. rewrite Z.add_0_r. apply TimeClip_in_range.
  destruct (zone_bounded (Day (LocalTime zone tv0) * msPerDay)) as [Hc _].
  unfold msPerDay in *. lia.
Qed.

(** The cut-off of a bounded range of [n] days: a local time at most
    two days from the midnight that starts 7 February 2026, moved back
    by [n] days and converted to UTC. *)
Lemma cutOffDate_value :
  exists d2 w,
    20486 <= d2 <= 20496 /\ 0 <= w < msPerDay
    /\ forall r n, days r = Some n ->
         getTime (cutOffDate zone r)
         = Some (((d2 - n) * msPerDay + w)
                 - LocalTZA_local zone ((d2 - n) * msPerDay + w)).
Proof.
  destruct today_value as [d1 [Hd1 Ht]].
  set (tv1 := d1 * msPerDay - LocalTZA_local zone (d1 * msPerDay)) in *.
  set (t := LocalTime zone tv1).
  exists (Day t), (TimeWithinDay t).
  destruct (zone_bounded (d1 * msPerDay)) as [Ha _].
  destruct (zone_bounded tv1) as [_ Hb].
  assert (Hd : 20486 <= Day t <= 20496).
  { unfold Day, t, LocalTime, tv1, msPerDay in *.
    split; [apply Z.div_le_lower_bound | apply Z.div_le_upper_bound]; lia. }
  assert (Hw : 0 <= TimeWithinDay t < msPerDay).
  { unfold TimeWithinDay, msPerDay. apply Z.mod_pos_bound. lia. }
  split; [exact Hd|]. split; [exact Hw|].
  intros r n Hr.
  assert (Hn : 0 <= n <= 90) by (destruct r; inversion Hr; lia).
  unfold cutOffDate, getDate, setDate. rewrite Ht, Hr. cbn [option_map getTime].
  fold t. unfold YearFromTime, MonthFromTime, DateFromTime.
  rewrite MakeDay_shift, MakeDay_civil_near by lia.
  unfold UTC, MakeDate. apply TimeClip_in_range.
  destruct (zone_bounded ((Day t - n) * msPerDay + TimeWithinDay t)) as [Hc _].
  unfold msPerDay in *. lia.
Qed.

(** A range longer by two days or more has an earlier cut-off. *)
Lemma cutOffDate_order (r r' : TimeRange) (n n' : Z) :
  days r = Some n -> days r' = Some n' -> n + 2 <= n' ->
  exists c c', getTime (cutOffDate zone r) = Some c
               /\ getTime (cutOffDate zone r') = Some c' /\ c' <= c.
Proof.
  intros Hr Hr' Hlt.
  destruct cutOffDate_value as [d2 [w [Hd [Hw Hc]]]].
  rewrite (Hc r n Hr), (Hc r' n' Hr').
  eexists _, _. split; [reflexivity|]. split; [reflexivity|].
  destruct (zone_bounded ((d2 - n) * msPerDay + w)) as [Ha _].
  destruct (zone_bounded ((d2 - n') * msPerDay + w)) as [Hb _].
  unfold msPerDay in *. lia.
Qed.

Lemma rejectsDate_order (r r' : TimeRange) (n n' : Z) (a s te : string) (t : Ticket) :
  days r = Some n -> days r' = Some n' -> n + 2 <= n' ->
  rejectsDate zone (mkReportFilters r' a s te) t = true ->
  rejectsDate zone (mkReportFilters r a s te) t = true.
Proof.
  intros Hr Hr' Hlt.
  destruct (cutOffDate_order r r' n n' Hr Hr' Hlt) as [c [c' [Hc [Hc' Hle]]]].
  unfold rejectsDate. cbn [timeRange].
  destruct r; try discriminate Hr; destruct r'; try discriminate Hr';
    try (exfalso; simpl in Hr, Hr'; inversion Hr; inversion Hr'; lia);
    cbv beta iota;
    (destruct (parseGermanDate zone (entryDate t)) as [d|]; [|reflexivity]);
    rewrite Hc, Hc'; unfold num_lt; (destruct (getTime d) as [x|]; [|discriminate]);
    rewrite !Z.ltb_lt; lia.
Qed.

Lemma keeps_order (r r' : TimeRange) (a s te : string) (t : Ticket) :
  (rejectsDate zone (mkReportFilters r' a s te) t = true ->
   rejectsDate zone (mkReportFilters r a s te) t = true) ->
  keeps zone (mkReportFilters r a s te) t = true ->
  keeps zone (mkReportFilters r' a s te) t = true.
Proof.
  intros H. unfold keeps. cbn [f_area f_status f_technician].
  destruct (rejectsDate zone (mkReportFilters r a s te) t) eqn:E1; [discriminate|].
  destruct (rejectsDate zone (mkReportFilters r' a s te) t) eqn:E2; [|tauto].
  specialize (H eq_refl). discriminate H.
Qed.

(** Widening the time range never removes a ticket: with the same area,
    status and technician filters, what the last 7 days show is shown by
    the last 30 days, that by the last 90 days, and that by the whole
    period. *)
Theorem filteredTickets_range_monotone (a s te : string) (tickets : list Ticket) :
  incl (filteredTickets zone (mkReportFilters R7d a s te) tickets)
       (filteredTickets zone (mkReportFilters R30d a s te) tickets)
  /\ incl (filteredTickets zone (mkReportFilters R30d a s te) tickets)
          (filteredTickets zone (mkReportFilters R90d a s te) tickets)
  /\ incl (filteredTickets zone (mkReportFilters R90d a s te) tickets)
          (filteredTickets zone (mkReportFilters Rall a s te) tickets).
Proof.
  unfold incl, filteredTickets.
  split; [|split]; intros t Ht; apply filter_In in Ht; apply filter_In;
    (split; [tauto|]); destruct Ht as [_ Ht]; revert Ht; apply keeps_order.
  - apply (rejectsDate_order R7d R30d 7 30); [reflexivity | reflexivity | lia].
  - apply (rejectsDate_order R30d R90d 30 90); [reflexivity | reflexivity | lia].
  - discriminate.
Qed.

Lemma monthStart_bound (leap : bool) (m : Z) :
  0 <= m <= 11 -> 0 <= monthStart leap m <= 335.
Proof.
  intros H.
  assert (Hm : m = 0 \/ m = 1 \/ m = 2 \/ m = 3 \/ m = 4 \/ m = 5 \/ m = 6
               \/ m = 7 \/ m = 8 \/ m = 9 \/ m = 10 \/ m = 11) by lia.
  destruct leap; repeat (destruct Hm as [Hm|Hm]; [subst; simpl; lia|]);
    subst; simpl; lia.
Qed.

(** The day number of a date of the years 1900 to 1999. *)
Lemma MakeDay_1900s (y m d : Z) :
  0 <= y <= 99 -> 1 <= m <= 12 -> 1 <= d <= 31 ->
  -25567 <= MakeDay (1900 + y) (m - 1) d <= 10957.
Proof.
  intros Hy Hm Hd. unfold MakeDay.
  assert (Hq : (m - 1) / 12 = 0) by (apply Z.div_small; lia).
  assert (Hr : (m - 1) mod 12 = m - 1) by (apply Z.mod_small; lia).
  rewrite Hq, Hr, Z.add_0_r.
  pose proof (monthStart_bound (InLeapYear (1900 + y)) (m - 1) ltac:(lia)) as Hs.
  assert (Hy' : -25567 <= DayFromYear (1900 + y) <= 10592).
  { unfold DayFromYear. Z.div_mod_to_equations. lia. }
  lia.
Qed.

(** A two-digit year is a year of the 1900s: a ticket whose entry date
    reads as day [d], month [m] and a year from 0 to 99 is rejected by
    every bounded range. *)
Theorem two_digit_year_rejected (fs : ReportFilters) (t : Ticket) (d m y : Z) :
  timeRange fs <> Rall ->
  parseGermanDate zone (entryDate t)
  = Some (newDate zone (Some y) (Some (m - 1)) (Some d)) ->
  0 <= y <= 99 -> 1 <= m <= 12 -> 1 <= d <= 31 ->
  keeps zone fs t = false.
Proof.
  intros Hr Hp Hy Hm Hd.
  pose proof (MakeDay_1900s y m d Hy Hm Hd) as Hday.
  assert (Hyr : (if (0 <=? y) && (y <=? 99) then 1900 + y else y) = 1900 + y).
  { destruct (Z.leb_spec 0 y); [|lia]. destruct (Z.leb_spec y 99); [reflexivity | lia]. }
  assert (Hg : getTime (newDate zone (Some y) (Some (m - 1)) (Some d))
               = Some (MakeDate (MakeDay (1900 + y) (m - 1) d) 0
                       - LocalTZA_local zone (MakeDate (MakeDay (1900 + y) (m - 1) d) 0))).
  { pose proof (newDate_getTime zone y (m - 1) d) as Hn. cbv zeta in Hn.
    rewrite Hyr in Hn. apply Hn; [apply zone_bounded | lia]. }
  destruct cutOffDate_value as [d2 [w [Hd2 [Hw Hc]]]].
  unfold keeps, rejectsDate. rewrite Hp, Hg.
  destruct (zone_bounded (MakeDate (MakeDay (1900 + y) (m - 1) d) 0)) as [Ha _].
  assert (Hlt : forall r n, days r = Some n ->
                  num_lt (Some (MakeDate (MakeDay (1900 + y) (m - 1) d) 0
                                - LocalTZA_local zone
                                    (MakeDate (MakeDay (1900 + y) (m - 1) d) 0)))
                         (getTime (cutOffDate zone r)) = true).
  { intros r n Hn. rewrite (Hc r n Hn). unfold num_lt. apply Z.ltb_lt.
    assert (0 <= n <= 90) by (destruct r; inversion Hn; lia).
    destruct (zone_bounded ((d2 - n) * msPerDay + w)) as [Hb _].
    unfold MakeDate, msPerDay in *. lia. }
  destruct (timeRange fs); try congruence;
    erewrite Hlt by reflexivity; reflexivity.
Qed.

End RangeFacts.

Section FixedOffset.

Import JSString JSDate ReportsView Measures.

Variable o : Z.
Hypothesis o_bounded : Z.abs o <= msPerDay.

Lemma today_fixed : getTime (today (fixedZone o)) = Some (20491 * msPerDay - o).
Proof.
  unfold today, setHours0, newDate, UTC, LocalTime, fixedZone.
  cbn [LocalTZA_local LocalTZA_utc getTime andb].
  change (MakeDate (MakeDay _ 1 7) 0) with 1770422400000.
  rewrite TimeClip_in_range by (unfold msPerDay in *; lia).
  cbn [getTime].
  replace (1770422400000 - o + o) with 1770422400000 by lia.
  change (MakeDate (Day 1770422400000) 0) with 1770422400000.
  rewrite TimeClip_in_range by (unfold msPerDay in *; lia).
  reflexivity.
Qed.

(** In a zone with a fixed offset the cut-off of a range of [n] days is
    the local midnight that starts the day [n] days before 7 February 2026. *)
Lemma cutOffDate_fixed (r : TimeRange) (n : Z) :
  days r = Some n ->
  getTime (cutOffDate (fixedZone o) r) = Some ((20491 - n) * msPerDay - o).
Proof.
  intros Hr.
  assert (Hn : 0 <= n <= 90) by (destruct r; inversion Hr; lia).
  unfold cutOffDate, getDate, setDate. rewrite today_fixed, Hr.
  cbn [option_map]. unfold LocalTime, UTC, fixedZone.
  cbn [LocalTZA_local LocalTZA_utc getTime].
  replace (20491 * msPerDay - o + o) with 1770422400000 by (unfold msPerDay; lia).
  change (DateFromTime 1770422400000) with 7.
  change (YearFromTime 1770422400000) with 2026.
  change (MonthFromTime 1770422400000) with 1.
  change (TimeWithinDay 1770422400000) with 0.
  rewrite MakeDay_shift. change (MakeDay 2026 1 7) with 20491.
  unfold MakeDate. rewrite Z.add_0_r.
  rewrite TimeClip_in_range by (unfold msPerDay in *; lia).
  reflexivity.
Qed.

(** The boundary of a bounded range, in a zone with a fixed offset: a
    ticket whose entry date is a date of the calendar is rejected exactly
    when its day lies more than [n] days before 7 February 2026, the day
    the view takes for today.  The day [n] days before is still shown,
    and so is every later day, days after 7 February 2026 included. *)
Theorem range_boundary (fs : ReportFilters) (t : Ticket) (n y m d : Z) :
  let yr := if (0 <=? y) && (y <=? 99) then 1900 + y else y in
  days (timeRange fs) = Some n ->
  parseGermanDate (fixedZone o) (entryDate t)
  = Some (newDate (fixedZone o) (Some y) (Some m) (Some d)) ->
  Z.abs (MakeDay yr m d) < 100000000 ->
  rejectsDate (fixedZone o) fs t = (MakeDay yr m d <? MakeDay 2026 1 7 - n).
Proof.
  intros yr Hr Hp Hb.
  assert (Hg : getTime (newDate (fixedZone o) (Some y) (Some m) (Some d))
               = Some (MakeDate (MakeDay yr m d) 0 - o)).
  { apply (newDate_getTime (fixedZone o) y m d); [exact o_bounded | exact Hb]. }
  unfold rejectsDate. rewrite Hp, Hg.
  assert (Hlt : num_lt (Some (MakeDate (MakeDay yr m d) 0 - o))
                       (getTime (cutOffDate (fixedZone o) (timeRange fs)))
                = (MakeDay yr m d <? MakeDay 2026 1 7 - n)).
  { rewrite (cutOffDate_fixed _ n Hr). unfold num_lt.
    change (MakeDay 2026 1 7) with 20491.
    unfold MakeDate, msPerDay.
    destruct (Z.ltb_spec (MakeDay yr m d) (20491 - n));
      [apply Z.ltb_lt | apply Z.ltb_ge]; lia. }
  destruct (timeRange fs); try discriminate Hr; exact Hlt.
Qed.

End FixedOffset.





(** ** The statistics and the filtered tickets *)

Section AreaFacts.

Import JSString JSNumber JSDate JSObject ReportsView Measures.

Variable zone : TimeZone.
Variable types : Types.

Lemma filter_disjoint_length {A : Type} (p q : A -> bool) (l : list A) :
  (forall x, p x = true -> q x = false) ->
  (List.length (filter p l) + List.length (filter q l) <= List.length l)%nat.
Proof.
  intros H. induction l as [|x l IH]; simpl; [lia|].
  destruct (p x) eqn:Ep; [rewrite (H x Ep)|destruct (q x)]; simpl; lia.
Qed.

(** The four numbers of the cards: no more tickets are counted than
    there are, the completed and the overdue ones are among the counted,
    and, the two statuses being different, they do not overlap. *)
Theorem stats_bounds (reportFilters : ReportFilters) (tickets : list Ticket) :
  let s := stats zone types (filteredTickets zone reportFilters tickets) in
  (total s <= List.length tickets)%nat
  /\ (abgeschlossene s <= total s)%nat
  /\ (ueberfaellige s <= total s)%nat
  /\ (Status_Abgeschlossen types <> Status_Ueberfaellig types ->
      (abgeschlossene s + ueberfaellige s <= total s)%nat).
Proof.
  intros s. unfold s, stats, filteredTickets.
  cbn [total abgeschlossene ueberfaellige].
  split; [apply filter_length_le|]. split; [apply filter_length_le|].
  split; [apply filter_length_le|].
  intros Hne. apply filter_disjoint_length.
  intros t Ht. unfold isAbgeschlossen, isUeberfaellig in *.
  apply String.eqb_eq in Ht. apply String.eqb_neq. congruence.
Qed.

Lemma addProcessingTime_NaN (t : Ticket) : addProcessingTime zone None t = None.
Proof.
  unfold addProcessingTime.
  destruct (parseGermanDate zone (entryDate t)); [|reflexivity].
  destruct (parseGermanDate zone (completionDate t)); reflexivity.
Qed.

Lemma fold_addProcessingTime_NaN (l : list Ticket) :
  fold_left (addProcessingTime zone) l None = None.
Proof.
  induction l as [|t l IH]; simpl; [reflexivity|].
  rewrite addProcessingTime_NaN. exact IH.
Qed.

(** One invalid date spoils the average: when a completed ticket with
    both date fields present has dates that both parse to [Date]
    objects, one of them invalid, the card shows "NaN". *)
Theorem stats_invalid_date (filtered : list Ticket) (t : Ticket) (entry completion : Date) :
  In t filtered -> isResolved types t = true ->
  parseGermanDate zone (entryDate t) = Some entry ->
  parseGermanDate zone (completionDate t) = Some completion ->
  getTime entry = None \/ getTime completion = None ->
  avgProcessingTimeFixed (stats zone types filtered) = "NaN".
Proof.
  intros Hin Hres He Hc Hnan.
  assert (Hin' : In t (filter (isResolved types) filtered)).
  { apply filter_In. split; assumption. }
  unfold stats. cbn [avgProcessingTimeFixed].
  generalize dependent (filter (isResolved types) filtered). intros l Hl.
  assert (Hstep : forall acc, addProcessingTime zone acc t = None).
  { intros acc. unfold addProcessingTime. rewrite He, Hc.
    destruct Hnan as [H|H]; rewrite H; destruct acc; try reflexivity;
      destruct (getTime completion); reflexivity. }
  assert (Htot : totalTime zone l = None).
  { unfold totalTime. generalize (Some 0). revert Hl.
    induction l as [|x l IH]; intros Hl acc; [destruct Hl|].
    cbn [fold_left]. destruct Hl as [->|Hl].
    - rewrite Hstep. apply fold_addProcessingTime_NaN.
    - apply IH. exact Hl. }
  unfold avgProcessingTime. rewrite Htot.
  destruct l; [destruct Hl | reflexivity].
Qed.

(** A ticket is shown exactly when it is in the list, passes the date
    block, and equals each of the three filters that is not "Alle" in
    the respective field; with all four filters at "show all" the list
    is shown as it is. *)
Theorem filteredTickets_spec (reportFilters : ReportFilters) (tickets : list Ticket) :
  (forall t, In t (filteredTickets zone reportFilters tickets) <->
             In t tickets
             /\ rejectsDate zone reportFilters t = false
             /\ (f_area reportFilters = "Alle" \/ area t = f_area reportFilters)
             /\ (f_status reportFilters = "Alle" \/ status t = f_status reportFilters)
             /\ (f_technician reportFilters = "Alle"
                 \/ technician t = f_technician reportFilters))
  /\ filteredTickets zone (mkReportFilters Rall "Alle" "Alle" "Alle") tickets = tickets.
Proof.
  split.
  - intros t. unfold filteredTickets. rewrite filter_In. unfold keeps.
    destruct (rejectsDate zone reportFilters t); [intuition discriminate|].
    destruct (String.eqb_spec (f_area reportFilters) "Alle") as [Ea|Ea];
      destruct (String.eqb_spec (area t) (f_area reportFilters)) as [Ea'|Ea'];
      destruct (String.eqb_spec (f_status reportFilters) "Alle") as [Es|Es];
      destruct (String.eqb_spec (status t) (f_status reportFilters)) as [Es'|Es'];
      destruct (String.eqb_spec (f_technician reportFilters) "Alle") as [Et|Et];
      destruct (String.eqb_spec (technician t) (f_technician reportFilters)) as [Et'|Et'];
      cbn [negb andb]; intuition (try discriminate; try congruence).
  - unfold filteredTickets. induction tickets as [|t l IH]; [reflexivity|].
    cbn [filter]. rewrite keeps_Alle. cbn [rejectsDate timeRange negb].
    rewrite IH. reflexivity.
Qed.

End AreaFacts.

(** ** Facts about the bar chart component *)

Section BarChartFacts.

Import JSNumber BarChart.

Lemma maxValue_numbers (values : list (option Q)) :
  (forall v, In v values -> exists q, v = Some q) ->
  exists m, maxValue values = Some m
            /\ (1 <= m)%Q
            /\ (forall q, In (Some q) values -> (q <= m)%Q)
            /\ (m = 1%Q \/ In (Some m) values).
Proof.
  induction values as [|v vs IH]; intros Hall.
  - exists 1%Q. simpl. repeat split; [apply Qle_refl | tauto | auto].
  - destruct IH as [m [Hm [H1 [Hle Hor]]]].
    { intros v' Hv'. apply Hall. right. exact Hv'. }
    destruct (Hall v (or_introl eq_refl)) as [x ->].
    unfold maxValue in *. cbn [fold_right]. rewrite Hm. cbn [num_max].
    destruct (Qle_bool x m) eqn:E.
    + apply Qle_bool_iff in E. exists m. split; [reflexivity|]. split; [exact H1|].
      split.
      * intros q [Hq|Hq]; [inversion Hq; subst; exact E | exact (Hle q Hq)].
      * destruct Hor as [Hor|Hor]; [left | right; right]; assumption.
    + assert (Hlt : (m < x)%Q).
      { apply Qnot_le_lt. intros H. apply Qle_bool_iff in H. congruence. }
      exists x. split; [reflexivity|].
      split; [exact (Qle_trans _ _ _ H1 (Qlt_le_weak _ _ Hlt))|].
      split.
      * intros q [Hq|Hq]; [inversion Hq; apply Qle_refl|].
        exact (Qle_trans _ _ _ (Hle q Hq) (Qlt_le_weak _ _ Hlt)).
      * right. left. reflexivity.
Qed.

Lemma maxValue_NaN (values : list (option Q)) :
  In None values -> maxValue values = None.
Proof.
  unfold maxValue. induction values as [|v vs IH]; intros Hin; [destruct Hin|].
  cbn [fold_right]. destruct Hin as [->|Hin]; [reflexivity|].
  rewrite (IH Hin). destruct v; reflexivity.
Qed.

Lemma barWidth_bounds (x m : Q) :
  (0 <= x)%Q -> (x <= m)%Q -> (1 <= m)%Q -> (0 <= x / m * 100 <= 100)%Q.
Proof.
  intros H0 Hxm H1.
  assert (Hpos : (0 < m)%Q) by (apply (Qlt_le_trans _ 1); [reflexivity | exact H1]).
  split.
  - apply Qmult_le_0_compat; [|discriminate].
    apply Qle_shift_div_l; [exact Hpos|]. rewrite Qmult_0_l. exact H0.
  - setoid_replace 100%Q with (1 * 100)%Q at 2 by reflexivity.
    apply Qmult_le_compat_r; [|discriminate].
    apply Qle_shift_div_r; [exact Hpos|]. rewrite Qmult_1_l. exact Hxm.
Qed.

(** For data whose values are numbers that are not negative, the chart
    has a row for every item, in the order of the data; every bar is
    between 0 and 100 percent wide; and a bar whose value is at least 1
    and is the largest of the data is 100 percent wide. *)
Theorem HorizontalBarChart_widths (data : list (string * option Q)) (valueSuffix : string) :
  data <> [] ->
  (forall item, In item data -> exists q, snd item = Some q /\ (0 <= q)%Q) ->
  exists rows,
    HorizontalBarChart data valueSuffix = Some rows
    /\ map rowLabel rows = map fst data
    /\ (forall r, In r rows -> exists w, rowWidth r = Some w /\ (0 <= w <= 100)%Q)
    /\ (forall item x, In item data -> snd item = Some x -> (1 <= x)%Q ->
          (forall q, In (Some q) (map snd data) -> (q <= x)%Q) ->
          exists w, barWidth (maxValue (map snd data)) (Some x) = Some w
                    /\ (w == 100)%Q).
Proof.
  intros Hne Hall.
  destruct (maxValue_numbers (map snd data)) as [m [Hm [H1 [Hle Hor]]]].
  { intros v Hv. apply in_map_iff in Hv. destruct Hv as [item [<- Hin]].
    destruct (Hall item Hin) as [q [Hq _]]. eauto. }
  unfold HorizontalBarChart. rewrite Hm.
  destruct data as [|i0 data']; [congruence|]. cbn [List.length Nat.ltb Nat.leb].
  eexists. split; [reflexivity|].
  split; [rewrite map_map; reflexivity|].
  split.
  - intros r Hr. apply in_map_iff in Hr. destruct Hr as [item [<- Hin]].
    destruct (Hall item Hin) as [q [Hq H0]]. cbn [rowWidth]. rewrite Hq. cbn [barWidth].
    eexists. split; [reflexivity|].
    apply barWidth_bounds; [exact H0 | | exact H1].
    apply Hle. rewrite <- Hq. apply in_map. exact Hin.
  - intros item x Hin Hx H1x Hmax. cbn [barWidth].
    eexists. split; [reflexivity|].
    assert (Hxm : (x == m)%Q).
    { apply Qle_antisym.
      - apply Hle. rewrite <- Hx. apply in_map. exact Hin.
      - destruct Hor as [->|Hor]; [exact H1x | exact (Hmax m Hor)]. }
    rewrite Hxm. field. intros H. rewrite H in H1.
    unfold Qle in H1. simpl in H1. lia.
Qed.

(** A value that is [NaN] makes the maximum [NaN], and with it the
    width of every bar of the chart. *)
Theorem HorizontalBarChart_NaN (data : list (string * option Q)) (valueSuffix : string) :
  In None (map snd data) ->
  exists rows,
    HorizontalBarChart data valueSuffix = Some rows
    /\ List.length rows = List.length data
    /\ forall r, In r rows -> rowWidth r = None.
Proof.
  intros Hin. unfold HorizontalBarChart. rewrite (maxValue_NaN _ Hin).
  destruct data as [|i0 data']; [destruct Hin|]. cbn [List.length Nat.ltb Nat.leb].
  eexists. split; [reflexivity|]. split; [rewrite length_map; reflexivity|].
  intros r Hr. apply in_map_iff in Hr. destruct Hr as [item [<- _]].
  cbn [rowWidth]. destruct (snd item); reflexivity.
Qed.

Lemma toFixed0_count (n : nat) :
  toFixed0 (numberOfNat n) = decimal (Z.of_nat n).
Proof.
  unfold toFixed0, numberOfNat.
  assert (Hle : Qle_bool 0 (inject_Z (Z.of_nat n)) = true).
  { apply Qle_bool_iff. rewrite <- (Zle_Qle 0). lia. }
  rewrite Hle.
  assert (Hf : Qfloor (Qabs (inject_Z (Z.of_nat n)) + (1 # 2)) = Z.of_nat n).
  { unfold Qabs, inject_Z, Qplus, Qfloor. cbn [Qnum Qden].
    rewrite Z.abs_eq by lia.
    change (Z.pos (1 * 2)) with 2. Z.div_mod_to_equations. lia. }
  rewrite Hf. reflexivity.
Qed.

(** A chart of counts shows every count as a whole number, without a
    decimal point, followed by the suffix. *)
Theorem barText_count (n : nat) (valueSuffix : string) :
  barText (numberOfNat n) valueSuffix = decimal (Z.of_nat n) ++ valueSuffix.
Proof.
  unfold barText.
  assert (Hw : isWhole (inject_Z (Z.of_nat n)) = true).
  { unfold isWhole. rewrite Qfloor_Z. apply Qeq_bool_iff. reflexivity. }
  change (numberOfNat n) with (Some (inject_Z (Z.of_nat n))) at 1.
  cbv beta iota. rewrite Hw.
  change (Some (inject_Z (Z.of_nat n))) with (numberOfNat n).
  rewrite toFixed0_count. reflexivity.
Qed.

End BarChartFacts.



(** ** The further theorems at sample inputs *)

Section MoreInstances.

Import Init JSString JSNumber JSDate JSObject ReportsView BarChart Measures Samples.

Lemma cet_bounded : boundedZone cet.
Proof. intros t. split; vm_compute; intros H; discriminate H. Qed.

Lemma resolveConfig_trimmed_witness :
  resolveConfig hostOk initialState
  = (Returns ("https://x.supabase.co", "anon-key"), initialState)
  /\ trim "https://x.supabase.co" = "https://x.supabase.co"
  /\ trim "anon-key" = "anon-key".
Proof.
  split; [reflexivity|].
  apply (resolveConfig_trimmed _ hostOk initialState initialState). reflexivity.
Defined.

Lemma overrides_win_witness :
  resolveConfig hostOverrides initialState
  = (Returns (trim " https://o.supabase.co", trim "override-key "), initialState).
Proof.
  apply (overrides_win _ hostOverrides initialState);
    [reflexivity | discriminate | reflexivity | discriminate].
Defined.

Lemma blank_override_hides_env_witness :
  env_VITE_SUPABASE_URL hostBlank = Returns (Some "https://x.supabase.co")
  /\ supabase hostBlank = None.
Proof.
  split; [reflexivity|].
  apply (blank_override_hides_env _ hostBlank "   ");
    [reflexivity | discriminate | reflexivity].
Defined.

Lemma parseGermanDate_fields_witness :
  parseGermanDate cet (Some ("01" ++ "." ++ "02" ++ "." ++ "2026"))
  = Some (newDate cet (Some 2026) (Some 1) (Some 1)).
Proof.
  exact (parseGermanDate_fields cet "01" "02" "2026" eq_refl eq_refl eq_refl).
Defined.

Lemma filteredTickets_range_monotone_witness :
  incl (filteredTickets cet (mkReportFilters R7d "Alle" "Alle" "Bob")
                        [tenDays; onCutOff; bobsOpen])
       (filteredTickets cet (mkReportFilters R30d "Alle" "Alle" "Bob")
                        [tenDays; onCutOff; bobsOpen])
  /\ incl (filteredTickets cet (mkReportFilters R30d "Alle" "Alle" "Bob")
                           [tenDays; onCutOff; bobsOpen])
          (filteredTickets cet (mkReportFilters R90d "Alle" "Alle" "Bob")
                           [tenDays; onCutOff; bobsOpen])
  /\ incl (filteredTickets cet (mkReportFilters R90d "Alle" "Alle" "Bob")
                           [tenDays; onCutOff; bobsOpen])
          (filteredTickets cet (mkReportFilters Rall "Alle" "Alle" "Bob")
                           [tenDays; onCutOff; bobsOpen]).
Proof.
  exact (filteredTickets_range_monotone cet cet_bounded "Alle" "Alle" "Bob"
           [tenDays; onCutOff; bobsOpen]).
Defined.

Lemma two_digit_year_rejected_witness :
  parseGermanDate cet (entryDate twoDigitYear)
  = Some (newDate cet (Some 26) (Some (2 - 1)) (Some 5))
  /\ keeps cet lastWeek twoDigitYear = false.
Proof.
  split; [reflexivity|].
  apply (two_digit_year_rejected cet cet_bounded lastWeek twoDigitYear 5 2 26);
    [discriminate | reflexivity | lia | lia | lia].
Defined.

Lemma range_boundary_witness :
  days (timeRange lastWeek) = Some 7
  /\ rejectsDate cet lastWeek onCutOff = (MakeDay 2026 0 31 <? MakeDay 2026 1 7 - 7).
Proof.
  split; [reflexivity|].
  assert (Ho : Z.abs 3600000 <= msPerDay) by (vm_compute; intros H; discriminate H).
  assert (Hb : Z.abs (MakeDay 2026 0 31) < 100000000) by (vm_compute; reflexivity).
  exact (range_boundary 3600000 Ho lastWeek onCutOff 7 2026 0 31 eq_refl eq_refl Hb).
Defined.

Lemma stats_invalid_date_witness :
  isResolved sampleTypes completedNoYear = true
  /\ avgProcessingTimeFixed (stats cet sampleTypes [tenDays; completedNoYear]) = "NaN".
Proof.
  split; [reflexivity|].
  apply (stats_invalid_date cet sampleTypes [tenDays; completedNoYear] completedNoYear
           (mkDate None) (newDate cet (Some 2026) (Some 0) (Some 11)));
    [right; left; reflexivity | reflexivity | reflexivity | reflexivity
     | left; reflexivity].
Defined.

Lemma avgProcessingTime_mean_witness :
  map (processingTime cet) [tenDays; tenDays] = map Some [864000000; 864000000]
  /\ avgProcessingTime cet [tenDays; tenDays]
     = Some (inject_Z (sumZ [864000000%Z; 864000000%Z]) / inject_Z (Z.of_nat 2)
             / inject_Z (1000 * 60 * 60 * 24))%Q.
Proof.
  split; [vm_compute; reflexivity|].
  apply (avgProcessingTime_mean cet [tenDays; tenDays] [864000000; 864000000]);
    [discriminate | vm_compute; reflexivity].
Defined.

Lemma HorizontalBarChart_widths_witness :
  exists rows,
    HorizontalBarChart [("Bob", numberOfNat 3); ("Eve", numberOfNat 0)] "" = Some rows
    /\ map rowLabel rows = ["Bob"; "Eve"].
Proof.
  destruct (HorizontalBarChart_widths [("Bob", numberOfNat 3); ("Eve", numberOfNat 0)] "")
    as [rows [H1 [H2 _]]].
  - discriminate.
  - intros item [<-|[<-|[]]]; eexists; (split; [reflexivity | discriminate]).
  - exists rows. split; assumption.
Defined.

Lemma HorizontalBarChart_NaN_witness :
  exists rows,
    HorizontalBarChart [("Bob", None); ("Eve", Some 0%Q)] " Tage" = Some rows
    /\ List.length rows = 2%nat
    /\ forall r, In r rows -> rowWidth r = None.
Proof.
  apply (HorizontalBarChart_NaN [("Bob", None); ("Eve", Some 0%Q)] " Tage").
  left. reflexivity.
Defined.

Lemma stats_bounds_witness :
  Status_Abgeschlossen sampleTypes <> Status_Ueberfaellig sampleTypes
  /\ (abgeschlossene (stats cet sampleTypes
                        (filteredTickets cet allFilters [tenDays; bobsOpen]))
      + ueberfaellige (stats cet sampleTypes
                         (filteredTickets cet allFilters [tenDays; bobsOpen]))
      <= total (stats cet sampleTypes
                  (filteredTickets cet allFilters [tenDays; bobsOpen])))%nat.
Proof.
  assert (Hne : Status_Abgeschlossen sampleTypes <> Status_Ueberfaellig sampleTypes)
    by discriminate.
  split; [exact Hne|].
  exact (proj2 (proj2 (proj2 (stats_bounds cet sampleTypes allFilters
                                [tenDays; bobsOpen]))) Hne).
Defined.

Lemma ticketsByTechnician_plain_witness :
  plainTechnicians (technicians sampleTypes [bob; eve; admin])
  /\ plainTickets (filteredTickets cet allFilters [bobsOpen; tenDays; unassigned])
  /\ StronglySorted (fun a b => descending (bar a) (bar b))
       (ticketsByTechnician (filteredTickets cet allFilters [bobsOpen; tenDays; unassigned])
                            (technicians sampleTypes [bob; eve; admin])).
Proof.
  assert (Hpt : plainTechnicians (technicians sampleTypes [bob; eve; admin]))
    by (repeat constructor).
  assert (Hpf : plainTickets (filteredTickets cet allFilters
                                [bobsOpen; tenDays; unassigned]))
    by (repeat constructor).
  split; [exact Hpt|]. split; [exact Hpf|].
  exact (proj2 (proj2 (proj2 (ticketsByTechnician_plain cet sampleTypes allFilters
                                [bobsOpen; tenDays; unassigned] [bob; eve; admin]
                                Hpt Hpf)))).
Defined.

Lemma ticketsByTechnician_values_witness :
  exists b,
    In b (ticketsByTechnician (filteredTickets cet allFilters [bobsOpen; tenDays; unassigned])
                              (technicians sampleTypes [bob; eve; admin]))
    /\ In (label (bar b)) (map name (technicians sampleTypes [bob; eve; admin]))
    /\ label (bar b) = "Bob" /\ value (bar b) = Num 2.
Proof.
  eexists. split; [left; reflexivity|]. split; [left; reflexivity|].
  split; [reflexivity|].
  rewrite (ticketsByTechnician_values cet sampleTypes allFilters
             [bobsOpen; tenDays; unassigned] [bob; eve; admin] _
             (or_introl eq_refl) (or_introl eq_refl)).
  reflexivity.
Defined.

Lemma technician_filter_isolates_witness :
  exists next,
    handleFilterChange initialReportFilters "technician" "Bob" = Some next
    /\ (forall t, In t (filteredTickets cet next [bobsOpen; unassigned]) ->
                  technician t = "Bob")
    /\ (forall b, In b (ticketsByTechnician (filteredTickets cet next [bobsOpen; unassigned])
                                            (technicians sampleTypes [bob; eve])) ->
                  label (bar b) <> "Bob" -> value (bar b) = Num 0).
Proof.
  apply (technician_filter_isolates cet sampleTypes initialReportFilters "Bob"
           [bobsOpen; unassigned] [bob; eve]).
  discriminate.
Defined.

Lemma technicianWorkload_bars_witness :
  plainTechnicians (technicians sampleTypes [bob; eve; admin])
  /\ plainTickets (filter (isActive sampleTypes)
                          (filteredTickets cet allFilters [bobsOpen; tenDays; unassigned]))
  /\ StronglySorted descendingQ
       (technicianWorkload sampleTypes
          (filteredTickets cet allFilters [bobsOpen; tenDays; unassigned])
          (technicians sampleTypes [bob; eve; admin])).
Proof.
  assert (Hpt : plainTechnicians (technicians sampleTypes [bob; eve; admin]))
    by (repeat constructor).
  assert (Hpa : plainTickets (filter (isActive sampleTypes)
                                (filteredTickets cet allFilters
                                   [bobsOpen; tenDays; unassigned])))
    by (repeat constructor).
  split; [exact Hpt|]. split; [exact Hpa|].
  exact (proj1 (technicianWorkload_bars cet sampleTypes allFilters
                  [bobsOpen; tenDays; unassigned] [bob; eve; admin] Hpt Hpa)).
Defined.

Lemma allTechnicianNames_bars_witness :
  plainTechnicians (technicians sampleTypes [bob; eve; admin])
  /\ plainTickets (filteredTickets cet allFilters [bobsOpen; tenDays; unassigned])
  /\ hd_error (allTechnicianNames sampleTypes [bob; eve; admin]) = Some "Alle"
  /\ In "Eve" (map (fun b => label (bar b))
                   (ticketsByTechnician
                      (filteredTickets cet allFilters [bobsOpen; tenDays; unassigned])
                      (technicians sampleTypes [bob; eve; admin]))).
Proof.
  assert (Hpt : plainTechnicians (technicians sampleTypes [bob; eve; admin]))
    by (repeat constructor).
  assert (Hpf : plainTickets (filteredTickets cet allFilters
                                [bobsOpen; tenDays; unassigned]))
    by (repeat constructor).
  split; [exact Hpt|]. split; [exact Hpf|].
  destruct (allTechnicianNames_bars cet sampleTypes allFilters
              [bobsOpen; tenDays; unassigned] [bob; eve; admin] Hpt Hpf) as [Hhd Hiff].
  split; [exact Hhd|].
  destruct (proj1 (Hiff "Eve") (or_intror (or_intror (or_introl eq_refl)))) as [H|H];
    [discriminate H | exact H].
Defined.

Lemma avgProcessingTimePerTechnician_bars_witness :
  plainTechnicians (technicians sampleTypes [bob; admin])
  /\ plainTickets (filter (isResolvedAssigned sampleTypes)
                          (filteredTickets cet allFilters [tenDays; bobsOpen]))
  /\ exists result,
       avgProcessingTimePerTechnician cet sampleTypes
         (filteredTickets cet allFilters [tenDays; bobsOpen])
         (technicians sampleTypes [bob; admin])
       = Some result
       /\ NoDup (map label result).
Proof.
  assert (Hpt : plainTechnicians (technicians sampleTypes [bob; admin]))
    by (repeat constructor).
  assert (Hpr : plainTickets (filter (isResolvedAssigned sampleTypes)
                                (filteredTickets cet allFilters [tenDays; bobsOpen])))
    by (repeat constructor).
  split; [exact Hpt|]. split; [exact Hpr|].
  destruct (avgProcessingTimePerTechnician_bars cet sampleTypes allFilters
              [tenDays; bobsOpen] [bob; admin] Hpt Hpr) as [result [Hr [Hnd _]]].
  exists result. split; [exact Hr | exact Hnd].
Defined.

Lemma ticketsByArea_top8_witness :
  plainAreas (filteredTickets cet allFilters [bobsOpen; tenDays; unassigned])
  /\ StronglySorted descending
       (ticketsByArea (filteredTickets cet allFilters [bobsOpen; tenDays; unassigned]))
  /\ list_sum (map (fun b => numberOf (value b))
                   (ticketsByArea
                      (filteredTickets cet allFilters [bobsOpen; tenDays; unassigned])))
     = List.length (filteredTickets cet allFilters [bobsOpen; tenDays; unassigned]).
Proof.
  assert (Hp : plainAreas (filteredTickets cet allFilters [bobsOpen; tenDays; unassigned]))
    by (repeat constructor).
  split; [exact Hp|].
  destruct (ticketsByArea_top8 cet allFilters [bobsOpen; tenDays; unassigned] Hp)
    as [_ [Hs [_ [_ [_ [_ Hall]]]]]].
  split; [exact Hs|].
  apply Hall. vm_compute. lia.
Defined.

End MoreInstances.
